(** * logos.readings: date ranges, reading ingestion, meditation drafts, approval

    A shallow embedding of the two management commands
    [fetch_vatican_readings] and [generate_meditation], of the Gemini
    service they call and of the admin hook [GospelMeditationAdmin.save_model],
    followed by the properties the specification states about them.

    Conventions of the embedding.
    - A Python [str] is the list of its code points.
    - A [datetime.date] is represented by its proleptic Gregorian ordinal
      ([date.toordinal()]), between 1 and [_MAXORDINAL]; year, month and day
      are recovered with [_ord2ymd] as in the standard library.
    - Code with effects (database tables, the two output streams, HTTP
      requests) runs in a state-and-exception monad over [World]; what the
      outside answers (HTTP responses, the clock, the settings) is read from
      an [Env]. *)

From Stdlib Require Import String Ascii ZArith NArith List Bool Lia.
Import ListNotations.
Local Open Scope Z_scope.

(* ------------------------------------------------------------------------- *)
(** ** Python values *)

Module Py.

(** [str]: a sequence of code points. *)
Definition str := list N.

(** Code points of a byte sequence in UTF-8 (sequences of one, two and
    three bytes, which cover the literals of the sources). *)
Fixpoint utf8_decode (bytes : list N) : str :=
  match bytes with
  | [] => []
  | b1 :: rest =>
      if (b1 <? 192)%N then b1 :: utf8_decode rest
      else
        match rest with
        | [] => [b1]
        | b2 :: rest2 =>
            if (b1 <? 224)%N then
              ((b1 - 192) * 64 + (b2 - 128))%N :: utf8_decode rest2
            else
              match rest2 with
              | [] => [b1; b2]
              | b3 :: rest3 =>
                  ((b1 - 224) * 4096 + (b2 - 128) * 64 + (b3 - 128))%N
                  :: utf8_decode rest3
              end
        end
  end.

(** A string literal of the sources. *)
Definition lit (s : string) : str :=
  utf8_decode (map N_of_ascii (list_ascii_of_string s)).

(** The literal ["\n"]. *)
Definition newline : str := [10%N].

Definition nonempty (s : str) : bool :=
  match s with
  | [] => false
  | _ :: _ => true
  end.

(** Truth value of an optional string argument: [None] and [""] are false. *)
Definition truthy_str (o : option str) : bool :=
  match o with
  | Some (_ :: _) => true
  | _ => false
  end.

(** Truth value of an optional integer argument: [None] and [0] are false. *)
Definition truthy_int (o : option Z) : bool :=
  match o with
  | Some n => negb (n =? 0)
  | None => false
  end.

(** [str.isspace] on one code point (the table of [Py_UNICODE_ISSPACE]). *)
Definition isspace (c : N) : bool :=
  (((9 <=? c) && (c <=? 13)) || ((28 <=? c) && (c <=? 32))
   || (c =? 133) || (c =? 160) || (c =? 5760)
   || ((8192 <=? c) && (c <=? 8202))
   || (c =? 8232) || (c =? 8233) || (c =? 8239) || (c =? 8287)
   || (c =? 12288))%N.

Fixpoint lstrip (s : str) : str :=
  match s with
  | c :: s' => if isspace c then lstrip s' else s
  | [] => []
  end.

Definition rstrip (s : str) : str := rev (lstrip (rev s)).

(** [s.strip()] *)
Definition strip (s : str) : str := rstrip (lstrip s).

(** [sep.join(parts)] *)
Fixpoint join (sep : str) (parts : list str) : str :=
  match parts with
  | [] => []
  | [p] => p
  | p :: rest => p ++ sep ++ join sep rest
  end.

(** [needle in hay] on strings: substring test. *)
Fixpoint startswith (hay needle : str) : bool :=
  match needle, hay with
  | [], _ => true
  | _ :: _, [] => false
  | a :: needle', b :: hay' => (a =? b)%N && startswith hay' needle'
  end.

Fixpoint contains (hay needle : str) : bool :=
  startswith hay needle
  || match hay with
     | [] => false
     | _ :: hay' => contains hay' needle
     end.

Definition digit (d : Z) : N := (48 + Z.to_N d)%N.

(** [f"{n:02d}"] for [0 <= n <= 99] and [f"{n:04d}"] for [0 <= n <= 9999],
    the ranges of a day or month and of a year. *)
Definition fmt_02d (n : Z) : str := [digit (n / 10); digit (n mod 10)].
Definition fmt_04d (n : Z) : str :=
  [digit (n / 1000); digit (n / 100 mod 10); digit (n / 10 mod 10); digit (n mod 10)].

(** [str(n)] for a natural number [n]: its decimal digits. *)
Fixpoint decimal_aux (fuel : nat) (n : Z) (acc : str) : str :=
  match fuel with
  | O => acc
  | S fuel' =>
      let acc' := digit (n mod 10) :: acc in
      if n / 10 =? 0 then acc' else decimal_aux fuel' (n / 10) acc'
  end.
Definition decimal (n : nat) : str := decimal_aux (S n) (Z.of_nat n) [].

(** [str(n)] for an integer. *)
Definition str_int (n : Z) : str :=
  if n <? 0 then lit "-" ++ decimal (Z.to_nat (- n)) else decimal (Z.to_nat n).

(** Exceptions that the code raises or that reach it from the libraries.
    The argument, where there is one, is the text of [str(exc)]. *)
Inductive exn : Type :=
| ValueError
| OverflowError
| IndexError
| CommandError (msg : str)
| GeminiError (msg : str)
| RequestException (msg : str)
| JSONDecodeError (msg : str)
| DoesNotExist (msg : str)
| MultipleObjectsReturned (msg : str).

(** [str(exc)]. [ValueError] and [OverflowError] are raised only while the
    dates are resolved, outside any [try]: the commands never format them. *)
Definition exn_str (e : exn) : str :=
  match e with
  | ValueError => lit "Invalid isoformat string"
  | OverflowError => lit "date value out of range"
  | IndexError => lit "list index out of range"
  | CommandError m | GeminiError m | RequestException m
  | JSONDecodeError m | DoesNotExist m | MultipleObjectsReturned m => m
  end.

Definition is_GeminiError (e : exn) : bool :=
  match e with GeminiError _ => true | _ => false end.

Definition is_RequestException (e : exn) : bool :=
  match e with RequestException _ => true | _ => false end.

Definition is_DoesNotExist (e : exn) : bool :=
  match e with DoesNotExist _ => true | _ => false end.

(** Every exception of this development is an [Exception]. *)
Definition is_Exception (e : exn) : bool := true.

Inductive result (A : Type) : Type :=
| Ok (a : A)
| Raise (e : exn).
Arguments Ok {A} a.
Arguments Raise {A} e.

End Py.
Import Py.

(* ------------------------------------------------------------------------- *)
(** ** datetime.date *)

Module Datetime.

Definition MINYEAR : Z := 1.
Definition MAXYEAR : Z := 9999.
Definition _MAXORDINAL : Z := 3652059.

(** A date, as its ordinal: 0001-01-01 is 1, 9999-12-31 is [_MAXORDINAL]. *)
Definition date := Z.

Definition valid (d : date) : Prop := 1 <= d <= _MAXORDINAL.

Definition _is_leap (year : Z) : bool :=
  (year mod 4 =? 0) && (negb (year mod 100 =? 0) || (year mod 400 =? 0)).

Definition _days_before_year (year : Z) : Z :=
  let y := year - 1 in y * 365 + y / 4 - y / 100 + y / 400.

Definition _DAYS_IN_MONTH (month : Z) : Z :=
  nth (Z.to_nat month) [-1; 31; 28; 31; 30; 31; 30; 31; 31; 30; 31; 30; 31] (-1).

Definition _DAYS_BEFORE_MONTH (month : Z) : Z :=
  nth (Z.to_nat month) [-1; 0; 31; 59; 90; 120; 151; 181; 212; 243; 273; 304; 334] (-1).

Definition _days_in_month (year month : Z) : Z :=
  if (month =? 2) && _is_leap year then 29 else _DAYS_IN_MONTH month.

Definition _days_before_month (year month : Z) : Z :=
  _DAYS_BEFORE_MONTH month + (if (2 <? month) && _is_leap year then 1 else 0).

Definition _ymd2ord (year month day : Z) : Z :=
  _days_before_year year + _days_before_month year month + day.

Definition _DI400Y : Z := 146097.
Definition _DI100Y : Z := 36524.
Definition _DI4Y : Z := 1461.

Definition _ord2ymd (n : Z) : Z * Z * Z :=
  let n := n - 1 in
  let n400 := n / _DI400Y in
  let n := n mod _DI400Y in
  let year := n400 * 400 + 1 in
  let n100 := n / _DI100Y in
  let n := n mod _DI100Y in
  let n4 := n / _DI4Y in
  let n := n mod _DI4Y in
  let n1 := n / 365 in
  let n := n mod 365 in
  let year := year + n100 * 100 + n4 * 4 + n1 in
  if (n1 =? 4) || (n100 =? 4) then (year - 1, 12, 31)
  else
    let leapyear := (n1 =? 3) && (negb (n4 =? 24) || (n100 =? 3)) in
    let month := Z.shiftr (n + 50) 5 in
    let preceding :=
      _DAYS_BEFORE_MONTH month + (if (2 <? month) && leapyear then 1 else 0) in
    if n <? preceding then
      let month := month - 1 in
      let preceding :=
        preceding - (_DAYS_IN_MONTH month
                     + (if (month =? 2) && leapyear then 1 else 0)) in
      (year, month, n - preceding + 1)
    else (year, month, n - preceding + 1).

Definition year (d : date) : Z := fst (fst (_ord2ymd d)).
Definition month (d : date) : Z := snd (fst (_ord2ymd d)).
Definition day (d : date) : Z := snd (_ord2ymd d).

(** [d.weekday()]: Monday is 0, Sunday is 6. *)
Definition weekday (d : date) : Z := (d + 6) mod 7.

(** [d.isoformat()], also [d.strftime("%Y-%m-%d")]. *)
Definition isoformat (d : date) : str :=
  fmt_04d (year d) ++ lit "-" ++ fmt_02d (month d) ++ lit "-" ++ fmt_02d (day d).

Definition digit_value (c : N) : option Z :=
  if ((48 <=? c) && (c <=? 57))%N then Some (Z.of_N c - 48) else None.

Fixpoint parse_digits (acc : Z) (s : str) : option Z :=
  match s with
  | [] => Some acc
  | c :: s' =>
      match digit_value c with
      | Some v => parse_digits (acc * 10 + v) s'
      | None => None
      end
  end.

(** [date.fromisoformat(s)] for the format the commands document,
    [YYYY-MM-DD]; anything else is a [ValueError], as is a day that does
    not exist. *)
Definition fromisoformat (s : str) : result date :=
  match s with
  | [y1; y2; y3; y4; 45%N; m1; m2; 45%N; d1; d2] =>
      match parse_digits 0 [y1; y2; y3; y4],
            parse_digits 0 [m1; m2], parse_digits 0 [d1; d2] with
      | Some y, Some m, Some d =>
          if (MINYEAR <=? y) && (y <=? MAXYEAR) && (1 <=? m) && (m <=? 12)
             && (1 <=? d) && (d <=? _days_in_month y m)
          then Ok (_ymd2ord y m d)
          else Raise ValueError
      | _, _, _ => Raise ValueError
      end
  | _ => Raise ValueError
  end.

(** [timedelta(days=n)], as its number of days. *)
Definition timedelta (days : Z) : result Z :=
  if (-999999999 <=? days) && (days <=? 999999999) then Ok days
  else Raise OverflowError.

(** [d + delta] *)
Definition date_add (d : date) (delta : Z) : result date :=
  let o := d + delta in
  if (0 <? o) && (o <=? _MAXORDINAL) then Ok o else Raise OverflowError.

End Datetime.
Import Datetime.

(* ------------------------------------------------------------------------- *)
(** ** Generators *)

(** What a generator does when it is run to its end: the values it yields,
    and the exception that ends it, if one does. *)
Record generated (A : Type) : Type := Generated {
  yielded : list A;
  raised : option exn
}.
Arguments Generated {A} _ _.
Arguments yielded {A} _.
Arguments raised {A} _.

(** [xs[i]] on a list *)
Definition getitem {A} (xs : list A) (i : nat) : result A :=
  match nth_error xs i with
  | Some x => Ok x
  | None => Raise IndexError
  end.

(** [list(gen)] *)
Definition list_of_generated {A} (g : generated A) : result (list A) :=
  match raised g with
  | None => Ok (yielded g)
  | Some e => Raise e
  end.

(** The loop that ends both [_resolve_dates]:
<<
    current = start
    while current <= end:
        yield current
        current += dt.timedelta(days=1)
>>
    [fuel] bounds the number of iterations; [date_loop_fuel] is the number
    the loop needs. *)
Fixpoint date_loop (fuel : nat) (current end_ : date) : generated date :=
  match fuel with
  | O => Generated [] None
  | S fuel' =>
      if current <=? end_ then
        match date_add current 1 with
        | Ok next =>
            let rest := date_loop fuel' next end_ in
            Generated (current :: yielded rest) (raised rest)
        | Raise e => Generated [current] (Some e)
        end
      else Generated [] None
  end.

Definition date_loop_fuel (start end_ : date) : nat := Z.to_nat (end_ - start + 1).

(** The first half of both [_resolve_dates]: the bounds [start] and [end]
    of the range. [today] is what [dt.date.today()] returns. *)
Definition resolve_bounds (today : date)
    (date_str start_str end_str : option str) (days : option Z) : result (date * date) :=
  if truthy_str start_str then
    match fromisoformat (match start_str with Some s => s | None => [] end) with
    | Raise e => Raise e
    | Ok start =>
        if truthy_str end_str then
          match fromisoformat (match end_str with Some s => s | None => [] end) with
          | Raise e => Raise e
          | Ok end_ => Ok (start, end_)
          end
        else if truthy_int days then
          match timedelta (match days with Some n => n | None => 0 end - 1) with
          | Raise e => Raise e
          | Ok delta =>
              match date_add start delta with
              | Raise e => Raise e
              | Ok end_ => Ok (start, end_)
              end
          end
        else Ok (start, start)
    end
  else if truthy_str date_str then
    match fromisoformat (match date_str with Some s => s | None => [] end) with
    | Raise e => Raise e
    | Ok d => Ok (d, d)
    end
  else Ok (today, today).

(** The body shared, word for word, by the two commands' [_resolve_dates]. *)
Definition resolve_dates_body (today : date)
    (date_str start_str end_str : option str) (days : option Z) : generated date :=
  match resolve_bounds today date_str start_str end_str days with
  | Raise e => Generated [] (Some e)
  | Ok (start, end_) => date_loop (date_loop_fuel start end_) start end_
  end.

(* ------------------------------------------------------------------------- *)
(** ** The models

    Modelled from the spec: [logos/readings/models.py] is not among the
    sources. The tables carry the columns that the commands and the admin
    read or write; enumerations have the members the specification lists.
    A foreign key to a [LiturgicalDay] is the day's date, its unique column. *)

Definition User := Z.
Definition datetime := Z.

Module LiturgicalDay.
Record t : Type := Build { date : Datetime.date }.
End LiturgicalDay.

Module DailyReading.
Module ReadingType.
Inductive t : Type := FIRST_READING | SECOND_READING | GOSPEL.
Definition eqb (a b : t) : bool :=
  match a, b with
  | FIRST_READING, FIRST_READING | SECOND_READING, SECOND_READING
  | GOSPEL, GOSPEL => true
  | _, _ => false
  end.
End ReadingType.
Record t : Type := Build {
  day : Datetime.date;
  language_code : str;
  reading_type : ReadingType.t;
  order : Z;
  title : str;
  reference : str;
  text : str
}.
End DailyReading.

Module GospelMeditation.
Module Source.
Inductive t : Type := AI | HUMAN.
End Source.
Module Status.
Inductive t : Type := DRAFT | APPROVED | REJECTED | PUBLISHED.
Definition eqb (a b : t) : bool :=
  match a, b with
  | DRAFT, DRAFT | APPROVED, APPROVED | REJECTED, REJECTED
  | PUBLISHED, PUBLISHED => true
  | _, _ => false
  end.
End Status.
Record t : Type := Build {
  day : Datetime.date;
  language_code : str;
  title : str;
  body : str;
  source : Source.t;
  status : Status.t;
  created_by : option User;
  approved_by : option User;
  approved_at : option datetime
}.
End GospelMeditation.

Definition str_eqb (a b : str) : bool :=
  if list_eq_dec N.eq_dec a b then true else false.

(* ------------------------------------------------------------------------- *)
(** ** The world the commands act on, and what they read from outside *)

Inductive Stream : Type := Stdout | Stderr.
Inductive Style : Type := Plain | SUCCESS | WARNING | ERROR.

(** One call of [self.stdout.write] or [self.stderr.write]. *)
Record Line : Type := MkLine {
  line_stream : Stream;
  line_style : Style;
  line_text : str
}.

(** An HTTP request that was sent. *)
Inductive Request : Type :=
| GET (url : str)
| POST (url : str) (prompt : str) (key : str).

Record World : Type := MkWorld {
  days : list LiturgicalDay.t;
  readings : list DailyReading.t;
  meditations : list GospelMeditation.t;
  output : list Line;
  requests : list Request
}.

(** A [p] element: the strings of its text nodes, in document order. *)
Definition Paragraph := list str.

(** A [section] element of a parsed page: its [class] attribute, and the
    [p] elements of the first [div] of class [section__content] below it
    ([None] when there is no such [div]). *)
Record SectionTag : Type := MkSection {
  class_ : option (list str);
  section__content : option (list Paragraph)
}.

(** A parsed page, as far as the command looks at it: its [section]
    elements in document order. *)
Definition Soup := list SectionTag.

Inductive GetResult : Type :=
| GetRaises (e : exn)
| GetResponse (status_code : Z) (soup : Soup).

(** A decoded JSON value. A number is given by the text [str()] prints for it. *)
#[warnings="-register-all"]
Inductive json : Type :=
| JNull
| JBool (b : bool)
| JNumber (printed : str)
| JString (s : str)
| JList (items : list json)
| JDict (items : list (str * json)).

Inductive PostResult : Type :=
| PostRaises (msg : str)
| PostResponse (status_code : Z) (text : str) (decoded : result json).

(** What the code reads from outside. The HTTP oracles also see how many
    requests were sent before, so the same URL may answer differently later. *)
Record Env : Type := MkEnv {
  today : Datetime.date;
  requests_get : nat -> str -> GetResult;
  requests_post : nat -> str -> str -> str -> PostResult;
  GEMINI_API_KEY : option str;
  GEMINI_MODEL_NAME : option str;
  (** [repr()] of a decoded JSON value *)
  repr : json -> str;
  (** [get_reading_type_display()]: the label of a reading type *)
  reading_type_display : DailyReading.ReadingType.t -> str
}.

(** *** The monad *)

Definition M (A : Type) : Type := World -> result A * World.

Definition ret {A} (a : A) : M A := fun w => (Ok a, w).

Definition bind {A B} (m : M A) (k : A -> M B) : M B :=
  fun w =>
    match m w with
    | (Ok a, w') => k a w'
    | (Raise e, w') => (Raise e, w')
    end.

Definition raise {A} (e : exn) : M A := fun w => (Raise e, w).

(** [try: body  except <class>: handler], the class given by [catches]. *)
Definition try_except {A} (body : M A) (catches : exn -> bool) (handler : exn -> M A) : M A :=
  fun w =>
    match body w with
    | (Ok a, w') => (Ok a, w')
    | (Raise e, w') => if catches e then handler e w' else (Raise e, w')
    end.

Definition lift_result {A} (r : result A) : M A :=
  match r with
  | Ok a => ret a
  | Raise e => raise e
  end.

Declare Scope monad_scope.
Delimit Scope monad_scope with monad.
Notation "x <- m ;; k" := (bind m (fun x => k))
  (at level 61, m at next level, right associativity) : monad_scope.
Notation "m ;;; k" := (bind m (fun _ => k))
  (at level 61, right associativity) : monad_scope.
Local Open Scope monad_scope.

(** [for x in xs: body x] *)
Fixpoint for_each {A} (xs : list A) (body : A -> M unit) : M unit :=
  match xs with
  | [] => ret tt
  | x :: xs' => body x ;;; for_each xs' body
  end.

Definition write (s : Stream) (st : Style) (text : str) : M unit :=
  fun w => (Ok tt, MkWorld (days w) (readings w) (meditations w)
                           (output w ++ [MkLine s st text]) (requests w)).

Definition send (r : Request) : M unit :=
  fun w => (Ok tt, MkWorld (days w) (readings w) (meditations w)
                           (output w) (requests w ++ [r])).

Definition set_days (ds : list LiturgicalDay.t) : M unit :=
  fun w => (Ok tt, MkWorld ds (readings w) (meditations w) (output w) (requests w)).

Definition set_readings (rs : list DailyReading.t) : M unit :=
  fun w => (Ok tt, MkWorld (days w) rs (meditations w) (output w) (requests w)).

Definition set_meditations (ms : list GospelMeditation.t) : M unit :=
  fun w => (Ok tt, MkWorld (days w) (readings w) ms (output w) (requests w)).

Definition world : M World := fun w => (Ok w, w).

(** [requests.get(url, timeout=15)] *)
Definition http_get (env : Env) (url : str) : M (Z * Soup) :=
  w <- world ;;
  send (GET url) ;;;
  match requests_get env (length (requests w)) url with
  | GetRaises e => raise e
  | GetResponse code soup => ret (code, soup)
  end.

(** [requests.post(url, json=payload, params=params, timeout=30)]; a failure
    of the library is a [requests.RequestException]. *)
Definition http_post (env : Env) (url prompt key : str) : M (Z * str * result json) :=
  w <- world ;;
  send (POST url prompt key) ;;;
  match requests_post env (length (requests w)) url prompt key with
  | PostRaises msg => raise (RequestException msg)
  | PostResponse code text decoded => ret (code, text, decoded)
  end.

(** *** The object managers *)

Module Objects.

(** Text of [MultipleObjectsReturned]; [get] fetches at most 21 rows. *)
Definition multiple_msg (model : str) (n : nat) : str :=
  lit "get() returned more than one " ++ model ++ lit " -- it returned "
  ++ (if (n <? 21)%nat then decimal n else lit "more than 20") ++ lit "!".

Definition does_not_exist_msg (model : str) : str :=
  model ++ lit " matching query does not exist.".

Definition day_matches (d : Datetime.date) (x : LiturgicalDay.t) : bool :=
  LiturgicalDay.date x =? d.

(** [LiturgicalDay.objects.get(date=date)] *)
Definition LiturgicalDay_get (d : Datetime.date) : M LiturgicalDay.t :=
  w <- world ;;
  match filter (day_matches d) (days w) with
  | [] => raise (DoesNotExist (does_not_exist_msg (lit "LiturgicalDay")))
  | [x] => ret x
  | found => raise (MultipleObjectsReturned
                      (multiple_msg (lit "LiturgicalDay") (length found)))
  end.

(** [LiturgicalDay.objects.get_or_create(date=date)] *)
Definition LiturgicalDay_get_or_create (d : Datetime.date) : M (LiturgicalDay.t * bool) :=
  w <- world ;;
  match filter (day_matches d) (days w) with
  | [] =>
      let x := LiturgicalDay.Build d in
      set_days (days w ++ [x]) ;;; ret (x, true)
  | [x] => ret (x, false)
  | found => raise (MultipleObjectsReturned
                      (multiple_msg (lit "LiturgicalDay") (length found)))
  end.

(** The lookup of [update_or_create]: the four key columns. *)
Definition reading_matches (d : Datetime.date) (language_code : str)
    (reading_type : DailyReading.ReadingType.t) (order : Z)
    (r : DailyReading.t) : bool :=
  (DailyReading.day r =? d)
  && str_eqb (DailyReading.language_code r) language_code
  && DailyReading.ReadingType.eqb (DailyReading.reading_type r) reading_type
  && (DailyReading.order r =? order).

(** Overwrite, in its place, the first row that satisfies [p]. *)
Fixpoint update_first {A} (p : A -> bool) (f : A -> A) (l : list A) : list A :=
  match l with
  | [] => []
  | x :: l' => if p x then f x :: l' else x :: update_first p f l'
  end.

(** [DailyReading.objects.update_or_create(day=.., language_code=..,
    reading_type=.., order=.., defaults={title, reference, text})] *)
Definition DailyReading_update_or_create (d : Datetime.date) (language_code : str)
    (reading_type : DailyReading.ReadingType.t) (order : Z)
    (title reference text : str) : M (DailyReading.t * bool) :=
  w <- world ;;
  let p := reading_matches d language_code reading_type order in
  match filter p (readings w) with
  | [] =>
      let obj := DailyReading.Build d language_code reading_type order
                                    title reference text in
      set_readings (readings w ++ [obj]) ;;; ret (obj, true)
  | [old] =>
      let obj := DailyReading.Build (DailyReading.day old)
                   (DailyReading.language_code old) (DailyReading.reading_type old)
                   (DailyReading.order old) title reference text in
      set_readings (update_first p (fun _ => obj) (readings w)) ;;;
      ret (obj, false)
  | found => raise (MultipleObjectsReturned
                      (multiple_msg (lit "DailyReading") (length found)))
  end.

Definition meditation_matches (d : Datetime.date) (language_code : str)
    (m : GospelMeditation.t) : bool :=
  (GospelMeditation.day m =? d)
  && str_eqb (GospelMeditation.language_code m) language_code.

(** [GospelMeditation.objects.filter(day=.., language_code=..).exists()] *)
Definition GospelMeditation_exists (d : Datetime.date) (language_code : str) : M bool :=
  w <- world ;;
  ret (existsb (meditation_matches d language_code) (meditations w)).

(** [GospelMeditation.objects.create(...)]; the columns that are not
    passed are null. *)
Definition GospelMeditation_create (d : Datetime.date) (language_code title body : str)
    (source : GospelMeditation.Source.t) (status : GospelMeditation.Status.t)
    : M GospelMeditation.t :=
  w <- world ;;
  let obj := GospelMeditation.Build d language_code title body source status
                                    None None None in
  set_meditations (meditations w ++ [obj]) ;;; ret obj.

(** [.order_by("order").first()]: a row of least [order], the earliest
    such row of the table. *)
Fixpoint first_by_order (rows : list DailyReading.t) : option DailyReading.t :=
  match rows with
  | [] => None
  | r :: rows' =>
      match first_by_order rows' with
      | Some r' => if DailyReading.order r' <? DailyReading.order r
                   then Some r' else Some r
      | None => Some r
      end
  end.

Definition gospel_matches (d : Datetime.date) (language_code : str)
    (r : DailyReading.t) : bool :=
  (DailyReading.day r =? d)
  && str_eqb (DailyReading.language_code r) language_code
  && DailyReading.ReadingType.eqb (DailyReading.reading_type r)
                                  DailyReading.ReadingType.GOSPEL.

(** [DailyReading.objects.filter(day=.., language_code=..,
    reading_type=GOSPEL).order_by("order").first()] *)
Definition DailyReading_first_gospel (d : Datetime.date) (language_code : str)
    : M (option DailyReading.t) :=
  w <- world ;;
  ret (first_by_order (filter (gospel_matches d language_code) (readings w))).

End Objects.

(* ------------------------------------------------------------------------- *)
(** ** management/commands/fetch_vatican_readings.py *)

Module FetchVaticanReadings.

Record ReadingBlock : Type := MkReadingBlock {
  title : str;
  reference : str;
  text : str
}.

Record Options : Type := MkOptions {
  opt_date : option str;
  opt_start_date : option str;
  opt_end_date : option str;
  opt_days : option Z;
  opt_language : str
}.

Definition _resolve_dates (today : Datetime.date)
    (date_str start_str end_str : option str) (days : option Z) : generated Datetime.date :=
  resolve_dates_body today date_str start_str end_str days.

(** [p.get_text(strip=True)]: the stripped strings of the element that are
    not empty, joined. *)
Definition get_text_strip (p : Paragraph) : str :=
  concat (filter nonempty (map strip p)).

(** The function passed as [class_]. *)
Definition class_lambda (value : option str) : bool :=
  match value with
  | None => false
  | Some v =>
      nonempty v && contains v (lit "section--evidence")
      && contains v (lit "section--isStatic")
  end.

(** How the parser library applies a function to the [class] attribute: to
    each class and, failing that, to the whole attribute. *)
Definition class_matches (s : SectionTag) : bool :=
  match class_ s with
  | None => class_lambda None
  | Some classes =>
      existsb (fun c => class_lambda (Some c)) classes
      || class_lambda (Some (join (lit " ") classes))
  end.

(** [soup.find_all("section", class_=...)] *)
Definition find_all_sections (soup : Soup) : list SectionTag :=
  filter class_matches soup.

(** The loop of [_extract_reading_blocks], [blocks] being the list built so far. *)
Fixpoint extract_loop (sections : list SectionTag) (blocks : list ReadingBlock)
    : list ReadingBlock :=
  match sections with
  | [] => blocks
  | section :: rest =>
      match section__content section with
      | None => extract_loop rest blocks
      | Some paragraphs =>
          let texts := filter nonempty (map get_text_strip paragraphs) in
          if (length texts <? 3)%nat then extract_loop rest blocks
          else
            let title := nth 0 texts [] in
            let reference := nth 1 texts [] in
            let body := join (newline ++ newline) (skipn 2 texts) in
            extract_loop rest (blocks ++ [MkReadingBlock title reference body])
      end
  end.

Definition _extract_reading_blocks (soup : Soup) : list ReadingBlock :=
  extract_loop (find_all_sections soup) [].

Definition _upsert_reading (env : Env) (day : LiturgicalDay.t) (language_code : str)
    (reading_type : DailyReading.ReadingType.t) (order : Z) (block : ReadingBlock)
    : M unit :=
  r <- Objects.DailyReading_update_or_create (LiturgicalDay.date day) language_code
         reading_type order (title block) (reference block) (text block) ;;
  let (obj, created) := r in
  let action := if (created : bool) then lit "Created" else lit "Updated" in
  write Stdout SUCCESS
    (action ++ lit " " ++ reading_type_display env (DailyReading.reading_type obj)
     ++ lit " for " ++ isoformat (LiturgicalDay.date day)
     ++ lit " [" ++ language_code ++ lit "]").

Definition url_of (date : Datetime.date) : str :=
  lit "https://www.vaticannews.va/es/evangelio-de-hoy/"
  ++ fmt_04d (year date) ++ lit "/" ++ fmt_02d (month date) ++ lit "/"
  ++ fmt_02d (day date) ++ lit ".html".

(** [if len(blocks) >= n: self._upsert_reading(..., block=blocks[n - 1])] *)
Definition upsert_if_present (env : Env) (day : LiturgicalDay.t) (language_code : str)
    (blocks : list ReadingBlock) (n : nat)
    (reading_type : DailyReading.ReadingType.t) : M unit :=
  if (n <=? length blocks)%nat then
    block <- lift_result (getitem blocks (n - 1)) ;;
    _upsert_reading env day language_code reading_type 1 block
  else ret tt.

(** The part of [_fetch_for_date] that follows the extraction: the
    assignment of the blocks to reading types. *)
Definition store_blocks (env : Env) (date : Datetime.date) (liturgical_day : LiturgicalDay.t)
    (language_code : str) (blocks : list ReadingBlock) : M unit :=
  let is_sunday := weekday date =? 6 in
  if negb is_sunday then
    upsert_if_present env liturgical_day language_code blocks 1
      DailyReading.ReadingType.FIRST_READING ;;;
    upsert_if_present env liturgical_day language_code blocks 2
      DailyReading.ReadingType.GOSPEL
  else
    upsert_if_present env liturgical_day language_code blocks 1
      DailyReading.ReadingType.FIRST_READING ;;;
    upsert_if_present env liturgical_day language_code blocks 2
      DailyReading.ReadingType.SECOND_READING ;;;
    upsert_if_present env liturgical_day language_code blocks 3
      DailyReading.ReadingType.GOSPEL.

(** [_fetch_for_date] once the page is fetched and [blocks] are the blocks
    extracted from it: the day is fetched or created, then the blocks are
    stored. *)
Definition ingest (env : Env) (date : Datetime.date) (language_code : str)
    (url : str) (blocks : list ReadingBlock) : M unit :=
  r <- Objects.LiturgicalDay_get_or_create date ;;
  let liturgical_day := fst r in
  match blocks with
  | [] =>
      write Stderr WARNING
        (lit "No reading sections found for " ++ isoformat date ++ lit " at " ++ url)
  | _ :: _ => store_blocks env date liturgical_day language_code blocks
  end.

Definition _fetch_for_date (env : Env) (date : Datetime.date) (language_code : str)
    : M unit :=
  let url := url_of date in
  response <- http_get env url ;;
  let (status_code, soup) := response in
  if negb (status_code =? 200) then
    raise (CommandError (lit "URL " ++ url ++ lit " returned status "
                         ++ str_int status_code))
  else ingest env date language_code url (_extract_reading_blocks soup).

Definition handle (env : Env) (options : Options) : M unit :=
  let language_code := opt_language options in
  dates <- lift_result
             (list_of_generated
                (_resolve_dates (today env) (opt_date options) (opt_start_date options)
                                (opt_end_date options) (opt_days options))) ;;
  match dates with
  | [] =>
      raise (CommandError
               (lit "No dates resolved. Please provide --date or a start/end range."))
  | _ :: _ =>
      for_each dates (fun current_date =>
        write Stdout Plain
          (lit "Fetching readings for " ++ isoformat current_date ++ lit "...") ;;;
        try_except (_fetch_for_date env current_date language_code) is_Exception
          (fun exc =>
             write Stderr ERROR
               (lit "Failed to fetch " ++ isoformat current_date ++ lit ": "
                ++ exn_str exc)))
  end.

End FetchVaticanReadings.

(* ------------------------------------------------------------------------- *)
(** ** services/gemini.py *)

Module Gemini.

Definition _GEMINI_URL_TEMPLATE (model : str) : str :=
  lit "https://generativelanguage.googleapis.com/v1beta/models/" ++ model
  ++ lit ":generateContent".

(** [liturgical_date.strftime("%Y-%m-%d")] is taken to print what
    [isoformat] prints (the C library may leave out the leading zeros of a
    year before 1000). *)
Definition _build_prompt (gospel_text reference : str) (liturgical_date : Datetime.date)
    (language_code : str) : str :=
  let date_str := isoformat liturgical_date in
  lit "Eres un teólogo católico fiel al Magisterio de la Iglesia inspirado por Joseph Ratzinger."
  ++ newline ++ newline
  ++ lit "Escribe una meditación espiritual en " ++ language_code
  ++ lit " sobre el evangelio del día." ++ newline
  ++ lit "La meditación debe:" ++ newline
  ++ lit "- Ayudar a la oración personal." ++ newline
  ++ lit "- Ser fiel al sentido del texto bíblico." ++ newline
  ++ lit "- Tener un tono cercano y pastoral." ++ newline
  ++ lit "- Evitar opiniones políticas o polémicas." ++ newline ++ newline
  ++ lit "Fecha litúrgica: " ++ date_str ++ newline
  ++ lit "Evangelio: " ++ reference ++ newline ++ newline
  ++ lit "Texto del evangelio:" ++ newline
  ++ gospel_text ++ newline ++ newline
  ++ lit "Ahora escribe solo la meditación, sin repetir el texto completo del evangelio.".

(** [value[key]] for a string key: only a dict has one; the other cases
    raise [KeyError] or [TypeError], which the caller treats alike. *)
Definition getitem_key (value : json) (key : str) : option json :=
  match value with
  | JDict items =>
      match find (fun kv => str_eqb (fst kv) key) items with
      | Some kv => Some (snd kv)
      | None => None
      end
  | _ => None
  end.

(** [value[0]]: the first item of a list, the first character of a string;
    the other cases raise [IndexError], [KeyError] or [TypeError]. *)
Definition getitem_0 (value : json) : option json :=
  match value with
  | JList (x :: _) => Some x
  | JString (c :: _) => Some (JString [c])
  | _ => None
  end.

(** [data["candidates"][0]["content"]["parts"][0]["text"]] *)
Definition candidate_text (data : json) : option json :=
  match getitem_key data (lit "candidates") with
  | Some candidates =>
      match getitem_0 candidates with
      | Some first_candidate =>
          match getitem_key first_candidate (lit "content") with
          | Some content =>
              match getitem_key content (lit "parts") with
              | Some parts =>
                  match getitem_0 parts with
                  | Some part => getitem_key part (lit "text")
                  | None => None
                  end
              | None => None
              end
          | None => None
          end
      | None => None
      end
  | None => None
  end.

(** [str(value)] of a decoded JSON value. *)
Definition str_of (env : Env) (value : json) : str :=
  match value with
  | JString s => s
  | other => repr env other
  end.

(** [generate_meditation]; [logger.error] is not modelled. *)
Definition generate_meditation (env : Env) (gospel_text reference : str)
    (liturgical_date : Datetime.date) (language_code : str) : M str :=
  let api_key := match GEMINI_API_KEY env with Some k => k | None => [] end in
  let model := match GEMINI_MODEL_NAME env with
               | Some m => m
               | None => lit "gemini-1.5-pro"
               end in
  if negb (nonempty api_key) then
    raise (GeminiError (lit "GEMINI_API_KEY is not configured."))
  else
    let url := _GEMINI_URL_TEMPLATE model in
    let prompt := _build_prompt gospel_text reference liturgical_date language_code in
    response <- try_except (http_post env url prompt api_key) is_RequestException
                  (fun exc =>
                     raise (GeminiError (lit "Error calling Gemini API: " ++ exn_str exc))) ;;
    let '(status_code, response_text, decoded) := response in
    if negb (status_code =? 200) then
      raise (GeminiError (lit "Gemini API returned HTTP " ++ str_int status_code
                          ++ lit ": " ++ response_text))
    else
      data <- lift_result decoded ;;
      match candidate_text data with
      | Some text => ret (strip (str_of env text))
      | None =>
          raise (GeminiError (lit "Unexpected Gemini response format: " ++ repr env data))
      end.

End Gemini.

(* ------------------------------------------------------------------------- *)
(** ** management/commands/generate_meditation.py *)

Module GenerateMeditation.

Record Options : Type := MkOptions {
  opt_date : option str;
  opt_start_date : option str;
  opt_end_date : option str;
  opt_days : option Z;
  opt_language : str;
  opt_force : bool
}.

Definition _resolve_dates (today : Datetime.date)
    (date_str start_str end_str : option str) (days : option Z) : generated Datetime.date :=
  resolve_dates_body today date_str start_str end_str days.

Definition skip_no_day (date : Datetime.date) : str :=
  lit "Skipping " ++ isoformat date ++ lit ": no LiturgicalDay found. "
  ++ lit "Run fetch_vatican_readings first.".

Definition skip_exists (date : Datetime.date) (language_code : str) : str :=
  lit "Skipping " ++ isoformat date ++ lit ": meditation already exists "
  ++ lit "for language " ++ language_code ++ lit ". Use --force to create another draft.".

Definition skip_no_gospel (date : Datetime.date) (language_code : str) : str :=
  lit "Skipping " ++ isoformat date ++ lit ": no gospel reading found "
  ++ lit "for language " ++ language_code ++ lit ".".

Definition title_of (d : Datetime.date) : str :=
  lit "Meditaci√≥n para el evangelio de hoy (" ++ isoformat d ++ lit ")".

Definition _generate_for_date (env : Env) (date : Datetime.date) (language_code : str)
    (force : bool) : M unit :=
  write Stdout Plain
    (lit "Generating meditation for " ++ isoformat date ++ lit " [" ++ language_code
     ++ lit "]...") ;;;
  found <- try_except
             (x <- Objects.LiturgicalDay_get date ;; ret (Some x))
             is_DoesNotExist
             (fun _ => write Stderr WARNING (skip_no_day date) ;;; ret None) ;;
  match found with
  | None => ret tt
  | Some liturgical_day =>
      exists_ <- (if negb force
                  then Objects.GospelMeditation_exists
                         (LiturgicalDay.date liturgical_day) language_code
                  else ret false) ;;
      if (exists_ : bool) then
        write Stdout WARNING (skip_exists date language_code)
      else
        gospel <- Objects.DailyReading_first_gospel
                    (LiturgicalDay.date liturgical_day) language_code ;;
        match gospel with
        | None => write Stderr WARNING (skip_no_gospel date language_code)
        | Some gospel =>
            generated_body <-
              try_except
                (body <- Gemini.generate_meditation env (DailyReading.text gospel)
                           (DailyReading.reference gospel)
                           (LiturgicalDay.date liturgical_day) language_code ;;
                 ret (Some body))
                is_GeminiError
                (fun exc =>
                   write Stderr ERROR
                     (lit "Gemini error while generating meditation for "
                      ++ isoformat date ++ lit ": " ++ exn_str exc) ;;;
                   ret None) ;;
            match generated_body with
            | None => ret tt
            | Some body =>
                let title := title_of (LiturgicalDay.date liturgical_day) in
                Objects.GospelMeditation_create (LiturgicalDay.date liturgical_day)
                  language_code title body
                  GospelMeditation.Source.AI GospelMeditation.Status.DRAFT ;;;
                write Stdout SUCCESS
                  (lit "Created draft meditation for " ++ isoformat date ++ lit " ["
                   ++ language_code ++ lit "].")
            end
        end
  end.

Definition handle (env : Env) (options : Options) : M unit :=
  let language_code := opt_language options in
  dates <- lift_result
             (list_of_generated
                (_resolve_dates (today env) (opt_date options) (opt_start_date options)
                                (opt_end_date options) (opt_days options))) ;;
  match dates with
  | [] =>
      write Stderr Plain
        (lit "No dates resolved. Please provide --date or a start/end range.")
  | _ :: _ =>
      let force := opt_force options in
      for_each dates (fun current_date =>
        _generate_for_date env current_date language_code force)
  end.

End GenerateMeditation.

(* ------------------------------------------------------------------------- *)
(** ** admin.py *)

Module GospelMeditationAdmin.

(** The fields of the change form: every column but the [readonly_fields]
    ([created_at], [updated_at], [approved_by], [approved_at]). *)
Record Form : Type := MkForm {
  form_day : Datetime.date;
  form_language_code : str;
  form_title : str;
  form_body : str;
  form_source : GospelMeditation.Source.t;
  form_status : GospelMeditation.Status.t;
  form_created_by : option User
}.

(** The object as the admin builds it from the stored row and the form. *)
Definition construct_instance (form : Form) (obj : GospelMeditation.t)
    : GospelMeditation.t :=
  GospelMeditation.Build (form_day form) (form_language_code form) (form_title form)
    (form_body form) (form_source form) (form_status form) (form_created_by form)
    (GospelMeditation.approved_by obj) (GospelMeditation.approved_at obj).

(** [save_model(request, obj, form, change)]: the object as it is handed to
    [super().save_model], which writes it. [request_user] is [request.user]
    and [now] what [timezone.now()] returns. *)
Definition save_model (request_user : User) (now : datetime) (obj : GospelMeditation.t)
    : GospelMeditation.t :=
  if GospelMeditation.Status.eqb (GospelMeditation.status obj)
                                 GospelMeditation.Status.APPROVED
  then
    let approved_by := match GospelMeditation.approved_by obj with
                       | None => Some request_user
                       | Some u => Some u
                       end in
    let approved_at := match GospelMeditation.approved_at obj with
                       | None => Some now
                       | Some t => Some t
                       end in
    GospelMeditation.Build (GospelMeditation.day obj)
      (GospelMeditation.language_code obj) (GospelMeditation.title obj)
      (GospelMeditation.body obj) (GospelMeditation.source obj)
      (GospelMeditation.status obj) (GospelMeditation.created_by obj)
      approved_by approved_at
  else obj.

(** One save of the change form by [request_user] at [now]. *)
Record Save : Type := MkSave {
  save_form : Form;
  save_user : User;
  save_now : datetime
}.

Definition change (obj : GospelMeditation.t) (s : Save) : GospelMeditation.t :=
  save_model (save_user s) (save_now s) (construct_instance (save_form s) obj).

(** The record after a sequence of saves. *)
Definition changes (obj : GospelMeditation.t) (saves : list Save) : GospelMeditation.t :=
  fold_left change saves obj.

End GospelMeditationAdmin.

(* ------------------------------------------------------------------------- *)
(** ** Vocabulary of the properties *)

(** The dates from [start] to [end_], both included, in ascending order. *)
Definition date_range (start end_ : date) : list date :=
  map (fun i => start + Z.of_nat i) (seq 0 (Z.to_nat (end_ - start + 1))).

(** The end of the range in the words of the specification: the explicit
    end if given, else [start + (days - 1)] if [days] is given, else [start]. *)
Definition end_as_specified (start : date) (end_ : option date) (days : option Z) : date :=
  match end_ with
  | Some e => e
  | None =>
      match days with
      | Some n => start + (n - 1)
      | None => start
      end
  end.

(** A world with empty tables, and an environment in which the network is
    down and no API key is configured. *)
Definition empty_world : World := MkWorld [] [] [] [] [].

Definition offline_env : Env :=
  MkEnv 738886
        (fun _ _ => GetRaises (RequestException (lit "connection refused")))
        (fun _ _ _ _ => PostRaises (lit "connection refused"))
        None None (fun _ => []) (fun _ => []).

(** The message of both commands for an empty list of dates. *)
Definition no_dates_msg : str :=
  lit "No dates resolved. Please provide --date or a start/end range.".

(** The key of the upsert: day, language, reading type, order. *)
Definition Key : Type := (date * str * DailyReading.ReadingType.t * Z)%type.

Definition key_of (r : DailyReading.t) : Key :=
  (DailyReading.day r, DailyReading.language_code r,
   DailyReading.reading_type r, DailyReading.order r).

Definition has_key (k : Key) (r : DailyReading.t) : bool :=
  let '(d, l, t, o) := k in Objects.reading_matches d l t o r.

(** The rows of the table that carry a key. *)
Definition rows_with (k : Key) (rs : list DailyReading.t) : list DailyReading.t :=
  filter (has_key k) rs.

(** The row that stores a block under a reading type, with order 1. *)
Definition reading_of (d : date) (language_code : str)
    (a : DailyReading.ReadingType.t * FetchVaticanReadings.ReadingBlock)
    : DailyReading.t :=
  DailyReading.Build d language_code (fst a) 1
    (FetchVaticanReadings.title (snd a)) (FetchVaticanReadings.reference (snd a))
    (FetchVaticanReadings.text (snd a)).

(** The positional policy: which block goes to which reading type. On a
    Sunday the first three blocks are the first reading, the second reading
    and the gospel; on another day the first two blocks are the first
    reading and the gospel. Blocks beyond those are left out, and missing
    blocks leave out the types that follow. *)
Definition assignments (d : date) (blocks : list FetchVaticanReadings.ReadingBlock)
    : list (DailyReading.ReadingType.t * FetchVaticanReadings.ReadingBlock) :=
  if weekday d =? 6 then
    combine [DailyReading.ReadingType.FIRST_READING;
             DailyReading.ReadingType.SECOND_READING;
             DailyReading.ReadingType.GOSPEL] blocks
  else
    combine [DailyReading.ReadingType.FIRST_READING;
             DailyReading.ReadingType.GOSPEL] blocks.

(** The uniqueness constraints of the two tables. *)
Definition keys_unique (w : World) : Prop :=
  forall k, (length (rows_with k (readings w)) <= 1)%nat.

Definition days_unique (w : World) : Prop :=
  forall d, (length (filter (Objects.day_matches d) (days w)) <= 1)%nat.

(** The upserts of a list of assignments, one after the other. *)
Definition upsert_all (env : Env) (day : LiturgicalDay.t) (language_code : str)
    (l : list (DailyReading.ReadingType.t * FetchVaticanReadings.ReadingBlock))
    : M unit :=
  for_each l (fun a =>
    FetchVaticanReadings._upsert_reading env day language_code (fst a) 1 (snd a)).

(** Two worlds that differ in their output only. *)
Definition same_tables (w w' : World) : Prop :=
  days w' = days w /\ readings w' = readings w /\ meditations w' = meditations w.

(** What an upsert of block [b] under reading type [t] does in world [w]:
    it appends a row when the key has none, overwrites title, reference and
    text of the row in its place when the key has one, and fails when the
    key has several. *)
Definition upsert_semantics (env : Env) (day : LiturgicalDay.t) (language_code : str)
    (t : DailyReading.ReadingType.t) (b : FetchVaticanReadings.ReadingBlock)
    (w : World) : Prop :=
  let k : Key := (LiturgicalDay.date day, language_code, t, 1) in
  let obj := reading_of (LiturgicalDay.date day) language_code (t, b) in
  match rows_with k (readings w) with
  | [] =>
      exists line,
        FetchVaticanReadings._upsert_reading env day language_code t 1 b w
        = (Ok tt, MkWorld (days w) (readings w ++ [obj]) (meditations w)
                          (output w ++ [line]) (requests w))
  | [old] =>
      exists line,
        FetchVaticanReadings._upsert_reading env day language_code t 1 b w
        = (Ok tt, MkWorld (days w)
                          (Objects.update_first (has_key k) (fun _ => obj) (readings w))
                          (meditations w) (output w ++ [line]) (requests w))
        /\ obj = DailyReading.Build (DailyReading.day old) (DailyReading.language_code old)
                   (DailyReading.reading_type old) (DailyReading.order old)
                   (FetchVaticanReadings.title b) (FetchVaticanReadings.reference b)
                   (FetchVaticanReadings.text b)
  | _ :: _ :: _ =>
      exists msg,
        FetchVaticanReadings._upsert_reading env day language_code t 1 b w
        = (Raise (MultipleObjectsReturned msg), w)
  end.

(** The paragraphs of a section that count: the texts of the [p] elements
    of its content container, stripped, those that are empty left out. *)
Definition section_texts (s : SectionTag) : list str :=
  match section__content s with
  | None => []
  | Some paragraphs => filter nonempty (map FetchVaticanReadings.get_text_strip paragraphs)
  end.

(** The block of a section in the words of the specification: with at least
    three paragraphs, the first is the title, the second the reference and
    the others the body, a blank line between each two; with fewer, none. *)
Definition block_as_specified (s : SectionTag) : option FetchVaticanReadings.ReadingBlock :=
  match section_texts s with
  | title :: reference :: p3 :: others =>
      Some (FetchVaticanReadings.MkReadingBlock title reference
              (p3 ++ concat (map (fun q => newline ++ newline ++ q) others)))
  | _ => None
  end.

Definition blocks_as_specified (sections : list SectionTag)
    : list FetchVaticanReadings.ReadingBlock :=
  flat_map (fun s => match block_as_specified s with
                     | Some b => [b]
                     | None => []
                     end) sections.

(** A world with one more line of output, and with one more meditation. *)
Definition add_line (w : World) (l : Line) : World :=
  MkWorld (days w) (readings w) (meditations w) (output w ++ [l]) (requests w).

Definition add_meditation (w : World) (m : GospelMeditation.t) : World :=
  MkWorld (days w) (readings w) (meditations w ++ [m]) (output w) (requests w).

(** The lines that [_generate_for_date] writes. *)
Definition generating_line (d : date) (language_code : str) : Line :=
  MkLine Stdout Plain
    (lit "Generating meditation for " ++ isoformat d ++ lit " [" ++ language_code
     ++ lit "]...").

Definition skip_no_day_line (d : date) : Line :=
  MkLine Stderr WARNING (GenerateMeditation.skip_no_day d).

Definition skip_exists_line (d : date) (language_code : str) : Line :=
  MkLine Stdout WARNING (GenerateMeditation.skip_exists d language_code).

Definition skip_no_gospel_line (d : date) (language_code : str) : Line :=
  MkLine Stderr WARNING (GenerateMeditation.skip_no_gospel d language_code).

Definition gemini_error_line (d : date) (e : exn) : Line :=
  MkLine Stderr ERROR
    (lit "Gemini error while generating meditation for " ++ isoformat d ++ lit ": "
     ++ exn_str e).

Definition created_line (d : date) (language_code : str) : Line :=
  MkLine Stdout SUCCESS
    (lit "Created draft meditation for " ++ isoformat d ++ lit " ["
     ++ language_code ++ lit "].").

(** The draft that the generation command creates from a generated body. *)
Definition draft_of (d : date) (language_code body : str) : GospelMeditation.t :=
  GospelMeditation.Build d language_code (GenerateMeditation.title_of d) body
    GospelMeditation.Source.AI GospelMeditation.Status.DRAFT None None None.

(** The gospel reading that the generation command looks up. *)
Definition chosen_gospel (d : date) (language_code : str) (w : World)
    : option DailyReading.t :=
  Objects.first_by_order (filter (Objects.gospel_matches d language_code) (readings w)).

(** Whether a meditation of the day and language is there. *)
Definition meditation_exists (d : date) (language_code : str) (w : World) : bool :=
  existsb (Objects.meditation_matches d language_code) (meditations w).

(** The outcome of [_generate_for_date], by cases on what it finds. *)
Definition generate_for_date_outcome (env : Env) (d : date) (language_code : str)
    (force : bool) (w : World) : result unit * World :=
  let w0 := add_line w (generating_line d language_code) in
  match filter (Objects.day_matches d) (days w) with
  | [] => (Ok tt, add_line w0 (skip_no_day_line d))
  | [_] =>
      if negb force && meditation_exists d language_code w then
        (Ok tt, add_line w0 (skip_exists_line d language_code))
      else
        match chosen_gospel d language_code w with
        | None => (Ok tt, add_line w0 (skip_no_gospel_line d language_code))
        | Some gospel =>
            match Gemini.generate_meditation env (DailyReading.text gospel)
                    (DailyReading.reference gospel) d language_code w0 with
            | (Ok body, w1) =>
                (Ok tt, add_line (add_meditation w1 (draft_of d language_code body))
                                 (created_line d language_code))
            | (Raise e, w1) =>
                if is_GeminiError e then (Ok tt, add_line w1 (gemini_error_line d e))
                else (Raise e, w1)
            end
        end
  | found =>
      (Raise (MultipleObjectsReturned
                (Objects.multiple_msg (lit "LiturgicalDay") (length found))), w0)
  end.

(** The API key as [generate_meditation] reads it, and the error for a
    missing one. *)
Definition api_key_of (env : Env) : str :=
  match GEMINI_API_KEY env with
  | Some k => k
  | None => []
  end.

Definition not_configured : exn :=
  GeminiError (lit "GEMINI_API_KEY is not configured.").

(** The loop of the generation command over the resolved dates. *)
Definition generate_batch (env : Env) (language_code : str) (force : bool)
    (dates : list date) : M unit :=
  for_each dates (fun current_date =>
    GenerateMeditation._generate_for_date env current_date language_code force).

(** A world in which 2024-01-01 and 2024-01-02 each have their day and a
    gospel reading in Spanish, and no meditation. *)
Definition two_gospels_world : World :=
  MkWorld [LiturgicalDay.Build 738886; LiturgicalDay.Build 738887]
          [DailyReading.Build 738886 (lit "es") DailyReading.ReadingType.GOSPEL 1
             (lit "Evangelio") (lit "Jn 1, 1-18") (lit "En el principio");
           DailyReading.Build 738887 (lit "es") DailyReading.ReadingType.GOSPEL 1
             (lit "Evangelio") (lit "Jn 1, 19-28") (lit "Este es el testimonio")]
          [] [] [].

(** An environment with an API key whose generator answers every request
    with the text " Paz. ". *)
Definition answering_env : Env :=
  MkEnv 738886
        (fun _ _ => GetRaises (RequestException (lit "connection refused")))
        (fun _ _ _ _ =>
           PostResponse 200 []
             (Ok (JDict [(lit "candidates",
                          JList [JDict [(lit "content",
                                         JDict [(lit "parts",
                                                 JList [JDict [(lit "text",
                                                                JString (lit " Paz. "))]])])]])])))
        (Some (lit "secret")) None (fun _ => []) (fun _ => []).

(** A draft as the generation command creates it, and two saves of its
    change form: moderator 1 approves at time 100, moderator 2 sets it back
    to DRAFT at time 200. *)
Definition a_draft : GospelMeditation.t := draft_of 738886 (lit "es") (lit "Paz.").

Definition form_of (obj : GospelMeditation.t) (status : GospelMeditation.Status.t)
    : GospelMeditationAdmin.Form :=
  GospelMeditationAdmin.MkForm (GospelMeditation.day obj)
    (GospelMeditation.language_code obj) (GospelMeditation.title obj)
    (GospelMeditation.body obj) (GospelMeditation.source obj) status
    (GospelMeditation.created_by obj).

Definition approve_then_unapprove : list GospelMeditationAdmin.Save :=
  [GospelMeditationAdmin.MkSave (form_of a_draft GospelMeditation.Status.APPROVED) 1 100;
   GospelMeditationAdmin.MkSave (form_of a_draft GospelMeditation.Status.DRAFT) 2 200].

(** A save that does not submit the status APPROVED. *)
Definition not_approving (s : GospelMeditationAdmin.Save) : Prop :=
  GospelMeditationAdmin.form_status (GospelMeditationAdmin.save_form s)
  <> GospelMeditation.Status.APPROVED.

(** A page with three sections of the reading kind: one with a title, a
    reference and two body paragraphs (and a paragraph of white space
    only), one with two paragraphs, one without content container; and a
    section of another kind. *)
Definition sample_soup : Soup :=
  [MkSection (Some [lit "section"; lit "section--evidence"; lit "section--isStatic"])
     (Some [[lit " Lectura "]; [lit "Sof 3, 1-2"]; [[32%N; 160%N; 10%N]];
            [lit "Primero."]; [lit "Y "; lit " luego."]]);
   MkSection (Some [lit "section"; lit "section--evidence"; lit "section--isStatic"])
     (Some [[lit "Evangelio"]; [lit "Mt 21, 28-32"]]);
   MkSection (Some [lit "section"; lit "section--evidence"; lit "section--isStatic"]) None;
   MkSection (Some [lit "section"; lit "section--evidence"])
     (Some [[lit "a"]; [lit "b"]; [lit "c"]])].

(** The loop of the ingestion command over the resolved dates. *)
Definition fetch_loop (env : Env) (language_code : str) (dates : list date) : M unit :=
  for_each dates (fun current_date =>
    write Stdout Plain
      (lit "Fetching readings for " ++ isoformat current_date ++ lit "...") ;;;
    try_except (FetchVaticanReadings._fetch_for_date env current_date language_code)
      is_Exception
      (fun exc =>
         write Stderr ERROR
           (lit "Failed to fetch " ++ isoformat current_date ++ lit ": "
            ++ exn_str exc))).

(** The dates that a command gets from its resolver: [list(...)] of it. *)
Definition resolved (today : date) (date_str start_str end_str : option str)
    (days : option Z) : result (list date) :=
  list_of_generated (resolve_dates_body today date_str start_str end_str days).

(** How ingestion may change the table of readings: no key loses a row, a
    key gets a row of its own at most when it had none, and the table does
    not shrink. *)
Definition readings_step (rs rs1 : list DailyReading.t) : Prop :=
  (length rs <= length rs1)%nat
  /\ forall k, (length (rows_with k rs) <= length (rows_with k rs1)
                <= Nat.max 1 (length (rows_with k rs)))%nat.

(** How ingestion may change the world: meditations are as before, days are
    only added, uniquely if they were unique, readings change as above and
    output is only added. *)
Definition ingestion_step (w w1 : World) : Prop :=
  meditations w1 = meditations w
  /\ (exists new_days, days w1 = days w ++ new_days)
  /\ (days_unique w -> days_unique w1)
  /\ readings_step (readings w) (readings w1)
  /\ exists lines, output w1 = output w ++ lines.

(** The world after a request was sent. *)
Definition add_request (w : World) (r : Request) : World :=
  MkWorld (days w) (readings w) (meditations w) (output w) (requests w ++ [r]).

(** The lines of the ingestion loop. *)
Definition fetching_line (d : date) : Line :=
  MkLine Stdout Plain (lit "Fetching readings for " ++ isoformat d ++ lit "...").

Definition failed_line (d : date) (e : exn) : Line :=
  MkLine Stderr ERROR (lit "Failed to fetch " ++ isoformat d ++ lit ": " ++ exn_str e).

Definition no_sections_line (d : date) : Line :=
  MkLine Stderr WARNING
    (lit "No reading sections found for " ++ isoformat d ++ lit " at "
     ++ FetchVaticanReadings.url_of d).

(** The error of [_fetch_for_date] for a status that is not 200. *)
Definition status_error (d : date) (status_code : Z) : exn :=
  CommandError (lit "URL " ++ FetchVaticanReadings.url_of d ++ lit " returned status "
                ++ str_int status_code).

(** One turn of the ingestion loop. *)
Definition fetch_turn (env : Env) (language_code : str) (d : date) : M unit :=
  write Stdout Plain (lit "Fetching readings for " ++ isoformat d ++ lit "...") ;;;
  try_except (FetchVaticanReadings._fetch_for_date env d language_code) is_Exception
    (fun exc =>
       write Stderr ERROR
         (lit "Failed to fetch " ++ isoformat d ++ lit ": " ++ exn_str exc)).

(** The exception of [_fetch_for_date] for an answer of the site, if the
    answer is a failure: the exception of the request itself, or the
    [CommandError] for a status that is not 200. *)
Definition failure_of (d : date) (answer : GetResult) : option exn :=
  match answer with
  | GetRaises e => Some e
  | GetResponse status_code _ =>
      if status_code =? 200 then None else Some (status_error d status_code)
  end.

(** An environment whose site answers every request with status 200 and a
    page without sections. *)
Definition empty_page_env : Env :=
  MkEnv 738886 (fun _ _ => GetResponse 200 []) (fun _ _ _ _ => PostRaises [])
        None None (fun _ => []) (fun _ => []).

(** The POST that [generate_meditation] sends. *)
Definition gemini_url (env : Env) : str :=
  Gemini._GEMINI_URL_TEMPLATE
    (match GEMINI_MODEL_NAME env with
     | Some m => m
     | None => lit "gemini-1.5-pro"
     end).

Definition gemini_request (env : Env) (gospel_text reference : str) (d : date)
    (language_code : str) : Request :=
  POST (gemini_url env) (Gemini._build_prompt gospel_text reference d language_code)
       (api_key_of env).

(** What the generator answers to that POST in world [w]. *)
Definition gemini_answer (env : Env) (gospel_text reference : str) (d : date)
    (language_code : str) (w : World) : PostResult :=
  requests_post env (length (requests w)) (gemini_url env)
    (Gemini._build_prompt gospel_text reference d language_code) (api_key_of env).

(** The result of [generate_meditation] for an answer of the generator. *)
Definition gemini_result (env : Env) (answer : PostResult) : result str :=
  match answer with
  | PostRaises msg => Raise (GeminiError (lit "Error calling Gemini API: " ++ msg))
  | PostResponse status_code text decoded =>
      if status_code =? 200 then
        match decoded with
        | Raise e => Raise e
        | Ok data =>
            match Gemini.candidate_text data with
            | Some t => Ok (strip (Gemini.str_of env t))
            | None =>
                Raise (GeminiError (lit "Unexpected Gemini response format: "
                                    ++ repr env data))
            end
        end
      else Raise (GeminiError (lit "Gemini API returned HTTP " ++ str_int status_code
                               ++ lit ": " ++ text))
  end.

(** A string without white space at either end. *)
Definition trimmed (s : str) : Prop :=
  (forall c rest, s = c :: rest -> isspace c = false)
  /\ (forall init c, s = init ++ [c] -> isspace c = false).

(** An environment with an API key whose generator answers with status 200
    and a body that is not JSON, and one whose generator answers with a text
    of white space only. *)
Definition bad_json_env : Env :=
  MkEnv 738886
        (fun _ _ => GetRaises (RequestException (lit "connection refused")))
        (fun _ _ _ _ =>
           PostResponse 200 (lit "<html>") (Raise (JSONDecodeError (lit "Expecting value"))))
        (Some (lit "secret")) None (fun _ => []) (fun _ => []).

Definition blank_answer_env : Env :=
  MkEnv 738886
        (fun _ _ => GetRaises (RequestException (lit "connection refused")))
        (fun _ _ _ _ =>
           PostResponse 200 []
             (Ok (JDict [(lit "candidates",
                          JList [JDict [(lit "content",
                                         JDict [(lit "parts",
                                                 JList [JDict [(lit "text",
                                                                JString [32%N; 10%N])]])])]])])))
        (Some (lit "secret")) None (fun _ => []) (fun _ => []).

(** A meditation as the generation command creates them: from the AI, a
    draft, with no creator and no approval stamp. *)
Definition is_ai_draft (m : GospelMeditation.t) : Prop :=
  GospelMeditation.source m = GospelMeditation.Source.AI
  /\ GospelMeditation.status m = GospelMeditation.Status.DRAFT
  /\ GospelMeditation.created_by m = None
  /\ GospelMeditation.approved_by m = None
  /\ GospelMeditation.approved_at m = None.

(** How generation may change the world: days and readings are as before,
    meditations are only appended, each of them an AI draft and each after
    a request of its own, and output is only added. *)
Definition generation_step (w w1 : World) : Prop :=
  days w1 = days w /\ readings w1 = readings w
  /\ exists new posts,
       meditations w1 = meditations w ++ new
       /\ Forall is_ai_draft new
       /\ requests w1 = requests w ++ posts
       /\ (length new <= length posts)%nat.

(** The block that ingestion stores as the gospel of a date: the third on a
    Sunday, the second on another day. *)
Definition gospel_block (d : date) (blocks : list FetchVaticanReadings.ReadingBlock)
    : option FetchVaticanReadings.ReadingBlock :=
  if weekday d =? 6 then nth_error blocks 2 else nth_error blocks 1.

(** The generator never answers with status 200 and a body that does not
    decode. *)
Definition decodable_answers (env : Env) : Prop :=
  forall n url prompt key text e,
    requests_post env n url prompt key <> PostResponse 200 text (Raise e).

(* ========================================================================= *)
(** * Properties *)

(** ** Dates *)

Lemma date_range_empty (start end_ : date) :
  end_ < start -> date_range start end_ = [].
Proof.
  intros H. unfold date_range.
  replace (Z.to_nat (end_ - start + 1)) with O by lia. reflexivity.
Qed.

Lemma date_range_cons (start end_ : date) :
  start <= end_ -> date_range start end_ = start :: date_range (start + 1) end_.
Proof.
  intros H. unfold date_range.
  replace (Z.to_nat (end_ - start + 1)) with (S (Z.to_nat (end_ - (start + 1) + 1))) by lia.
  cbn [seq map]. f_equal; [lia|].
  rewrite <- seq_shift, map_map. apply map_ext. intros i. lia.
Qed.

Lemma date_range_single (d : date) : date_range d d = [d].
Proof.
  rewrite date_range_cons by lia. rewrite date_range_empty by lia. reflexivity.
Qed.

Lemma date_range_nil_iff (start end_ : date) :
  date_range start end_ = [] <-> end_ < start.
Proof.
  split; [|apply date_range_empty].
  intros H. destruct (Z_lt_le_dec end_ start) as [Hlt|Hle]; [exact Hlt|].
  rewrite date_range_cons in H by exact Hle. discriminate.
Qed.

Lemma date_range_length (start end_ : date) :
  length (date_range start end_) = Z.to_nat (end_ - start + 1).
Proof. unfold date_range. rewrite length_map, length_seq. reflexivity. Qed.

Lemma date_range_nth (start end_ : date) (i : nat) :
  (i < length (date_range start end_))%nat ->
  nth_error (date_range start end_) i = Some (start + Z.of_nat i).
Proof.
  rewrite date_range_length. intros H. unfold date_range.
  rewrite nth_error_map, nth_error_seq.
  destruct (Nat.ltb_spec i (Z.to_nat (end_ - start + 1))) as [_|Hge]; [reflexivity|lia].
Qed.

Lemma date_add_ok (d delta : Z) :
  0 < d + delta <= _MAXORDINAL -> date_add d delta = Ok (d + delta).
Proof.
  intros [H1 H2]. unfold date_add.
  destruct (Z.ltb_spec 0 (d + delta)); [|lia].
  destruct (Z.leb_spec (d + delta) _MAXORDINAL); [reflexivity|lia].
Qed.

Lemma date_add_overflow (d delta : Z) :
  ~ (0 < d + delta <= _MAXORDINAL) -> date_add d delta = Raise OverflowError.
Proof.
  intros H. unfold date_add.
  destruct (Z.ltb_spec 0 (d + delta)); [|reflexivity].
  destruct (Z.leb_spec (d + delta) _MAXORDINAL); [lia|reflexivity].
Qed.

Lemma date_add_valid (d delta r : Z) : date_add d delta = Ok r -> valid r /\ r = d + delta.
Proof.
  unfold date_add, valid.
  destruct (Z.ltb_spec 0 (d + delta)); [|discriminate].
  destruct (Z.leb_spec (d + delta) _MAXORDINAL); [|discriminate].
  intros [= <-]. lia.
Qed.

(** What the loop yields, with any fuel that is enough. *)
Lemma date_loop_yielded (fuel : nat) (current end_ : date) :
  (Z.to_nat (end_ - current + 1) <= fuel)%nat -> 0 <= current -> end_ <= _MAXORDINAL ->
  yielded (date_loop fuel current end_) = date_range current end_.
Proof.
  revert current. induction fuel as [|fuel IH]; intros current Hfuel Hpos Hmax.
  - cbn. rewrite date_range_empty by lia. reflexivity.
  - cbn [date_loop]. destruct (Z.leb_spec current end_) as [Hle|Hgt].
    + rewrite date_range_cons by exact Hle.
      destruct (Z.eq_dec current _MAXORDINAL) as [Heq|Hne].
      * rewrite date_add_overflow by lia. cbn.
        rewrite date_range_empty by lia. reflexivity.
      * rewrite date_add_ok by lia. cbn. f_equal. apply IH; lia.
    + cbn. rewrite date_range_empty by lia. reflexivity.
Qed.

(** How the loop ends: normally, unless it steps past the last date. *)
Lemma date_loop_raised (fuel : nat) (current end_ : date) :
  (Z.to_nat (end_ - current + 1) <= fuel)%nat -> 0 <= current -> end_ <= _MAXORDINAL ->
  raised (date_loop fuel current end_)
  = if (current <=? end_) && (end_ =? _MAXORDINAL) then Some OverflowError else None.
Proof.
  revert current. induction fuel as [|fuel IH]; intros current Hfuel Hpos Hmax.
  - cbn. destruct (Z.leb_spec current end_); [lia|reflexivity].
  - cbn [date_loop]. destruct (Z.leb_spec current end_) as [Hle|Hgt]; [|reflexivity].
    destruct (Z.eq_dec current _MAXORDINAL) as [Heq|Hne].
    + rewrite date_add_overflow by lia. cbn.
      destruct (Z.eqb_spec end_ _MAXORDINAL); [reflexivity|lia].
    + rewrite date_add_ok by lia. cbn. rewrite IH by lia.
      destruct (Z.eqb_spec end_ _MAXORDINAL) as [He|He].
      * destruct (Z.leb_spec (current + 1) end_); [reflexivity|lia].
      * rewrite andb_false_r. reflexivity.
Qed.

(** More fuel than the loop needs changes nothing. *)
Lemma date_loop_fuel_enough (fuel : nat) (current end_ : date) :
  (date_loop_fuel current end_ <= fuel)%nat -> 0 <= current -> end_ <= _MAXORDINAL ->
  date_loop fuel current end_ = date_loop (date_loop_fuel current end_) current end_.
Proof.
  intros Hfuel Hpos Hmax. unfold date_loop_fuel in *.
  pose proof (date_loop_yielded fuel current end_ Hfuel Hpos Hmax) as Y1.
  pose proof (date_loop_raised fuel current end_ Hfuel Hpos Hmax) as R1.
  pose proof (date_loop_yielded _ current end_ (Nat.le_refl _) Hpos Hmax) as Y2.
  pose proof (date_loop_raised _ current end_ (Nat.le_refl _) Hpos Hmax) as R2.
  destruct (date_loop fuel current end_), (date_loop _ current end_).
  cbn in *. congruence.
Qed.

Lemma ymd2ord_valid (y m d : Z) :
  MINYEAR <= y <= MAXYEAR -> 1 <= m <= 12 -> 1 <= d <= _days_in_month y m ->
  valid (_ymd2ord y m d).
Proof.
  unfold MINYEAR, MAXYEAR, valid, _MAXORDINAL. intros Hy Hm Hd.
  assert (Hdbm : 0 <= _days_before_month y m
                 /\ _days_before_month y m + _days_in_month y m
                    <= 365 + (if _is_leap y then 1 else 0)).
  { assert (Hcases : m = 1 \/ m = 2 \/ m = 3 \/ m = 4 \/ m = 5 \/ m = 6 \/ m = 7
                     \/ m = 8 \/ m = 9 \/ m = 10 \/ m = 11 \/ m = 12) by lia.
    unfold _days_before_month, _days_in_month.
    destruct (_is_leap y);
      repeat (destruct Hcases as [->|Hcases]; [vm_compute; split; congruence|]); subst m; vm_compute; split; congruence. }
  unfold _ymd2ord.
  destruct (Z.eq_dec y 9999) as [->|Hne].
  - change (_is_leap 9999) with false in Hdbm.
    change (_days_before_year 9999) with 3651694. lia.
  - assert (Hy' : 0 <= _days_before_year y <= 3651404).
    { unfold _days_before_year. cbn zeta. Z.to_euclidean_division_equations. lia. }
    destruct (_is_leap y); lia.
Qed.

Lemma fromisoformat_valid (s : str) (d : date) : fromisoformat s = Ok d -> valid d.
Proof.
  unfold fromisoformat.
  repeat match goal with
         | |- context [match ?x with _ => _ end] => destruct x eqn:?; try discriminate
         end.
  intros [= <-].
  repeat match goal with
         | H : _ && _ = true |- _ => apply andb_prop in H; destruct H
         end.
  repeat match goal with
         | H : (_ <=? _) = true |- _ => apply Z.leb_le in H
         end.
  apply ymd2ord_valid; unfold MINYEAR, MAXYEAR in *; lia.
Qed.

Lemma truthy_str_some (o : option str) :
  truthy_str o = true -> exists s, o = Some s /\ s <> [].
Proof.
  destruct o as [[|c s]|]; cbn; try discriminate.
  intros _. exists (c :: s). split; [reflexivity | discriminate].
Qed.

Lemma truthy_str_true (s : str) : s <> [] -> truthy_str (Some s) = true.
Proof. destruct s; [congruence | reflexivity]. Qed.

Lemma resolve_bounds_valid (today : date) (date_str start_str end_str : option str)
    (days : option Z) (start end_ : date) :
  valid today ->
  resolve_bounds today date_str start_str end_str days = Ok (start, end_) ->
  valid start /\ valid end_.
Proof.
  intros Htoday. unfold resolve_bounds.
  destruct (truthy_str start_str).
  - destruct (fromisoformat _) as [s0|] eqn:Hs; [|discriminate].
    apply fromisoformat_valid in Hs.
    destruct (truthy_str end_str).
    + destruct (fromisoformat _) as [e0|] eqn:He; [|discriminate].
      apply fromisoformat_valid in He. intros [= <- <-]. auto.
    + destruct (truthy_int days).
      * destruct (timedelta _) as [delta|]; [|discriminate].
        destruct (date_add s0 delta) as [e0|] eqn:Ha; [|discriminate].
        apply date_add_valid in Ha. intros [= <- <-]. tauto.
      * intros [= <- <-]. auto.
  - destruct (truthy_str date_str).
    + destruct (fromisoformat _) as [d0|] eqn:Hd; [|discriminate].
      apply fromisoformat_valid in Hd. intros [= <- <-]. auto.
    + intros [= <- <-]. auto.
Qed.

(** The generator, once the bounds are known. *)
Lemma resolve_dates_body_bounds (today : date) (date_str start_str end_str : option str)
    (days : option Z) (start end_ : date) :
  valid today ->
  resolve_bounds today date_str start_str end_str days = Ok (start, end_) ->
  yielded (resolve_dates_body today date_str start_str end_str days)
  = date_range start end_
  /\ raised (resolve_dates_body today date_str start_str end_str days)
     = if (start <=? end_) && (end_ =? _MAXORDINAL) then Some OverflowError else None.
Proof.
  intros Htoday Hb.
  destruct (resolve_bounds_valid _ _ _ _ _ _ _ Htoday Hb) as [Hs He].
  unfold resolve_dates_body. rewrite Hb. unfold valid, date_loop_fuel in *.
  split; [apply date_loop_yielded | apply date_loop_raised]; lia.
Qed.

Lemma resolve_dates_body_raise (today : date) (date_str start_str end_str : option str)
    (days : option Z) (e : exn) :
  resolve_bounds today date_str start_str end_str days = Raise e ->
  resolve_dates_body today date_str start_str end_str days = Generated [] (Some e).
Proof. intros Hb. unfold resolve_dates_body. rewrite Hb. reflexivity. Qed.

Lemma timedelta_ok (n : Z) : -999999999 <= n <= 999999999 -> timedelta n = Ok n.
Proof.
  intros H. unfold timedelta.
  destruct (Z.leb_spec (-999999999) n); [|lia].
  destruct (Z.leb_spec n 999999999); [reflexivity|lia].
Qed.

(** C3, as stated, fails when [days] is given as 0: the code then yields the
    start date alone, and not the (empty) range that ends at
    [start + (days - 1)]. *)
Lemma resolve_dates_days_zero_not_as_specified :
  fromisoformat (lit "2024-01-01") = Ok 738886
  /\ yielded (FetchVaticanReadings._resolve_dates 738886 None (Some (lit "2024-01-01"))
                None (Some 0)) = [738886]
  /\ yielded (FetchVaticanReadings._resolve_dates 738886 None (Some (lit "2024-01-01"))
                None (Some 0))
     <> date_range 738886 (end_as_specified 738886 None (Some 0)).
Proof. repeat split; vm_compute; congruence. Qed.

(** C3 (amended). Both [_resolve_dates] yield the consecutive dates from
    [start] to [end], both included, in ascending order, where: if a
    non-empty [start] is given, [end] is the explicit non-empty end, else
    [start + (days - 1)] when [days] is given, is not 0 and that day exists,
    else [start] itself (also when [days] is 0); otherwise a non-empty
    single date yields that date; otherwise the sequence is [today]. The
    generator ends normally when the range is empty or ends before the
    last date of the calendar. With start 2024-01-01 and 3 days it yields
    2024-01-01, 2024-01-02, 2024-01-03. *)
Theorem resolve_dates_priority (today : date) (date_str start_str end_str : option str)
    (days : option Z) :
  valid today ->
  let g := FetchVaticanReadings._resolve_dates today date_str start_str end_str days in
  GenerateMeditation._resolve_dates today date_str start_str end_str days = g
  /\ (forall s start, start_str = Some s -> s <> [] -> fromisoformat s = Ok start ->
        (forall e end_, end_str = Some e -> e <> [] -> fromisoformat e = Ok end_ ->
           yielded g = date_range start end_
           /\ (end_ < start \/ end_ < _MAXORDINAL -> raised g = None))
        /\ (forall n, truthy_str end_str = false -> days = Some n -> n <> 0 ->
              valid (start + (n - 1)) ->
              yielded g = date_range start (start + (n - 1))
              /\ (n < 0 \/ start + (n - 1) < _MAXORDINAL -> raised g = None))
        /\ (truthy_str end_str = false -> days = None \/ days = Some 0 ->
              yielded g = [start] /\ (start < _MAXORDINAL -> raised g = None)))
  /\ (forall s d, truthy_str start_str = false -> date_str = Some s -> s <> [] ->
        fromisoformat s = Ok d ->
        yielded g = [d] /\ (d < _MAXORDINAL -> raised g = None))
  /\ (truthy_str start_str = false -> truthy_str date_str = false ->
        yielded g = [today] /\ (today < _MAXORDINAL -> raised g = None))
  /\ (forall i, nth_error (yielded g) (S i) <> None ->
        exists d, nth_error (yielded g) i = Some d
                  /\ nth_error (yielded g) (S i) = Some (d + 1))
  /\ map isoformat
       (yielded (FetchVaticanReadings._resolve_dates today None
                   (Some (lit "2024-01-01")) None (Some 3)))
     = [lit "2024-01-01"; lit "2024-01-02"; lit "2024-01-03"].
Proof.
  intros Htoday g.
  assert (Hrun : forall start end_,
             resolve_bounds today date_str start_str end_str days = Ok (start, end_) ->
             yielded g = date_range start end_
             /\ raised g = if (start <=? end_) && (end_ =? _MAXORDINAL)
                           then Some OverflowError else None).
  { intros start end_ Hb. apply resolve_dates_body_bounds; assumption. }
  assert (Hnormal : forall start end_ : Z,
             end_ < start \/ end_ < _MAXORDINAL ->
             (if (start <=? end_) && (end_ =? _MAXORDINAL)
              then Some OverflowError else None) = None).
  { intros start end_ H.
    destruct (Z.leb_spec start end_), (Z.eqb_spec end_ _MAXORDINAL);
      try reflexivity; lia. }
  split; [reflexivity|].
  split; [|split; [|split; [|split]]].
  - intros s start -> Hs Hp.
    pose proof (fromisoformat_valid _ _ Hp) as Hv.
    assert (Hb0 : forall r,
               (if truthy_str end_str then
                  match fromisoformat (match end_str with Some s => s | None => [] end) with
                  | Raise e => Raise e
                  | Ok end_ => Ok (start, end_)
                  end
                else if truthy_int days then
                  match timedelta (match days with Some n => n | None => 0 end - 1) with
                  | Raise e => Raise e
                  | Ok delta =>
                      match date_add start delta with
                      | Raise e => Raise e
                      | Ok end_ => Ok (start, end_)
                      end
                  end
                else Ok (start, start)) = r ->
               resolve_bounds today date_str (Some s) end_str days = r).
    { intros r <-. unfold resolve_bounds.
      rewrite (truthy_str_true s Hs), Hp. reflexivity. }
    split; [|split].
    + intros e end_ -> He Hpe.
      destruct (Hrun start end_) as [Hy Hr].
      { apply Hb0. rewrite (truthy_str_true e He), Hpe. reflexivity. }
      split; [exact Hy|]. intros H. rewrite Hr. apply Hnormal, H.
    + intros n Hend -> Hn Hvn.
      destruct (Hrun start (start + (n - 1))) as [Hy Hr].
      { apply Hb0. rewrite Hend. cbn [truthy_int].
        destruct (Z.eqb_spec n 0); [contradiction|]. cbn [negb].
        unfold valid, _MAXORDINAL in *.
        rewrite timedelta_ok by lia. rewrite date_add_ok; [reflexivity|].
        unfold _MAXORDINAL. lia. }
      split; [exact Hy|]. intros H. rewrite Hr. apply Hnormal.
      unfold valid in *. lia.
    + intros Hend Hdays.
      destruct (Hrun start start) as [Hy Hr].
      { apply Hb0. rewrite Hend. destruct Hdays as [-> | ->]; reflexivity. }
      rewrite date_range_single in Hy. split; [exact Hy|].
      intros H. rewrite Hr. apply Hnormal. right. exact H.
  - intros s d Hstart -> Hs Hp.
    destruct (Hrun d d) as [Hy Hr].
    { unfold resolve_bounds. rewrite Hstart, (truthy_str_true s Hs), Hp. reflexivity. }
    rewrite date_range_single in Hy. split; [exact Hy|].
    intros H. rewrite Hr. apply Hnormal. right. exact H.
  - intros Hstart Hdate.
    destruct (Hrun today today) as [Hy Hr].
    { unfold resolve_bounds. rewrite Hstart, Hdate. reflexivity. }
    rewrite date_range_single in Hy. split; [exact Hy|].
    intros H. rewrite Hr. apply Hnormal. right. exact H.
  - intros i Hi.
    destruct (resolve_bounds today date_str start_str end_str days) as [[start end_]|e] eqn:Hb.
    + destruct (Hrun start end_ eq_refl) as [Hy _]. rewrite Hy in *.
      assert (Hlen : (S i < length (date_range start end_))%nat).
      { apply nth_error_Some. exact Hi. }
      exists (start + Z.of_nat i). split.
      * apply date_range_nth. lia.
      * rewrite date_range_nth by exact Hlen. f_equal. lia.
    + exfalso. apply Hi. unfold g, FetchVaticanReadings._resolve_dates.
      rewrite (resolve_dates_body_raise _ _ _ _ _ _ Hb). reflexivity.
  - vm_compute. reflexivity.
Qed.

Lemma resolve_dates_priority_witness :
  valid 738886
  /\ yielded (FetchVaticanReadings._resolve_dates 738886 None None None None) = [738886].
Proof.
  assert (Hv : valid 738886) by (unfold valid, _MAXORDINAL; lia).
  split; [exact Hv|].
  apply (resolve_dates_priority 738886 None None None None Hv); reflexivity.
Defined.

(** C10. With a start date and [days] 0 (or no [days]) and no end, both
    [_resolve_dates] yield the start date alone: the test [elif days] is
    false, so the end is the start, whereas the range ending at
    [start + (days - 1)] would be empty. The generator then ends normally,
    unless the start is the last date of the calendar, where stepping past
    it raises [OverflowError]. *)
Theorem resolve_dates_days_zero (today : date) (date_str end_str : option str)
    (s : str) (start : date) (days : option Z) :
  s <> [] -> fromisoformat s = Ok start -> truthy_str end_str = false ->
  days = Some 0 \/ days = None ->
  yielded (FetchVaticanReadings._resolve_dates today date_str (Some s) end_str days)
  = [start]
  /\ yielded (GenerateMeditation._resolve_dates today date_str (Some s) end_str days)
     = [start]
  /\ date_range start (start + (0 - 1)) = []
  /\ (start < _MAXORDINAL ->
      raised (FetchVaticanReadings._resolve_dates today date_str (Some s) end_str days)
      = None).
Proof.
  intros Hs Hp Hend Hdays.
  pose proof (fromisoformat_valid _ _ Hp) as Hv. unfold valid in Hv.
  assert (Hb : resolve_dates_body today date_str (Some s) end_str days
               = date_loop (date_loop_fuel start start) start start).
  { unfold resolve_dates_body, resolve_bounds.
    rewrite (truthy_str_true s Hs), Hp, Hend.
    destruct Hdays as [-> | ->]; reflexivity. }
  unfold FetchVaticanReadings._resolve_dates, GenerateMeditation._resolve_dates.
  rewrite Hb. unfold date_loop_fuel.
  rewrite date_loop_yielded, date_loop_raised by lia.
  rewrite date_range_single.
  repeat split.
  - apply date_range_empty. lia.
  - intros Hlt. destruct (Z.eqb_spec start _MAXORDINAL); [lia|].
    rewrite andb_false_r. reflexivity.
Qed.

Lemma resolve_dates_days_zero_witness :
  yielded (FetchVaticanReadings._resolve_dates 1 None (Some (lit "2024-01-01")) None
             (Some 0)) = [738886].
Proof.
  apply (resolve_dates_days_zero 1 None None (lit "2024-01-01") 738886 (Some 0)).
  - discriminate.
  - reflexivity.
  - reflexivity.
  - left. reflexivity.
Defined.

(** ** Empty ranges *)

Lemma list_of_generated_nil {A} (g : generated A) :
  list_of_generated g = Ok [] <-> yielded g = [] /\ raised g = None.
Proof.
  unfold list_of_generated. destruct g as [ys [e|]]; cbn.
  - split; [discriminate | intros [_ H]; discriminate].
  - split; [intros [= ->]; auto | intros [-> _]; reflexivity].
Qed.

(** No date is resolved exactly when the bounds are found and the end is
    before the start. *)
Lemma resolve_dates_empty_iff (today : date) (date_str start_str end_str : option str)
    (days : option Z) :
  valid today ->
  (list_of_generated (resolve_dates_body today date_str start_str end_str days) = Ok []
   <-> exists start end_,
         resolve_bounds today date_str start_str end_str days = Ok (start, end_)
         /\ end_ < start).
Proof.
  intros Htoday. rewrite list_of_generated_nil. split.
  - intros [Hy Hr].
    destruct (resolve_bounds today date_str start_str end_str days)
      as [[start end_]|e] eqn:Hb.
    + exists start, end_. split; [reflexivity|].
      destruct (resolve_dates_body_bounds _ _ _ _ _ _ _ Htoday Hb) as [Hy' _].
      apply date_range_nil_iff. congruence.
    + rewrite (resolve_dates_body_raise _ _ _ _ _ _ Hb) in Hr. discriminate.
  - intros (start & end_ & Hb & Hlt).
    destruct (resolve_dates_body_bounds _ _ _ _ _ _ _ Htoday Hb) as [Hy Hr].
    rewrite Hy, Hr. split; [apply date_range_empty, Hlt|].
    destruct (Z.leb_spec start end_); [lia|reflexivity].
Qed.

(** Bounds with the end before the start need a start and an end or a
    number of days. *)
Lemma resolve_bounds_reversed (today : date) (date_str start_str end_str : option str)
    (days : option Z) (start end_ : date) :
  resolve_bounds today date_str start_str end_str days = Ok (start, end_) ->
  end_ < start ->
  truthy_str start_str = true
  /\ (truthy_str end_str = true \/ truthy_int days = true).
Proof.
  unfold resolve_bounds.
  destruct (truthy_str start_str).
  - destruct (fromisoformat _); [|discriminate].
    destruct (truthy_str end_str); [auto|].
    destruct (truthy_int days); [auto|].
    intros [= <- <-]. lia.
  - destruct (truthy_str date_str).
    + destruct (fromisoformat _); [|discriminate]. intros [= <- <-]. lia.
    + intros [= <- <-]. lia.
Qed.

(** Without a start and without a single date, the range is today alone. *)
Lemma resolve_dates_default_today (today : date) (date_str start_str end_str : option str)
    (days : option Z) :
  valid today -> truthy_str start_str = false -> truthy_str date_str = false ->
  yielded (resolve_dates_body today date_str start_str end_str days) = [today].
Proof.
  intros Htoday Hs Hd.
  destruct (resolve_dates_body_bounds today date_str start_str end_str days today today
              Htoday) as [Hy _].
  { unfold resolve_bounds. rewrite Hs, Hd. reflexivity. }
  rewrite Hy. apply date_range_single.
Qed.

(** C4, as stated, fails for the ingestion command: on the empty range from
    2024-01-05 to 2024-01-03 its [handle] raises [CommandError], although a
    start and an end were given. *)
Lemma fetch_handle_empty_range_raises :
  list_of_generated
    (FetchVaticanReadings._resolve_dates (today offline_env) None
       (Some (lit "2024-01-05")) (Some (lit "2024-01-03")) None) = Ok []
  /\ FetchVaticanReadings.handle offline_env
       (FetchVaticanReadings.MkOptions None (Some (lit "2024-01-05"))
          (Some (lit "2024-01-03")) None (lit "es"))
       empty_world
     = (Raise (CommandError no_dates_msg), empty_world).
Proof. split; vm_compute; reflexivity. Qed.

(** C4 (amended). For both commands no date is resolved only when the end
    is before the start, which needs a start together with an end or a
    number of days; without any date argument the resolver yields [today].
    When no date is resolved, the ingestion command raises [CommandError]
    with the message "No dates resolved. ..." and the generation command
    writes that message to [stderr] and returns; neither processes a date,
    touches the database or sends a request. *)
Theorem empty_range_handling (env : Env) (fo : FetchVaticanReadings.Options)
    (go : GenerateMeditation.Options) (w : World) :
  valid (today env) ->
  let gf := FetchVaticanReadings._resolve_dates (today env)
              (FetchVaticanReadings.opt_date fo) (FetchVaticanReadings.opt_start_date fo)
              (FetchVaticanReadings.opt_end_date fo) (FetchVaticanReadings.opt_days fo) in
  let gg := GenerateMeditation._resolve_dates (today env)
              (GenerateMeditation.opt_date go) (GenerateMeditation.opt_start_date go)
              (GenerateMeditation.opt_end_date go) (GenerateMeditation.opt_days go) in
  (list_of_generated gf = Ok [] ->
     (exists start end_,
        resolve_bounds (today env)
          (FetchVaticanReadings.opt_date fo) (FetchVaticanReadings.opt_start_date fo)
          (FetchVaticanReadings.opt_end_date fo) (FetchVaticanReadings.opt_days fo)
        = Ok (start, end_) /\ end_ < start)
     /\ truthy_str (FetchVaticanReadings.opt_start_date fo) = true
     /\ (truthy_str (FetchVaticanReadings.opt_end_date fo) = true
         \/ truthy_int (FetchVaticanReadings.opt_days fo) = true)
     /\ FetchVaticanReadings.handle env fo w = (Raise (CommandError no_dates_msg), w))
  /\ (list_of_generated gg = Ok [] ->
        (exists start end_,
           resolve_bounds (today env)
             (GenerateMeditation.opt_date go) (GenerateMeditation.opt_start_date go)
             (GenerateMeditation.opt_end_date go) (GenerateMeditation.opt_days go)
           = Ok (start, end_) /\ end_ < start)
        /\ truthy_str (GenerateMeditation.opt_start_date go) = true
        /\ (truthy_str (GenerateMeditation.opt_end_date go) = true
            \/ truthy_int (GenerateMeditation.opt_days go) = true)
        /\ GenerateMeditation.handle env go w
           = (Ok tt, MkWorld (days w) (readings w) (meditations w)
                             (output w ++ [MkLine Stderr Plain no_dates_msg])
                             (requests w)))
  /\ (truthy_str (FetchVaticanReadings.opt_start_date fo) = false ->
      truthy_str (FetchVaticanReadings.opt_date fo) = false ->
      yielded gf = [today env])
  /\ (truthy_str (GenerateMeditation.opt_start_date go) = false ->
      truthy_str (GenerateMeditation.opt_date go) = false ->
      yielded gg = [today env]).
Proof.
  intros Htoday gf gg. split; [|split; [|split]].
  - intros Hempty.
    pose proof Hempty as Hex.
    apply (resolve_dates_empty_iff _ _ _ _ _ Htoday) in Hex.
    destruct Hex as (start & end_ & Hb & Hlt).
    destruct (resolve_bounds_reversed _ _ _ _ _ _ _ Hb Hlt) as [Hs He].
    split; [exists start, end_; auto|]. split; [exact Hs|]. split; [exact He|].
    unfold FetchVaticanReadings.handle, bind, no_dates_msg. fold gf. rewrite Hempty.
    cbv beta iota delta [lift_result ret raise]. reflexivity.
  - intros Hempty.
    pose proof Hempty as Hex.
    apply (resolve_dates_empty_iff _ _ _ _ _ Htoday) in Hex.
    destruct Hex as (start & end_ & Hb & Hlt).
    destruct (resolve_bounds_reversed _ _ _ _ _ _ _ Hb Hlt) as [Hs He].
    split; [exists start, end_; auto|]. split; [exact Hs|]. split; [exact He|].
    unfold GenerateMeditation.handle, bind, no_dates_msg. fold gg. rewrite Hempty.
    cbv beta iota delta [lift_result ret write]. reflexivity.
  - intros Hs Hd. apply resolve_dates_default_today; assumption.
  - intros Hs Hd. apply resolve_dates_default_today; assumption.
Qed.

Lemma empty_range_handling_witness :
  valid (today offline_env)
  /\ FetchVaticanReadings.handle offline_env
       (FetchVaticanReadings.MkOptions None (Some (lit "2024-01-05"))
          (Some (lit "2024-01-03")) None (lit "es"))
       empty_world
     = (Raise (CommandError no_dates_msg), empty_world).
Proof.
  assert (Hv : valid (today offline_env)) by (unfold valid, _MAXORDINAL; cbn; lia).
  split; [exact Hv|].
  apply (empty_range_handling offline_env
           (FetchVaticanReadings.MkOptions None (Some (lit "2024-01-05"))
              (Some (lit "2024-01-03")) None (lit "es"))
           (GenerateMeditation.MkOptions None None None None (lit "es") false)
           empty_world Hv).
  vm_compute. reflexivity.
Defined.

(** ** Tables *)

Lemma str_eqb_eq (a b : str) : str_eqb a b = true <-> a = b.
Proof.
  unfold str_eqb. destruct (list_eq_dec N.eq_dec a b); split; congruence.
Qed.

Lemma str_eqb_refl (a : str) : str_eqb a a = true.
Proof. apply str_eqb_eq. reflexivity. Qed.

Lemma ReadingType_eqb_eq (a b : DailyReading.ReadingType.t) :
  DailyReading.ReadingType.eqb a b = true <-> a = b.
Proof. destruct a, b; cbn; split; congruence. Qed.

Lemma has_key_iff (k : Key) (r : DailyReading.t) :
  has_key k r = true <-> key_of r = k.
Proof.
  destruct k as [[[d l] t] o]. unfold has_key, key_of, Objects.reading_matches.
  rewrite !andb_true_iff, Z.eqb_eq, str_eqb_eq, ReadingType_eqb_eq, Z.eqb_eq.
  split; [intros [[[-> ->] ->] ->]; reflexivity | intros [= -> -> -> ->]; auto].
Qed.

Lemma has_key_of (r : DailyReading.t) : has_key (key_of r) r = true.
Proof. apply has_key_iff. reflexivity. Qed.

Lemma has_key_other (k k' : Key) (r : DailyReading.t) :
  k' <> k -> has_key k r = true -> has_key k' r = false.
Proof.
  intros Hne Hk. apply has_key_iff in Hk.
  destruct (has_key k' r) eqn:Hk'; [|reflexivity].
  apply has_key_iff in Hk'. congruence.
Qed.

Section UpdateFirst.
Context {A : Type} (p : A -> bool) (obj : A).
Hypothesis p_obj : p obj = true.

Lemma update_first_length (l : list A) :
  length (Objects.update_first p (fun _ => obj) l) = length l.
Proof.
  induction l as [|x l IH]; [reflexivity|].
  cbn. destruct (p x); cbn; [reflexivity | now rewrite IH].
Qed.

Lemma filter_update_first (l : list A) :
  filter p (Objects.update_first p (fun _ => obj) l)
  = match filter p l with
    | [] => []
    | _ :: rest => obj :: rest
    end.
Proof.
  induction l as [|x l IH]; [reflexivity|].
  cbn. destruct (p x) eqn:Hx; cbn.
  - rewrite p_obj. reflexivity.
  - rewrite Hx. exact IH.
Qed.

Lemma filter_update_first_other (q : A -> bool) (l : list A) :
  (forall x, p x = true -> q x = false) ->
  filter q (Objects.update_first p (fun _ => obj) l) = filter q l.
Proof.
  intros Hq. induction l as [|x l IH]; [reflexivity|].
  cbn. destruct (p x) eqn:Hx; cbn.
  - rewrite (Hq _ p_obj), (Hq _ Hx). reflexivity.
  - rewrite IH. reflexivity.
Qed.

Lemma update_first_same (l : list A) :
  filter p l = [obj] -> Objects.update_first p (fun _ => obj) l = l.
Proof.
  induction l as [|x l IH]; [reflexivity|].
  cbn. destruct (p x) eqn:Hx.
  - intros [= -> _]. reflexivity.
  - intros H. rewrite IH by exact H. reflexivity.
Qed.
End UpdateFirst.

(** What one upsert does to the table of readings: a row is appended when
    the key is absent; the row of the key is overwritten in its place when
    there is one; several rows of the key are an error. *)
Lemma upsert_reading_run (env : Env) (day : LiturgicalDay.t) (language_code : str)
    (t : DailyReading.ReadingType.t) (b : FetchVaticanReadings.ReadingBlock) (w : World) :
  upsert_semantics env day language_code t b w.
Proof.
  unfold upsert_semantics.
  set (k := (LiturgicalDay.date day, language_code, t, 1) : Key).
  set (obj := reading_of (LiturgicalDay.date day) language_code (t, b)).
  unfold FetchVaticanReadings._upsert_reading, Objects.DailyReading_update_or_create,
    bind, world.
  change (filter (Objects.reading_matches (LiturgicalDay.date day) language_code t 1)
            (readings w)) with (rows_with k (readings w)).
  destruct (rows_with k (readings w)) as [|old [|other rest]] eqn:Hrows.
  - eexists. reflexivity.
  - assert (Hold : key_of old = k).
    { apply has_key_iff.
      assert (Hin : In old (rows_with k (readings w))) by (rewrite Hrows; left; reflexivity).
      apply filter_In in Hin. exact (proj2 Hin). }
    injection Hold as Hd Hl Ht Ho. rewrite Hd, Hl, Ht, Ho.
    eexists. split; reflexivity.
  - eexists. reflexivity.
Qed.

Lemma reading_of_has_key (d : date) (language_code : str)
    (a : DailyReading.ReadingType.t * FetchVaticanReadings.ReadingBlock) :
  has_key (d, language_code, fst a, 1) (reading_of d language_code a) = true.
Proof. apply has_key_iff. reflexivity. Qed.

Lemma rows_with_app (k : Key) (rs rs' : list DailyReading.t) :
  rows_with k (rs ++ rs') = rows_with k rs ++ rows_with k rs'.
Proof. apply filter_app. Qed.

(** The effect of one upsert when the key has at most one row: it succeeds,
    the key then has exactly the new row, the rows of other keys and the
    other tables are as before, and the table does not grow unless the key
    was absent. *)
Lemma upsert_reading_effect (env : Env) (day : LiturgicalDay.t) (language_code : str)
    (t : DailyReading.ReadingType.t) (b : FetchVaticanReadings.ReadingBlock) (w : World) :
  let k : Key := (LiturgicalDay.date day, language_code, t, 1) in
  let obj := reading_of (LiturgicalDay.date day) language_code (t, b) in
  (length (rows_with k (readings w)) <= 1)%nat ->
  exists w',
    FetchVaticanReadings._upsert_reading env day language_code t 1 b w = (Ok tt, w')
    /\ days w' = days w /\ meditations w' = meditations w /\ requests w' = requests w
    /\ rows_with k (readings w') = [obj]
    /\ (forall k', k' <> k -> rows_with k' (readings w') = rows_with k' (readings w))
    /\ (rows_with k (readings w) = [obj] -> readings w' = readings w)
    /\ (rows_with k (readings w) <> [] -> length (readings w') = length (readings w))
    /\ (rows_with k (readings w) = [] -> readings w' = readings w ++ [obj]).
Proof.
  intros k obj Hlen.
  pose proof (upsert_reading_run env day language_code t b w) as Hrun.
  unfold upsert_semantics in Hrun. cbv zeta in Hrun. fold k obj in Hrun.
  assert (Hobj : has_key k obj = true) by apply (reading_of_has_key _ _ (t, b)).
  destruct (rows_with k (readings w)) as [|old [|other rest]] eqn:Hrows.
  - destruct Hrun as [line Hrun]. eexists. split; [exact Hrun|].
    cbn [days readings meditations requests].
    repeat split; try reflexivity.
    + rewrite rows_with_app, Hrows. unfold rows_with. cbn [filter app].
      rewrite Hobj. reflexivity.
    + intros k' Hne. rewrite rows_with_app. unfold rows_with. cbn [filter].
      rewrite (has_key_other k k' obj Hne Hobj). apply app_nil_r.
    + discriminate.
    + congruence.
  - destruct Hrun as [line [Hrun _]]. eexists. split; [exact Hrun|].
    cbn [days readings meditations requests].
    repeat split; try reflexivity.
    + unfold rows_with. rewrite (filter_update_first _ _ Hobj).
      fold (rows_with k (readings w)). rewrite Hrows. reflexivity.
    + intros k' Hne. unfold rows_with.
      apply (filter_update_first_other _ _ Hobj).
      intros x Hx. exact (has_key_other k k' x Hne Hx).
    + intros [= ->]. apply update_first_same. exact Hrows.
    + intros _. apply update_first_length.
    + discriminate.
  - cbn in Hlen. lia.
Qed.

(** An upsert that succeeds found at most one row of its key. *)
Lemma upsert_reading_ok (env : Env) (day : LiturgicalDay.t) (language_code : str)
    (t : DailyReading.ReadingType.t) (b : FetchVaticanReadings.ReadingBlock)
    (w w' : World) :
  FetchVaticanReadings._upsert_reading env day language_code t 1 b w = (Ok tt, w') ->
  (length (rows_with (LiturgicalDay.date day, language_code, t, 1%Z) (readings w)) <= 1)%nat.
Proof.
  intros Hok.
  pose proof (upsert_reading_run env day language_code t b w) as Hrun.
  unfold upsert_semantics in Hrun. cbv zeta in Hrun.
  destruct (rows_with _ (readings w)) as [|old [|other rest]]; cbn; try lia.
  destruct Hrun as [msg Hrun]. congruence.
Qed.

Lemma upsert_all_cons (env : Env) (day : LiturgicalDay.t) (language_code : str)
    (a : DailyReading.ReadingType.t * FetchVaticanReadings.ReadingBlock)
    (l : list (DailyReading.ReadingType.t * FetchVaticanReadings.ReadingBlock))
    (w : World) :
  upsert_all env day language_code (a :: l) w
  = match FetchVaticanReadings._upsert_reading env day language_code (fst a) 1 (snd a) w with
    | (Ok _, w1) => upsert_all env day language_code l w1
    | (Raise e, w1) => (Raise e, w1)
    end.
Proof. reflexivity. Qed.

(** A run of the upserts that succeeds leaves each assigned key with exactly
    its row, and everything else as it was. *)
Lemma upsert_all_first_run (env : Env) (day : LiturgicalDay.t) (language_code : str)
    (l : list (DailyReading.ReadingType.t * FetchVaticanReadings.ReadingBlock)) :
  NoDup (map fst l) ->
  forall w w',
    upsert_all env day language_code l w = (Ok tt, w') ->
    days w' = days w /\ meditations w' = meditations w /\ requests w' = requests w
    /\ (forall a, In a l ->
          rows_with (LiturgicalDay.date day, language_code, fst a, 1) (readings w')
          = [reading_of (LiturgicalDay.date day) language_code a])
    /\ (forall k',
          (forall a, In a l -> k' <> (LiturgicalDay.date day, language_code, fst a, 1)) ->
          rows_with k' (readings w') = rows_with k' (readings w)).
Proof.
  induction l as [|a l IH]; intros Hnd w w' Hrun.
  - cbn in Hrun. injection Hrun as <-. repeat split; try reflexivity.
    intros a [].
  - rewrite upsert_all_cons in Hrun.
    destruct (FetchVaticanReadings._upsert_reading env day language_code (fst a) 1 (snd a) w)
      as [[[]|e] w1] eqn:Hup; [|discriminate].
    pose proof (upsert_reading_ok _ _ _ _ _ _ _ Hup) as Hlen.
    destruct (upsert_reading_effect env day language_code (fst a) (snd a) w Hlen)
      as (w1' & Hup' & Hd & Hm & Hr & Hk & Hother & _).
    rewrite Hup in Hup'. injection Hup' as <-.
    inversion Hnd as [|x xs Hnotin Hnd']; subst.
    destruct (IH Hnd' w1 w' Hrun) as (Hd' & Hm' & Hr' & Hin' & Hother').
    repeat split; try congruence.
    + intros a' [<- | Hin]; [|apply Hin', Hin].
      rewrite Hother'.
      * rewrite Hk. destruct a; reflexivity.
      * intros a2 Hin2 Heq. injection Heq as Heq. apply Hnotin.
        rewrite Heq. apply in_map, Hin2.
    + intros k' Hk'. rewrite Hother'.
      * apply Hother. apply Hk'. left. reflexivity.
      * intros a' Hin. apply Hk'. right. exact Hin.
Qed.

(** The upserts succeed when no assigned key has more than one row. *)
Lemma upsert_all_succeeds (env : Env) (day : LiturgicalDay.t) (language_code : str)
    (l : list (DailyReading.ReadingType.t * FetchVaticanReadings.ReadingBlock)) :
  NoDup (map fst l) ->
  forall w,
    (forall a, In a l ->
       (length (rows_with (LiturgicalDay.date day, language_code, fst a, 1%Z)
                          (readings w)) <= 1)%nat) ->
    exists w', upsert_all env day language_code l w = (Ok tt, w').
Proof.
  induction l as [|a l IH]; intros Hnd w Hlen.
  - eexists. reflexivity.
  - rewrite upsert_all_cons.
    destruct (upsert_reading_effect env day language_code (fst a) (snd a) w)
      as (w1 & Hup & _ & _ & _ & _ & Hother & _).
    { apply Hlen. left. reflexivity. }
    rewrite Hup. inversion Hnd as [|x xs Hnotin Hnd']; subst.
    apply (IH Hnd'). intros a' Hin. rewrite Hother.
    + apply Hlen. right. exact Hin.
    + intros Heq. injection Heq as Heq. apply Hnotin. rewrite <- Heq.
      apply in_map, Hin.
Qed.

(** Upserts of rows that are already there change no table. *)
Lemma upsert_all_second_run (env : Env) (day : LiturgicalDay.t) (language_code : str)
    (l : list (DailyReading.ReadingType.t * FetchVaticanReadings.ReadingBlock)) :
  forall w,
    (forall a, In a l ->
       rows_with (LiturgicalDay.date day, language_code, fst a, 1) (readings w)
       = [reading_of (LiturgicalDay.date day) language_code a]) ->
    exists w', upsert_all env day language_code l w = (Ok tt, w')
               /\ same_tables w w' /\ requests w' = requests w.
Proof.
  induction l as [|a l IH]; intros w Hrows.
  - eexists. split; [reflexivity|]. repeat split.
  - rewrite upsert_all_cons.
    assert (Ha : rows_with (LiturgicalDay.date day, language_code, fst a, 1) (readings w)
                 = [reading_of (LiturgicalDay.date day) language_code a]).
    { apply Hrows. left. reflexivity. }
    destruct (upsert_reading_effect env day language_code (fst a) (snd a) w)
      as (w1 & Hup & Hd & Hm & Hr & _ & _ & Hsame & _).
    { rewrite Ha. cbn. lia. }
    rewrite Hup.
    assert (Hrs : readings w1 = readings w).
    { apply Hsame. rewrite Ha. destruct a; reflexivity. }
    destruct (IH w1) as (w' & Hrun & (Hd' & Hrs' & Hm') & Hr').
    { intros a' Hin. rewrite Hrs. apply Hrows. right. exact Hin. }
    exists w'. split; [exact Hrun|]. unfold same_tables. repeat split; congruence.
Qed.

(** ** The positional policy *)

Lemma assignments_NoDup (d : date) (blocks : list FetchVaticanReadings.ReadingBlock) :
  NoDup (map fst (assignments d blocks)).
Proof.
  unfold assignments.
  destruct (weekday d =? 6); destruct blocks as [|b0 [|b1 [|b2 rest]]]; cbn;
    repeat constructor; cbn; intuition discriminate.
Qed.

(** The conditional upserts of [_fetch_for_date] are the upserts of the
    assignments. *)
Lemma store_blocks_assignments (env : Env) (d : date) (day : LiturgicalDay.t)
    (language_code : str) (blocks : list FetchVaticanReadings.ReadingBlock) (w : World) :
  FetchVaticanReadings.store_blocks env d day language_code blocks w
  = upsert_all env day language_code (assignments d blocks) w.
Proof.
  unfold FetchVaticanReadings.store_blocks, assignments, upsert_all.
  destruct (weekday d =? 6); destruct blocks as [|b0 [|b1 [|b2 rest]]];
    unfold FetchVaticanReadings.upsert_if_present;
    cbn [negb length Nat.leb Nat.sub getitem nth_error lift_result combine for_each fst snd];
    unfold bind, ret; cbv beta iota; try reflexivity;
    repeat (match goal with
            | |- context [FetchVaticanReadings._upsert_reading ?e ?x ?l ?t ?o ?b ?w0] =>
                destruct (FetchVaticanReadings._upsert_reading e x l t o b w0)
                  as [[[]|?] ?]
            end; try reflexivity).
Qed.

(** ** Days *)

Lemma day_matches_date (d : date) (x : LiturgicalDay.t) :
  Objects.day_matches d x = true -> x = LiturgicalDay.Build d.
Proof.
  unfold Objects.day_matches. destruct x as [d']. cbn. intros H.
  apply Z.eqb_eq in H. congruence.
Qed.

(** [get_or_create]: the day of the date is found, or appended to the table;
    several days of one date are an error. *)
Lemma get_or_create_run (d : date) (w : World) :
  match filter (Objects.day_matches d) (days w) with
  | [] =>
      Objects.LiturgicalDay_get_or_create d w
      = (Ok (LiturgicalDay.Build d, true),
         MkWorld (days w ++ [LiturgicalDay.Build d]) (readings w) (meditations w)
                 (output w) (requests w))
  | [x] =>
      x = LiturgicalDay.Build d
      /\ Objects.LiturgicalDay_get_or_create d w = (Ok (x, false), w)
  | _ :: _ :: _ =>
      exists msg,
        Objects.LiturgicalDay_get_or_create d w = (Raise (MultipleObjectsReturned msg), w)
  end.
Proof.
  unfold Objects.LiturgicalDay_get_or_create, bind, world.
  destruct (filter (Objects.day_matches d) (days w)) as [|x [|y rest]] eqn:Hf.
  - reflexivity.
  - split; [|reflexivity]. apply day_matches_date.
    assert (Hin : In x (filter (Objects.day_matches d) (days w)))
      by (rewrite Hf; left; reflexivity).
    apply filter_In in Hin. exact (proj2 Hin).
  - eexists. reflexivity.
Qed.

Lemma day_matches_build (d : date) : Objects.day_matches d (LiturgicalDay.Build d) = true.
Proof. unfold Objects.day_matches. cbn. apply Z.eqb_refl. Qed.

(** ** Ingestion *)

Lemma ingest_run (env : Env) (d : date) (language_code url : str)
    (blocks : list FetchVaticanReadings.ReadingBlock) (w : World) :
  FetchVaticanReadings.ingest env d language_code url blocks w
  = match Objects.LiturgicalDay_get_or_create d w with
    | (Ok r, w0) =>
        match blocks with
        | [] =>
            write Stderr WARNING
              (lit "No reading sections found for " ++ isoformat d ++ lit " at " ++ url) w0
        | _ :: _ => upsert_all env (fst r) language_code (assignments d blocks) w0
        end
    | (Raise e, w0) => (Raise e, w0)
    end.
Proof.
  unfold FetchVaticanReadings.ingest, bind.
  destruct (Objects.LiturgicalDay_get_or_create d w) as [[r|e] w0]; [|reflexivity].
  destruct blocks; [reflexivity|]. apply store_blocks_assignments.
Qed.

(** After [get_or_create] succeeds, the date has exactly one day. *)
Lemma get_or_create_ok (d : date) (w w0 : World) (r : LiturgicalDay.t * bool) :
  Objects.LiturgicalDay_get_or_create d w = (Ok r, w0) ->
  fst r = LiturgicalDay.Build d
  /\ filter (Objects.day_matches d) (days w0) = [LiturgicalDay.Build d]
  /\ readings w0 = readings w /\ meditations w0 = meditations w
  /\ requests w0 = requests w /\ output w0 = output w.
Proof.
  intros Hrun. pose proof (get_or_create_run d w) as H.
  destruct (filter (Objects.day_matches d) (days w)) as [|x [|y rest]] eqn:Hf.
  - rewrite H in Hrun. injection Hrun as <- <-. cbn.
    rewrite filter_app, Hf. cbn. rewrite day_matches_build. repeat split.
  - destruct H as [-> H]. rewrite H in Hrun. injection Hrun as <- <-.
    repeat split. exact Hf.
  - destruct H as [msg H]. congruence.
Qed.

Lemma get_or_create_found (d : date) (w : World) :
  filter (Objects.day_matches d) (days w) = [LiturgicalDay.Build d] ->
  Objects.LiturgicalDay_get_or_create d w = (Ok (LiturgicalDay.Build d, false), w).
Proof.
  intros Hf. pose proof (get_or_create_run d w) as H. rewrite Hf in H. apply H.
Qed.

Lemma get_or_create_succeeds (d : date) (w : World) :
  days_unique w -> exists r w0, Objects.LiturgicalDay_get_or_create d w = (Ok r, w0).
Proof.
  intros Hu. pose proof (get_or_create_run d w) as H. specialize (Hu d).
  destruct (filter (Objects.day_matches d) (days w)) as [|x [|y rest]].
  - eauto.
  - destruct H as [_ H]. eauto.
  - cbn in Hu. lia.
Qed.

(** C7. The blocks are stored by position: on a day that is not a Sunday,
    [blocks[0]] as FIRST_READING and [blocks[1]] as GOSPEL; on a Sunday,
    [blocks[0]], [blocks[1]], [blocks[2]] as FIRST_READING, SECOND_READING
    and GOSPEL; always with order 1, later blocks being ignored and missing
    blocks leaving out their reading. On a table with unique keys this
    succeeds: afterwards each assigned key has exactly the row of its block,
    and the rows of all other keys and the other tables are as before. *)
Theorem weekday_assignment_policy (env : Env) (d : date) (day : LiturgicalDay.t)
    (language_code : str) (blocks : list FetchVaticanReadings.ReadingBlock) (w : World) :
  keys_unique w ->
  assignments d blocks
  = (if weekday d =? 6 then
       match blocks with
       | b0 :: b1 :: b2 :: _ =>
           [(DailyReading.ReadingType.FIRST_READING, b0);
            (DailyReading.ReadingType.SECOND_READING, b1);
            (DailyReading.ReadingType.GOSPEL, b2)]
       | [b0; b1] =>
           [(DailyReading.ReadingType.FIRST_READING, b0);
            (DailyReading.ReadingType.SECOND_READING, b1)]
       | [b0] => [(DailyReading.ReadingType.FIRST_READING, b0)]
       | [] => []
       end
     else
       match blocks with
       | b0 :: b1 :: _ =>
           [(DailyReading.ReadingType.FIRST_READING, b0);
            (DailyReading.ReadingType.GOSPEL, b1)]
       | [b0] => [(DailyReading.ReadingType.FIRST_READING, b0)]
       | [] => []
       end)
  /\ FetchVaticanReadings.store_blocks env d day language_code blocks w
     = upsert_all env day language_code (assignments d blocks) w
  /\ exists w',
       FetchVaticanReadings.store_blocks env d day language_code blocks w = (Ok tt, w')
       /\ days w' = days w /\ meditations w' = meditations w /\ requests w' = requests w
       /\ (forall a, In a (assignments d blocks) ->
             rows_with (LiturgicalDay.date day, language_code, fst a, 1) (readings w')
             = [reading_of (LiturgicalDay.date day) language_code a])
       /\ (forall k',
             (forall a, In a (assignments d blocks) ->
                k' <> (LiturgicalDay.date day, language_code, fst a, 1)) ->
             rows_with k' (readings w') = rows_with k' (readings w)).
Proof.
  intros Hu. split; [|split].
  - unfold assignments.
    destruct (weekday d =? 6); destruct blocks as [|b0 [|b1 [|b2 rest]]]; reflexivity.
  - apply store_blocks_assignments.
  - rewrite store_blocks_assignments.
    destruct (upsert_all_succeeds env day language_code (assignments d blocks)
                (assignments_NoDup d blocks) w) as [w' Hrun].
    { intros a _. apply Hu. }
    exists w'. split; [exact Hrun|].
    apply (upsert_all_first_run env day language_code (assignments d blocks)
             (assignments_NoDup d blocks) w w' Hrun).
Qed.

Lemma weekday_assignment_policy_witness :
  exists w',
    FetchVaticanReadings.store_blocks offline_env 738886 (LiturgicalDay.Build 738886)
      (lit "es")
      [FetchVaticanReadings.MkReadingBlock (lit "a") (lit "b") (lit "c")] empty_world
    = (Ok tt, w').
Proof.
  destruct (weekday_assignment_policy offline_env 738886 (LiturgicalDay.Build 738886)
              (lit "es")
              [FetchVaticanReadings.MkReadingBlock (lit "a") (lit "b") (lit "c")]
              empty_world) as (_ & _ & w' & Hrun & _).
  - intros k. cbn. lia.
  - exists w'. exact Hrun.
Defined.

(** [_fetch_for_date] on a page that is answered with status 200: the request
    is sent, then the blocks of the page are ingested. *)
Lemma fetch_for_date_run (env : Env) (d : date) (language_code : str) (soup : Soup)
    (w : World) :
  requests_get env (length (requests w)) (FetchVaticanReadings.url_of d)
  = GetResponse 200 soup ->
  FetchVaticanReadings._fetch_for_date env d language_code w
  = FetchVaticanReadings.ingest env d language_code (FetchVaticanReadings.url_of d)
      (FetchVaticanReadings._extract_reading_blocks soup)
      (MkWorld (days w) (readings w) (meditations w) (output w)
               (requests w ++ [GET (FetchVaticanReadings.url_of d)])).
Proof.
  intros Hget. unfold FetchVaticanReadings._fetch_for_date.
  unfold bind at 1. unfold http_get. unfold bind at 1. unfold world at 1.
  unfold bind at 1. unfold send at 1. rewrite Hget. reflexivity.
Qed.

(** After an ingestion that succeeded, ingesting the same blocks again, in
    a world with the same days and readings, succeeds and changes no table. *)
Lemma ingest_again (env : Env) (d : date) (language_code url : str)
    (blocks : list FetchVaticanReadings.ReadingBlock) (w w1 : World) :
  FetchVaticanReadings.ingest env d language_code url blocks w = (Ok tt, w1) ->
  forall w1' url',
    days w1' = days w1 -> readings w1' = readings w1 ->
    exists w2,
      FetchVaticanReadings.ingest env d language_code url' blocks w1' = (Ok tt, w2)
      /\ same_tables w1' w2 /\ requests w2 = requests w1'
      /\ (blocks <> [] ->
          forall a, In a (assignments d blocks) ->
            rows_with (d, language_code, fst a, 1) (readings w2)
            = [reading_of d language_code a]).
Proof.
  intros Hrun1 w1' url' Hdays Hreadings. rewrite ingest_run in Hrun1.
  destruct (Objects.LiturgicalDay_get_or_create d w) as [[r|e] w0] eqn:Hgc;
    [|discriminate].
  destruct (get_or_create_ok d w w0 r Hgc) as (Hr & Hday & _).
  rewrite ingest_run.
  destruct blocks as [|b0 rest].
  - assert (Hdays1 : days w1 = days w0) by (injection Hrun1 as <-; reflexivity).
    rewrite get_or_create_found by (rewrite Hdays, Hdays1; exact Hday).
    eexists. split; [reflexivity|]. unfold same_tables. cbn.
    repeat split. congruence.
  - rewrite Hr in Hrun1.
    destruct (upsert_all_first_run env (LiturgicalDay.Build d) language_code
                (assignments d (b0 :: rest)) (assignments_NoDup d (b0 :: rest))
                w0 w1 Hrun1) as (Hdays1 & _ & _ & Hrows & _).
    rewrite get_or_create_found by (rewrite Hdays, Hdays1; exact Hday).
    cbn [fst].
    destruct (upsert_all_second_run env (LiturgicalDay.Build d) language_code
                (assignments d (b0 :: rest)) w1')
      as (w2 & Hrun2 & Hsame & Hreq).
    { intros a Hin. rewrite Hreadings. apply (Hrows a Hin). }
    exists w2. split; [exact Hrun2|]. split; [exact Hsame|]. split; [exact Hreq|].
    destruct Hsame as (_ & Hrs & _). rewrite Hrs, Hreadings.
    intros _ a Hin. apply (Hrows a Hin).
Qed.

(** C1. Ingestion is idempotent. One upsert appends a row when its key
    (day, language, reading type, order) has none and overwrites title,
    reference and text of the row in its place when it has one. After an
    ingestion that succeeded, ingesting the same date, language and blocks
    again succeeds and leaves all three tables as they are: no row is
    added, and each assigned key has exactly one row, that of its block.
    On tables that satisfy their uniqueness constraints the first ingestion
    succeeds. The same holds of [_fetch_for_date] when the page is answered
    twice with status 200 and the same blocks. *)
Theorem ingest_idempotent (env : Env) (d : date) (language_code url : str)
    (blocks : list FetchVaticanReadings.ReadingBlock) (w : World) :
  (forall day t b w0, upsert_semantics env day language_code t b w0)
  /\ (days_unique w -> keys_unique w ->
      exists w1, FetchVaticanReadings.ingest env d language_code url blocks w = (Ok tt, w1))
  /\ (forall w1,
        FetchVaticanReadings.ingest env d language_code url blocks w = (Ok tt, w1) ->
        exists w2,
          FetchVaticanReadings.ingest env d language_code url blocks w1 = (Ok tt, w2)
          /\ same_tables w1 w2
          /\ length (readings w2) = length (readings w1)
          /\ (blocks <> [] ->
              forall a, In a (assignments d blocks) ->
                rows_with (d, language_code, fst a, 1) (readings w2)
                = [reading_of d language_code a]))
  /\ (forall soup soup' w1,
        requests_get env (length (requests w)) (FetchVaticanReadings.url_of d)
        = GetResponse 200 soup ->
        requests_get env (length (requests w1)) (FetchVaticanReadings.url_of d)
        = GetResponse 200 soup' ->
        FetchVaticanReadings._extract_reading_blocks soup = blocks ->
        FetchVaticanReadings._extract_reading_blocks soup' = blocks ->
        FetchVaticanReadings._fetch_for_date env d language_code w = (Ok tt, w1) ->
        exists w2,
          FetchVaticanReadings._fetch_for_date env d language_code w1 = (Ok tt, w2)
          /\ days w2 = days w1 /\ readings w2 = readings w1
          /\ meditations w2 = meditations w1).
Proof.
  split; [|split; [|split]].
  - intros day t b w0. apply upsert_reading_run.
  - intros Hdu Hku. rewrite ingest_run.
    destruct (get_or_create_succeeds d w Hdu) as (r & w0 & Hgc). rewrite Hgc.
    destruct (get_or_create_ok d w w0 r Hgc) as (_ & _ & Hrs & _).
    destruct blocks as [|b0 rest]; [eexists; reflexivity|].
    apply upsert_all_succeeds; [apply assignments_NoDup|].
    intros a _. rewrite Hrs. apply Hku.
  - intros w1 Hrun1.
    destruct (ingest_again env d language_code url blocks w w1 Hrun1 w1 url
                eq_refl eq_refl) as (w2 & Hrun2 & Hsame & _ & Hrows).
    exists w2. split; [exact Hrun2|]. split; [exact Hsame|].
    split; [|exact Hrows]. destruct Hsame as (_ & Hrs & _). rewrite Hrs. reflexivity.
  - intros soup soup' w1 Hget Hget' Hblocks Hblocks' Hrun1.
    rewrite (fetch_for_date_run env d language_code soup w Hget), Hblocks in Hrun1.
    rewrite (fetch_for_date_run env d language_code soup' w1 Hget'), Hblocks'.
    destruct (ingest_again env d language_code _ blocks _ w1 Hrun1
                (MkWorld (days w1) (readings w1) (meditations w1) (output w1)
                   (requests w1 ++ [GET (FetchVaticanReadings.url_of d)]))
                (FetchVaticanReadings.url_of d) eq_refl eq_refl)
      as (w2 & Hrun2 & (Hd & Hr & Hm) & _).
    exists w2. split; [exact Hrun2|]. auto.
Qed.

Lemma ingest_idempotent_witness :
  exists w1 w2,
    FetchVaticanReadings.ingest offline_env 738886 (lit "es") []
      [FetchVaticanReadings.MkReadingBlock (lit "a") (lit "b") (lit "c")] empty_world
    = (Ok tt, w1)
    /\ FetchVaticanReadings.ingest offline_env 738886 (lit "es") []
         [FetchVaticanReadings.MkReadingBlock (lit "a") (lit "b") (lit "c")] w1
       = (Ok tt, w2)
    /\ length (readings w2) = length (readings w1).
Proof.
  destruct (ingest_idempotent offline_env 738886 (lit "es") []
              [FetchVaticanReadings.MkReadingBlock (lit "a") (lit "b") (lit "c")]
              empty_world) as (_ & H1 & H2 & _).
  destruct H1 as [w1 Hw1].
  - intros d. cbn. lia.
  - intros k. cbn. lia.
  - destruct (H2 w1 Hw1) as (w2 & Hw2 & _ & Hlen & _).
    exists w1, w2. auto.
Defined.

(** ** Extraction *)

Lemma join_cons (sep p : str) (rest : list str) :
  join sep (p :: rest) = p ++ concat (map (fun q => sep ++ q) rest).
Proof.
  revert p. induction rest as [|q rest IH]; intros p.
  - cbn. symmetry. apply app_nil_r.
  - change (join sep (p :: q :: rest)) with (p ++ sep ++ join sep (q :: rest)).
    rewrite IH. cbn [map concat]. rewrite <- app_assoc. reflexivity.
Qed.

Lemma extract_loop_spec (sections : list SectionTag)
    (blocks : list FetchVaticanReadings.ReadingBlock) :
  FetchVaticanReadings.extract_loop sections blocks
  = blocks ++ blocks_as_specified sections.
Proof.
  revert blocks. induction sections as [|s sections IH]; intros blocks.
  - cbn. symmetry. apply app_nil_r.
  - cbn [FetchVaticanReadings.extract_loop blocks_as_specified flat_map].
    fold (blocks_as_specified sections).
    unfold block_as_specified, section_texts.
    destruct (section__content s) as [paragraphs|]; [|apply IH].
    destruct (filter nonempty (map FetchVaticanReadings.get_text_strip paragraphs))
      as [|t [|r [|p3 others]]]; cbn [length Nat.ltb Nat.leb]; try apply IH.
    rewrite IH. cbn [nth skipn]. rewrite join_cons, <- app_assoc. reflexivity.
Qed.

(** Of the sample page only the first section gives a block. *)
Example extract_sample_soup :
  FetchVaticanReadings._extract_reading_blocks sample_soup
  = [FetchVaticanReadings.MkReadingBlock (lit "Lectura") (lit "Sof 3, 1-2")
       (lit "Primero." ++ newline ++ newline ++ lit "Yluego.")].
Proof. vm_compute. reflexivity. Qed.

(** C8. The blocks extracted from a page are those of its matched sections,
    in order: a section gives a block exactly when it has at least three
    non-empty stripped paragraphs; the first is then the title, the second
    the reference, and the body is the third followed by each further one
    after a blank line, so the third alone when there are exactly three.
    A section with fewer gives nothing, and nothing fails. *)
Theorem extraction_completeness_filter (soup : Soup) :
  FetchVaticanReadings._extract_reading_blocks soup
  = blocks_as_specified (FetchVaticanReadings.find_all_sections soup)
  /\ (forall s, block_as_specified s <> None <-> (3 <= length (section_texts s))%nat)
  /\ (forall s t r p others,
        section_texts s = t :: r :: p :: others ->
        block_as_specified s
        = Some (FetchVaticanReadings.MkReadingBlock t r
                  (join (newline ++ newline) (p :: others))))
  /\ (forall s t r p,
        section_texts s = [t; r; p] ->
        block_as_specified s = Some (FetchVaticanReadings.MkReadingBlock t r p))
  /\ (forall s x, In x (section_texts s) -> x <> []).
Proof.
  split; [|split; [|split; [|split]]].
  - unfold FetchVaticanReadings._extract_reading_blocks. apply extract_loop_spec.
  - intros s. unfold block_as_specified.
    destruct (section_texts s) as [|t [|r [|p3 others]]]; cbn; split;
      try congruence; try lia.
  - intros s t r p others H. unfold block_as_specified. rewrite H, join_cons.
    reflexivity.
  - intros s t r p H. unfold block_as_specified. rewrite H. cbn.
    rewrite app_nil_r. reflexivity.
  - intros s x. unfold section_texts.
    destruct (section__content s) as [paragraphs|]; [|intros []].
    intros Hin. apply filter_In in Hin. destruct Hin as [_ Hne].
    destruct x; [discriminate | congruence].
Qed.

(** ** Generation *)

Lemma generate_for_date_run (env : Env) (d : date) (language_code : str)
    (force : bool) (w : World) :
  GenerateMeditation._generate_for_date env d language_code force w
  = generate_for_date_outcome env d language_code force w.
Proof.
  unfold GenerateMeditation._generate_for_date, generate_for_date_outcome,
    meditation_exists, chosen_gospel, add_line, add_meditation, generating_line,
    skip_no_day_line, skip_exists_line, skip_no_gospel_line, gemini_error_line,
    created_line, draft_of.
  unfold bind at 1. unfold write at 1.
  unfold bind at 1. unfold try_except at 1. unfold Objects.LiturgicalDay_get.
  unfold bind at 1. unfold bind at 1. unfold world at 1.
  cbn [days readings meditations output requests].
  destruct (filter (Objects.day_matches d) (days w)) as [|x [|y rest]] eqn:Hf.
  - reflexivity.
  - assert (Hx : x = LiturgicalDay.Build d).
    { apply day_matches_date.
      assert (Hin : In x (filter (Objects.day_matches d) (days w)))
        by (rewrite Hf; left; reflexivity).
      apply filter_In in Hin. exact (proj2 Hin). }
    subst x. unfold ret at 1. unfold ret at 1. cbv beta iota.
    cbn [LiturgicalDay.date].
    unfold bind at 1.
    destruct force; cbn [negb andb].
    + unfold ret at 1. cbv beta iota.
      unfold bind at 1. unfold Objects.DailyReading_first_gospel, bind, world, ret.
      cbn [days readings meditations output requests].
      destruct (Objects.first_by_order _) as [gospel|]; [|reflexivity].
      unfold try_except.
      destruct (Gemini.generate_meditation env _ _ d language_code _)
        as [[body|e] w1]; cbv beta iota.
      * reflexivity.
      * destruct (is_GeminiError e); reflexivity.
    + unfold Objects.GospelMeditation_exists at 1. unfold bind at 1.
      unfold world at 1. unfold ret at 1. cbv beta iota.
      cbn [days readings meditations output requests].
      destruct (existsb _ (meditations w)); [reflexivity|].
      unfold bind at 1. unfold Objects.DailyReading_first_gospel, bind, world, ret.
      cbn [days readings meditations output requests].
      destruct (Objects.first_by_order _) as [gospel|]; [|reflexivity].
      unfold try_except.
      destruct (Gemini.generate_meditation env _ _ d language_code _)
        as [[body|e] w1]; cbv beta iota.
      * reflexivity.
      * destruct (is_GeminiError e); reflexivity.
  - reflexivity.
Qed.

(** Without an API key the service raises before it sends anything. *)
Lemma generate_meditation_no_key (env : Env) (gospel_text reference : str) (d : date)
    (language_code : str) (w : World) :
  api_key_of env = [] ->
  Gemini.generate_meditation env gospel_text reference d language_code w
  = (Raise not_configured, w).
Proof.
  intros Hkey. unfold Gemini.generate_meditation. fold (api_key_of env).
  rewrite Hkey. reflexivity.
Qed.

(** The service touches no table and writes no line; it sends at most one
    request. *)
Lemma generate_meditation_frame (env : Env) (gospel_text reference : str) (d : date)
    (language_code : str) (w w1 : World) (r : result str) :
  Gemini.generate_meditation env gospel_text reference d language_code w = (r, w1) ->
  days w1 = days w /\ readings w1 = readings w /\ meditations w1 = meditations w
  /\ output w1 = output w
  /\ (requests w1 = requests w \/ exists q, requests w1 = requests w ++ [q]).
Proof.
  unfold Gemini.generate_meditation. fold (api_key_of env).
  destruct (nonempty (api_key_of env)); cbn [negb].
  - unfold bind at 1. unfold try_except, http_post.
    unfold bind at 1. unfold world at 1. unfold bind at 1. unfold send at 1.
    cbn [days readings meditations output requests].
    destruct (requests_post env _ _ _ _) as [msg|code text decoded].
    + unfold raise. cbn [is_RequestException]. intros [= <- <-]. cbn.
      repeat split. right. eexists. reflexivity.
    + unfold ret at 1. cbv beta iota.
      destruct (negb (code =? 200)).
      * unfold raise. intros [= <- <-]. cbn. repeat split. right. eexists. reflexivity.
      * unfold bind, lift_result. destruct decoded as [data|e].
        -- unfold ret at 1. cbv beta iota.
           destruct (Gemini.candidate_text data); unfold ret, raise;
             intros [= <- <-]; cbn; repeat split; right; eexists; reflexivity.
        -- unfold raise. intros [= <- <-]. cbn. repeat split. right. eexists. reflexivity.
  - unfold raise. intros [= <- <-]. repeat split. left. reflexivity.
Qed.

Lemma first_by_order_none (rows : list DailyReading.t) :
  Objects.first_by_order rows = None <-> rows = [].
Proof.
  destruct rows as [|r rows]; cbn; [tauto|].
  split; [|discriminate].
  destruct (Objects.first_by_order rows) as [r'|]; [|discriminate].
  destruct (DailyReading.order r' <? DailyReading.order r); discriminate.
Qed.

(** [first_by_order] returns a row of least order. *)
Lemma first_by_order_min (rows : list DailyReading.t) (g : DailyReading.t) :
  Objects.first_by_order rows = Some g ->
  In g rows /\ forall r, In r rows -> DailyReading.order g <= DailyReading.order r.
Proof.
  revert g. induction rows as [|x rows IH]; intros g; cbn; [discriminate|].
  destruct (Objects.first_by_order rows) as [r'|] eqn:Hrest.
  - destruct (IH r' eq_refl) as [Hin Hmin].
    destruct (Z.ltb_spec (DailyReading.order r') (DailyReading.order x)) as [Hlt|Hge];
      intros [= <-]; (split; [auto|]); intros r [<- | Hr]; try lia.
    + apply Hmin, Hr.
    + specialize (Hmin r Hr). lia.
  - apply first_by_order_none in Hrest. subst rows.
    intros [= <-]. split; [auto|]. intros r [<- | []]. lia.
Qed.

(** The gospel that is chosen: a gospel reading of the day and language
    with the least order; none only when there is no such reading. *)
Lemma chosen_gospel_spec (d : date) (language_code : str) (w : World) :
  match chosen_gospel d language_code w with
  | Some g =>
      In g (readings w) /\ Objects.gospel_matches d language_code g = true
      /\ forall r, In r (readings w) -> Objects.gospel_matches d language_code r = true ->
                   DailyReading.order g <= DailyReading.order r
  | None =>
      forall r, In r (readings w) -> Objects.gospel_matches d language_code r = false
  end.
Proof.
  unfold chosen_gospel.
  destruct (Objects.first_by_order _) as [g|] eqn:Hg.
  - destruct (first_by_order_min _ _ Hg) as [Hin Hmin].
    apply filter_In in Hin. destruct Hin as [Hin Hm].
    repeat split; try assumption.
    intros r Hr Hrm. apply Hmin. apply filter_In. auto.
  - apply first_by_order_none in Hg. intros r Hr.
    destruct (Objects.gospel_matches d language_code r) eqn:Hm; [|reflexivity].
    assert (Hin : In r (filter (Objects.gospel_matches d language_code) (readings w)))
      by (apply filter_In; auto).
    rewrite Hg in Hin. destruct Hin.
Qed.

Lemma skip_no_day_not_no_gospel (d : date) (language_code : str) :
  GenerateMeditation.skip_no_day d <> GenerateMeditation.skip_no_gospel d language_code.
Proof.
  intros H. apply (f_equal (fun s => nth 24 s 0%N)) in H.
  vm_compute in H. discriminate.
Qed.

(** C5. [_generate_for_date] checks, in this order: that the date has a
    LiturgicalDay; that, unless [force] is set, no GospelMeditation of the
    day and language exists; that a GOSPEL reading of the day and language
    exists, of which it takes one of least order. Each check that fails
    writes its own warning line (three different lines), raises nothing and
    leaves the three tables and the list of requests as they are, and the
    loop over the dates goes on with the next date. *)
Theorem generation_preconditions (env : Env) (d : date) (language_code : str)
    (force : bool) (w : World) :
  let run := GenerateMeditation._generate_for_date env d language_code force w in
  let w0 := add_line w (generating_line d language_code) in
  (filter (Objects.day_matches d) (days w) = [] ->
     run = (Ok tt, add_line w0 (skip_no_day_line d)))
  /\ (forall x, filter (Objects.day_matches d) (days w) = [x] ->
        force = false -> meditation_exists d language_code w = true ->
        run = (Ok tt, add_line w0 (skip_exists_line d language_code)))
  /\ (forall x, filter (Objects.day_matches d) (days w) = [x] ->
        force = true \/ meditation_exists d language_code w = false ->
        (forall r, In r (readings w) ->
                   Objects.gospel_matches d language_code r = false) ->
        run = (Ok tt, add_line w0 (skip_no_gospel_line d language_code)))
  /\ (forall x r, filter (Objects.day_matches d) (days w) = [x] ->
        force = true \/ meditation_exists d language_code w = false ->
        In r (readings w) -> Objects.gospel_matches d language_code r = true ->
        exists g,
          In g (readings w) /\ Objects.gospel_matches d language_code g = true
          /\ (forall r', In r' (readings w) ->
                Objects.gospel_matches d language_code r' = true ->
                DailyReading.order g <= DailyReading.order r')
          /\ run
             = match Gemini.generate_meditation env (DailyReading.text g)
                       (DailyReading.reference g) d language_code w0 with
               | (Ok body, w1) =>
                   (Ok tt, add_line (add_meditation w1 (draft_of d language_code body))
                                    (created_line d language_code))
               | (Raise e, w1) =>
                   if is_GeminiError e then (Ok tt, add_line w1 (gemini_error_line d e))
                   else (Raise e, w1)
               end)
  /\ (skip_no_day_line d <> skip_exists_line d language_code
      /\ skip_no_day_line d <> skip_no_gospel_line d language_code
      /\ skip_exists_line d language_code <> skip_no_gospel_line d language_code
      /\ line_style (skip_no_day_line d) = WARNING
      /\ line_style (skip_exists_line d language_code) = WARNING
      /\ line_style (skip_no_gospel_line d language_code) = WARNING)
  /\ (forall dates w',
        run = (Ok tt, w') ->
        generate_batch env language_code force (d :: dates) w
        = generate_batch env language_code force dates w').
Proof.
  intros run w0. subst run. rewrite generate_for_date_run.
  unfold generate_for_date_outcome. fold w0.
  split; [|split; [|split; [|split; [|split]]]].
  - intros ->. reflexivity.
  - intros x -> -> ->. reflexivity.
  - intros x -> Hforce Hnone.
    assert (Hskip : negb force && meditation_exists d language_code w = false).
    { destruct Hforce as [-> | ->]; [reflexivity | apply andb_false_r]. }
    rewrite Hskip.
    pose proof (chosen_gospel_spec d language_code w) as Hg.
    destruct (chosen_gospel d language_code w) as [g|]; [|reflexivity].
    destruct Hg as (Hin & Hm & _). rewrite (Hnone g Hin) in Hm. discriminate.
  - intros x r -> Hforce Hin Hm.
    assert (Hskip : negb force && meditation_exists d language_code w = false).
    { destruct Hforce as [-> | ->]; [reflexivity | apply andb_false_r]. }
    rewrite Hskip.
    pose proof (chosen_gospel_spec d language_code w) as Hg.
    destruct (chosen_gospel d language_code w) as [g|].
    + exists g. destruct Hg as (Hgin & Hgm & Hmin). auto.
    + rewrite (Hg r Hin) in Hm. discriminate.
  - split; [discriminate|]. split; [|split; [discriminate|repeat split]].
    intros H. apply (skip_no_day_not_no_gospel d language_code).
    exact (f_equal line_text H).
  - intros dates w' Hrun. unfold generate_batch. cbn [for_each]. unfold bind at 1.
    rewrite generate_for_date_run. unfold generate_for_date_outcome. fold w0.
    rewrite Hrun. reflexivity.
Qed.

(** With an existing meditation and no [force], nothing is created, however
    the run ends. *)
Lemma generate_existing_no_force (env : Env) (d : date) (language_code : str)
    (w w1 : World) (r : result unit) :
  meditation_exists d language_code w = true ->
  GenerateMeditation._generate_for_date env d language_code false w = (r, w1) ->
  same_tables w w1 /\ requests w1 = requests w
  /\ (forall x, filter (Objects.day_matches d) (days w) = [x] -> r = Ok tt).
Proof.
  intros Hex. rewrite generate_for_date_run. unfold generate_for_date_outcome.
  rewrite Hex. cbn [negb andb].
  destruct (filter (Objects.day_matches d) (days w)) as [|x [|y rest]];
    intros [= <- <-]; unfold same_tables; cbn; repeat split; discriminate.
Qed.

(** C6. When the generator succeeds, exactly one GospelMeditation is added:
    with source AI, status DRAFT, the generated body and the title
    "Meditaci..n para el evangelio de hoy (<ISO date>)"; the meditations
    that existed before stay as they are, also with [force]. Without
    [force], on a date that has a meditation already, a first and a second
    run create nothing. *)
Theorem generation_postcondition (env : Env) (d : date) (language_code : str)
    (force : bool) (w : World) :
  let w0 := add_line w (generating_line d language_code) in
  (forall x g body w1,
     filter (Objects.day_matches d) (days w) = [x] ->
     force = true \/ meditation_exists d language_code w = false ->
     chosen_gospel d language_code w = Some g ->
     Gemini.generate_meditation env (DailyReading.text g) (DailyReading.reference g)
       d language_code w0 = (Ok body, w1) ->
     exists w',
       GenerateMeditation._generate_for_date env d language_code force w = (Ok tt, w')
       /\ meditations w' = meditations w ++ [draft_of d language_code body]
       /\ days w' = days w /\ readings w' = readings w)
  /\ (forall body,
        GospelMeditation.source (draft_of d language_code body) = GospelMeditation.Source.AI
        /\ GospelMeditation.status (draft_of d language_code body)
           = GospelMeditation.Status.DRAFT
        /\ GospelMeditation.body (draft_of d language_code body) = body
        /\ GospelMeditation.title (draft_of d language_code body)
           = lit "Meditaci√≥n para el evangelio de hoy (" ++ isoformat d ++ lit ")"
        /\ GospelMeditation.day (draft_of d language_code body) = d
        /\ GospelMeditation.language_code (draft_of d language_code body) = language_code
        /\ GospelMeditation.approved_by (draft_of d language_code body) = None
        /\ GospelMeditation.approved_at (draft_of d language_code body) = None)
  /\ (meditation_exists d language_code w = true ->
      forall r1 w1 r2 w2,
        GenerateMeditation._generate_for_date env d language_code false w = (r1, w1) ->
        GenerateMeditation._generate_for_date env d language_code false w1 = (r2, w2) ->
        meditations w1 = meditations w /\ meditations w2 = meditations w
        /\ (forall x, filter (Objects.day_matches d) (days w) = [x] ->
              r1 = Ok tt /\ r2 = Ok tt)).
Proof.
  intros w0. split; [|split].
  - intros x g body w1 Hday Hforce Hg Hgen.
    rewrite generate_for_date_run. unfold generate_for_date_outcome. fold w0.
    rewrite Hday, Hg, Hgen.
    assert (Hskip : negb force && meditation_exists d language_code w = false).
    { destruct Hforce as [-> | ->]; [reflexivity | apply andb_false_r]. }
    rewrite Hskip.
    destruct (generate_meditation_frame _ _ _ _ _ _ _ _ Hgen) as (Hd & Hr & Hm & _).
    eexists. split; [reflexivity|]. cbn. rewrite Hd, Hr, Hm. auto.
  - intros body. repeat split.
  - intros Hex r1 w1 r2 w2 Hrun1 Hrun2.
    destruct (generate_existing_no_force env d language_code w w1 r1 Hex Hrun1)
      as ((Hd1 & Hr1 & Hm1) & _ & Hok1).
    assert (Hex1 : meditation_exists d language_code w1 = true).
    { unfold meditation_exists in *. rewrite Hm1. exact Hex. }
    destruct (generate_existing_no_force env d language_code w1 w2 r2 Hex1 Hrun2)
      as ((Hd2 & Hr2 & Hm2) & _ & Hok2).
    split; [exact Hm1|]. split; [congruence|].
    intros x Hx. split; [exact (Hok1 x Hx)|].
    apply (Hok2 x). rewrite Hd1. exact Hx.
Qed.

(** A run of the generation command on the second of January 2024 that
    creates a draft from the generator's answer. *)
Example generation_creates_draft :
  GenerateMeditation._generate_for_date answering_env 738887 (lit "es") false
    two_gospels_world
  = (Ok tt,
     add_line
       (add_meditation
          (MkWorld (days two_gospels_world) (readings two_gospels_world) []
             [generating_line 738887 (lit "es")]
             [POST (Gemini._GEMINI_URL_TEMPLATE (lit "gemini-1.5-pro"))
                   (Gemini._build_prompt (lit "Este es el testimonio") (lit "Jn 1, 19-28")
                      738887 (lit "es"))
                   (lit "secret")])
          (draft_of 738887 (lit "es") (lit "Paz.")))
       (created_line 738887 (lit "es"))).
Proof. vm_compute. reflexivity. Qed.

(** ** Missing API key *)

Lemma generate_for_date_no_key (env : Env) (d : date) (language_code : str)
    (force : bool) (w : World) :
  api_key_of env = [] -> days_unique w ->
  exists l,
    GenerateMeditation._generate_for_date env d language_code force w
    = (Ok tt, add_line (add_line w (generating_line d language_code)) l).
Proof.
  intros Hkey Hu. rewrite generate_for_date_run. unfold generate_for_date_outcome.
  specialize (Hu d).
  destruct (filter (Objects.day_matches d) (days w)) as [|x [|y rest]].
  - eexists. reflexivity.
  - destruct (negb force && meditation_exists d language_code w);
      [eexists; reflexivity|].
    destruct (chosen_gospel d language_code w) as [g|]; [|eexists; reflexivity].
    rewrite (generate_meditation_no_key env _ _ d language_code _ Hkey).
    eexists. reflexivity.
  - cbn in Hu. lia.
Qed.

(** Without an API key the whole batch runs: every date is processed and
    writes two lines, nothing is created and nothing is sent. *)
Lemma generate_batch_no_key (env : Env) (language_code : str) (force : bool)
    (dates : list date) :
  api_key_of env = [] ->
  forall w, days_unique w ->
    exists w',
      generate_batch env language_code force dates w = (Ok tt, w')
      /\ same_tables w w' /\ requests w' = requests w
      /\ length (output w') = (length (output w) + 2 * length dates)%nat
      /\ (forall l, In l (output w) -> In l (output w'))
      /\ (forall d, In d dates -> In (generating_line d language_code) (output w')).
Proof.
  intros Hkey. induction dates as [|d dates IH]; intros w Hu.
  - exists w. cbn. unfold same_tables. repeat split; auto. intros d [].
  - destruct (generate_for_date_no_key env d language_code force w Hkey Hu) as [l Hrun].
    unfold generate_batch. cbn [for_each]. unfold bind at 1. rewrite Hrun.
    fold (generate_batch env language_code force dates).
    destruct (IH (add_line (add_line w (generating_line d language_code)) l))
      as (w' & Hbatch & (Hd & Hr & Hm) & Hreq & Hlen & Hkeep & Hall).
    { exact Hu. }
    exists w'. split; [exact Hbatch|]. cbn in *.
    split; [unfold same_tables; auto|]. split; [exact Hreq|].
    split; [rewrite Hlen, !length_app; cbn; lia|].
    split.
    + intros l0 Hl0. apply Hkeep. apply in_or_app. left. apply in_or_app. left. exact Hl0.
    + intros d' [<- | Hin]; [|apply Hall, Hin].
      apply Hkeep. apply in_or_app. left. apply in_or_app. right. left. reflexivity.
Qed.

(** C9, as stated, fails: without an API key the generation command does
    not stop at the first date. Over 2024-01-01 and 2024-01-02 it returns
    normally, having processed both dates and reported the error for each. *)
Lemma missing_key_is_not_fatal :
  api_key_of offline_env = []
  /\ fst (GenerateMeditation.handle offline_env
            (GenerateMeditation.MkOptions None (Some (lit "2024-01-01")) None (Some 2)
               (lit "es") false)
            two_gospels_world) = Ok tt
  /\ output (snd (GenerateMeditation.handle offline_env
                    (GenerateMeditation.MkOptions None (Some (lit "2024-01-01")) None
                       (Some 2) (lit "es") false)
                    two_gospels_world))
     = [generating_line 738886 (lit "es"); gemini_error_line 738886 not_configured;
        generating_line 738887 (lit "es"); gemini_error_line 738887 not_configured].
Proof. repeat split; vm_compute; reflexivity. Qed.

(** C9 (amended). Without an API key, [generate_meditation] raises
    [GeminiError] ("GEMINI_API_KEY is not configured.") before it sends any
    request and without touching the world. The generation command catches
    it at each date: it reports the error for that date, creates nothing
    and goes on, so that, on a table of days without duplicates, the whole
    batch returns normally with every date processed, no table changed and
    no request sent. *)
Theorem missing_credential_handling (env : Env) (language_code : str) (force : bool) :
  api_key_of env = [] ->
  (forall gospel_text reference d w,
     Gemini.generate_meditation env gospel_text reference d language_code w
     = (Raise not_configured, w))
  /\ (forall d w x g,
        filter (Objects.day_matches d) (days w) = [x] ->
        force = true \/ meditation_exists d language_code w = false ->
        chosen_gospel d language_code w = Some g ->
        GenerateMeditation._generate_for_date env d language_code force w
        = (Ok tt, add_line (add_line w (generating_line d language_code))
                           (gemini_error_line d not_configured)))
  /\ (forall dates w,
        days_unique w ->
        exists w',
          generate_batch env language_code force dates w = (Ok tt, w')
          /\ same_tables w w' /\ requests w' = requests w
          /\ length (output w') = (length (output w) + 2 * length dates)%nat
          /\ (forall d, In d dates -> In (generating_line d language_code) (output w'))).
Proof.
  intros Hkey. split; [|split].
  - intros. apply generate_meditation_no_key, Hkey.
  - intros d w x g Hday Hforce Hg.
    rewrite generate_for_date_run. unfold generate_for_date_outcome.
    rewrite Hday, Hg.
    assert (Hskip : negb force && meditation_exists d language_code w = false).
    { destruct Hforce as [-> | ->]; [reflexivity | apply andb_false_r]. }
    rewrite Hskip, (generate_meditation_no_key env _ _ d language_code _ Hkey).
    reflexivity.
  - intros dates w Hu.
    destruct (generate_batch_no_key env language_code force dates Hkey w Hu)
      as (w' & H1 & H2 & H3 & H4 & _ & H5).
    exists w'. auto.
Qed.

Lemma missing_credential_handling_witness :
  api_key_of offline_env = []
  /\ exists w',
       generate_batch offline_env (lit "es") false [738886; 738887] two_gospels_world
       = (Ok tt, w')
       /\ requests w' = requests two_gospels_world.
Proof.
  split; [reflexivity|].
  destruct (missing_credential_handling offline_env (lit "es") false eq_refl)
    as (_ & _ & Hbatch).
  destruct (Hbatch [738886; 738887] two_gospels_world) as (w' & Hrun & _ & Hreq & _).
  - intros d. unfold two_gospels_world, Objects.day_matches.
    cbn [days filter LiturgicalDay.date].
    destruct (Z.eqb_spec 738886 d), (Z.eqb_spec 738887 d); cbn [length]; lia.
  - exists w'. auto.
Defined.

(** ** Approval stamps *)

Lemma Status_eqb_eq (a b : GospelMeditation.Status.t) :
  GospelMeditation.Status.eqb a b = true <-> a = b.
Proof. destruct a, b; cbn; split; congruence. Qed.

(** One save: the status is the submitted one; stamps that are set stay;
    stamps that are null are set exactly when the status is APPROVED. *)
Lemma change_step (obj : GospelMeditation.t) (s : GospelMeditationAdmin.Save) :
  let obj' := GospelMeditationAdmin.change obj s in
  let approving :=
    GospelMeditation.Status.eqb
      (GospelMeditationAdmin.form_status (GospelMeditationAdmin.save_form s))
      GospelMeditation.Status.APPROVED in
  GospelMeditation.status obj'
  = GospelMeditationAdmin.form_status (GospelMeditationAdmin.save_form s)
  /\ GospelMeditation.approved_by obj'
     = match GospelMeditation.approved_by obj with
       | Some u => Some u
       | None => if approving then Some (GospelMeditationAdmin.save_user s) else None
       end
  /\ GospelMeditation.approved_at obj'
     = match GospelMeditation.approved_at obj with
       | Some t => Some t
       | None => if approving then Some (GospelMeditationAdmin.save_now s) else None
       end.
Proof.
  unfold GospelMeditationAdmin.change, GospelMeditationAdmin.save_model,
    GospelMeditationAdmin.construct_instance.
  cbn [GospelMeditation.status GospelMeditation.approved_by GospelMeditation.approved_at].
  destruct (GospelMeditation.Status.eqb _ _);
    cbn [GospelMeditation.status GospelMeditation.approved_by GospelMeditation.approved_at];
    destruct (GospelMeditation.approved_by obj), (GospelMeditation.approved_at obj);
    repeat split.
Qed.

Lemma changes_cons (obj : GospelMeditation.t) (s : GospelMeditationAdmin.Save)
    (saves : list GospelMeditationAdmin.Save) :
  GospelMeditationAdmin.changes obj (s :: saves)
  = GospelMeditationAdmin.changes (GospelMeditationAdmin.change obj s) saves.
Proof. reflexivity. Qed.

Lemma changes_app (obj : GospelMeditation.t) (l l' : list GospelMeditationAdmin.Save) :
  GospelMeditationAdmin.changes obj (l ++ l')
  = GospelMeditationAdmin.changes (GospelMeditationAdmin.changes obj l) l'.
Proof. unfold GospelMeditationAdmin.changes. apply fold_left_app. Qed.

(** Stamps that are set are never overwritten. *)
Lemma changes_keep_stamps (saves : list GospelMeditationAdmin.Save) :
  forall obj,
    (forall u, GospelMeditation.approved_by obj = Some u ->
               GospelMeditation.approved_by (GospelMeditationAdmin.changes obj saves)
               = Some u)
    /\ (forall t, GospelMeditation.approved_at obj = Some t ->
                  GospelMeditation.approved_at (GospelMeditationAdmin.changes obj saves)
                  = Some t).
Proof.
  induction saves as [|s saves IH]; intros obj; [split; auto|].
  rewrite changes_cons.
  destruct (change_step obj s) as (_ & Hby & Hat).
  destruct (IH (GospelMeditationAdmin.change obj s)) as [IHby IHat].
  split.
  - intros u Hu. apply IHby. rewrite Hby, Hu. reflexivity.
  - intros t Ht. apply IHat. rewrite Hat, Ht. reflexivity.
Qed.

(** Null stamps stay null as long as no save submits APPROVED. *)
Lemma changes_not_approving (saves : list GospelMeditationAdmin.Save) :
  forall obj,
    Forall not_approving saves ->
    GospelMeditation.approved_by obj = None -> GospelMeditation.approved_at obj = None ->
    GospelMeditation.approved_by (GospelMeditationAdmin.changes obj saves) = None
    /\ GospelMeditation.approved_at (GospelMeditationAdmin.changes obj saves) = None.
Proof.
  induction saves as [|s saves IH]; intros obj Hall Hby Hat; [split; assumption|].
  inversion Hall as [|s' saves' Hs Hrest]; subst.
  rewrite changes_cons.
  destruct (change_step obj s) as (_ & Hby' & Hat').
  rewrite Hby in Hby'. rewrite Hat in Hat'.
  assert (Hno : GospelMeditation.Status.eqb
                  (GospelMeditationAdmin.form_status (GospelMeditationAdmin.save_form s))
                  GospelMeditation.Status.APPROVED = false).
  { destruct (GospelMeditation.Status.eqb _ _) eqn:E; [|reflexivity].
    apply Status_eqb_eq in E. contradiction. }
  rewrite Hno in Hby', Hat'. apply IH; assumption.
Qed.

(** C2, as stated, fails: after an approval, a save that sets the status
    back to DRAFT leaves a record that is not approved and whose stamps are
    not null. *)
Lemma stamps_outlive_approved_status :
  GospelMeditation.approved_by a_draft = None
  /\ GospelMeditation.approved_at a_draft = None
  /\ GospelMeditation.status (GospelMeditationAdmin.changes a_draft approve_then_unapprove)
     = GospelMeditation.Status.DRAFT
  /\ GospelMeditation.approved_by
       (GospelMeditationAdmin.changes a_draft approve_then_unapprove) = Some 1
  /\ GospelMeditation.approved_at
       (GospelMeditationAdmin.changes a_draft approve_then_unapprove) = Some 100.
Proof. repeat split. Qed.

(** C2 (amended). Across the saves of the admin's change form, stamps that
    are set are never overwritten, whoever saves, whatever is edited and
    whatever the status becomes. For a record whose [approved_by] and
    [approved_at] are null, they stay null while no save submits the status
    APPROVED, and the first save that does stamps them with its user and
    its time, for good: they are not cleared when the status later leaves
    APPROVED. *)
Theorem approval_audit_trail (obj : GospelMeditation.t)
    (saves : list GospelMeditationAdmin.Save) :
  (forall u, GospelMeditation.approved_by obj = Some u ->
             GospelMeditation.approved_by (GospelMeditationAdmin.changes obj saves) = Some u)
  /\ (forall t, GospelMeditation.approved_at obj = Some t ->
                GospelMeditation.approved_at (GospelMeditationAdmin.changes obj saves)
                = Some t)
  /\ (GospelMeditation.approved_by obj = None -> GospelMeditation.approved_at obj = None ->
      (Forall not_approving saves ->
       GospelMeditation.approved_by (GospelMeditationAdmin.changes obj saves) = None
       /\ GospelMeditation.approved_at (GospelMeditationAdmin.changes obj saves) = None)
      /\ (forall before s after,
            saves = before ++ s :: after ->
            Forall not_approving before ->
            GospelMeditationAdmin.form_status (GospelMeditationAdmin.save_form s)
            = GospelMeditation.Status.APPROVED ->
            GospelMeditation.status
              (GospelMeditationAdmin.changes obj (before ++ [s]))
            = GospelMeditation.Status.APPROVED
            /\ GospelMeditation.approved_by (GospelMeditationAdmin.changes obj saves)
               = Some (GospelMeditationAdmin.save_user s)
            /\ GospelMeditation.approved_at (GospelMeditationAdmin.changes obj saves)
               = Some (GospelMeditationAdmin.save_now s))).
Proof.
  destruct (changes_keep_stamps saves obj) as [Hby Hat].
  split; [exact Hby|]. split; [exact Hat|].
  intros Hnby Hnat. split.
  - intros Hall. apply changes_not_approving; assumption.
  - intros before s after -> Hall Hs.
    destruct (changes_not_approving before obj Hall Hnby Hnat) as [Hb1 Hb2].
    destruct (change_step (GospelMeditationAdmin.changes obj before) s)
      as (Hst & Hby' & Hat').
    rewrite Hb1 in Hby'. rewrite Hb2 in Hat'. rewrite Hs in Hby', Hat', Hst.
    cbn [GospelMeditation.Status.eqb] in Hby', Hat'.
    split.
    + rewrite changes_app. exact Hst.
    + rewrite changes_app, changes_cons.
      destruct (changes_keep_stamps after
                  (GospelMeditationAdmin.change
                     (GospelMeditationAdmin.changes obj before) s)) as [Kby Kat].
      split; [apply Kby, Hby' | apply Kat, Hat'].
Qed.

(* ========================================================================= *)
(** * Further properties of the commands *)

(** ** The resolver at its edges *)



(** Both [handle], by what the resolver gives: an exception is passed on
    before anything is done; no date is the guard of each command; otherwise
    the loop over the dates runs. *)
Lemma fetch_handle_run (env : Env) (options : FetchVaticanReadings.Options) (w : World) :
  FetchVaticanReadings.handle env options w
  = match resolved (today env) (FetchVaticanReadings.opt_date options)
            (FetchVaticanReadings.opt_start_date options)
            (FetchVaticanReadings.opt_end_date options)
            (FetchVaticanReadings.opt_days options) with
    | Raise e => (Raise e, w)
    | Ok [] => (Raise (CommandError no_dates_msg), w)
    | Ok (d :: dates) =>
        fetch_loop env (FetchVaticanReadings.opt_language options) (d :: dates) w
    end.
Proof.
  unfold FetchVaticanReadings.handle, resolved, FetchVaticanReadings._resolve_dates,
    no_dates_msg, fetch_loop.
  unfold bind at 1.
  destruct (list_of_generated _) as [[|d dates]|e];
    cbv beta iota delta [lift_result ret raise]; reflexivity.
Qed.

Lemma generate_handle_run (env : Env) (options : GenerateMeditation.Options) (w : World) :
  GenerateMeditation.handle env options w
  = match resolved (today env) (GenerateMeditation.opt_date options)
            (GenerateMeditation.opt_start_date options)
            (GenerateMeditation.opt_end_date options)
            (GenerateMeditation.opt_days options) with
    | Raise e => (Raise e, w)
    | Ok [] => (Ok tt, add_line w (MkLine Stderr Plain no_dates_msg))
    | Ok (d :: dates) =>
        generate_batch env (GenerateMeditation.opt_language options)
          (GenerateMeditation.opt_force options) (d :: dates) w
    end.
Proof.
  unfold GenerateMeditation.handle, resolved, GenerateMeditation._resolve_dates,
    no_dates_msg, generate_batch, add_line.
  unfold bind at 1.
  destruct (list_of_generated _) as [[|d dates]|e];
    cbv beta iota delta [lift_result ret raise write]; reflexivity.
Qed.

Lemma resolved_raise (today : date) (date_str start_str end_str : option str)
    (days : option Z) (e : exn) :
  resolve_bounds today date_str start_str end_str days = Raise e ->
  resolved today date_str start_str end_str days = Raise e.
Proof.
  intros Hb. unfold resolved. rewrite (resolve_dates_body_raise _ _ _ _ _ _ Hb).
  reflexivity.
Qed.

Lemma resolved_bounds (today : date) (date_str start_str end_str : option str)
    (days : option Z) (start end_ : date) :
  valid today ->
  resolve_bounds today date_str start_str end_str days = Ok (start, end_) ->
  resolved today date_str start_str end_str days
  = if (start <=? end_) && (end_ =? _MAXORDINAL) then Raise OverflowError
    else Ok (date_range start end_).
Proof.
  intros Htoday Hb. unfold resolved, list_of_generated.
  destruct (resolve_dates_body_bounds _ _ _ _ _ _ _ Htoday Hb) as [Hy Hr].
  rewrite Hr, Hy. destruct (_ && _); reflexivity.
Qed.

Lemma resolve_bounds_start_given (today today' : date)
    (date_str date_str' start_str end_str : option str) (days : option Z) :
  truthy_str start_str = true ->
  resolve_bounds today date_str start_str end_str days
  = resolve_bounds today' date_str' start_str end_str days.
Proof. intros H. unfold resolve_bounds. rewrite H. reflexivity. Qed.




(** X3. A start with a number of days [n] and no end: for [n >= 1] the
    commands get exactly [n] dates, the start first, when the last of them
    is before 9999-12-31; for a negative [n] whose end [start + (n - 1)] is
    in the calendar they get none; and when [n] is not 0 and that end is
    outside the calendar, [OverflowError]. *)
Theorem resolver_days_count (today : date) (date_str end_str : option str) (s : str)
    (start n : Z) :
  s <> [] -> fromisoformat s = Ok start -> truthy_str end_str = false ->
  (1 <= n -> start + (n - 1) < _MAXORDINAL ->
   resolved today date_str (Some s) end_str (Some n)
   = Ok (date_range start (start + (n - 1)))
   /\ length (date_range start (start + (n - 1))) = Z.to_nat n
   /\ nth_error (date_range start (start + (n - 1))) 0 = Some start)
  /\ (n < 0 -> 1 <= start + (n - 1) ->
      resolved today date_str (Some s) end_str (Some n) = Ok [])
  /\ (n <> 0 -> ~ valid (start + (n - 1)) ->
      resolved today date_str (Some s) end_str (Some n) = Raise OverflowError).
Proof.
  intros Hs Hp Hend.
  pose proof (fromisoformat_valid _ _ Hp) as Hv. unfold valid, _MAXORDINAL in *.
  assert (Hb : forall r,
             (match timedelta (n - 1) with
              | Raise e => Raise e
              | Ok delta =>
                  match date_add start delta with
                  | Raise e => Raise e
                  | Ok end_ => Ok (start, end_)
                  end
              end) = r ->
             n <> 0 ->
             resolve_bounds 1 date_str (Some s) end_str (Some n) = r).
  { intros r <- Hn. unfold resolve_bounds.
    rewrite (truthy_str_true s Hs), Hp, Hend. cbn [truthy_int].
    destruct (Z.eqb_spec n 0); [contradiction|]. reflexivity. }
  assert (Hv1 : valid 1) by (unfold valid, _MAXORDINAL; lia).
  assert (Ht : resolved today date_str (Some s) end_str (Some n)
               = resolved 1 date_str (Some s) end_str (Some n)).
  { unfold resolved, resolve_dates_body.
    rewrite (resolve_bounds_start_given today 1 date_str date_str (Some s) end_str
               (Some n) (truthy_str_true s Hs)). reflexivity. }
  rewrite Ht. split; [|split].
  - intros Hn Hlast.
    rewrite (resolved_bounds 1 _ _ _ _ start (start + (n - 1)) Hv1).
    + destruct (Z.eqb_spec (start + (n - 1)) 3652059) as [E|E]; [lia|].
      unfold _MAXORDINAL. destruct (Z.eqb_spec (start + (n - 1)) 3652059); [lia|].
      rewrite andb_false_r. split; [reflexivity|].
      split; [rewrite date_range_length; lia|].
      rewrite date_range_nth; [f_equal; lia | rewrite date_range_length; lia].
    + apply Hb; [|lia]. rewrite timedelta_ok by lia.
      rewrite date_add_ok by (unfold _MAXORDINAL; lia). reflexivity.
  - intros Hn Hfirst.
    rewrite (resolved_bounds 1 _ _ _ _ start (start + (n - 1)) Hv1).
    + destruct (Z.leb_spec start (start + (n - 1))); [lia|]. cbn [andb].
      rewrite date_range_empty by lia. reflexivity.
    + apply Hb; [|lia]. rewrite timedelta_ok by lia.
      rewrite date_add_ok by (unfold _MAXORDINAL; lia). reflexivity.
  - intros Hn Hout. apply resolved_raise. apply Hb; [|exact Hn].
    unfold timedelta.
    destruct ((-999999999 <=? n - 1) && (n - 1 <=? 999999999)); [|reflexivity].
    rewrite date_add_overflow; [reflexivity|]. unfold _MAXORDINAL. lia.
Qed.

Lemma resolver_days_count_witness :
  resolved 1 None (Some (lit "2024-01-01")) None (Some 7)
  = Ok (date_range 738886 (738886 + (7 - 1))).
Proof.
  apply (resolver_days_count 1 None None (lit "2024-01-01") 738886 7).
  - discriminate.
  - reflexivity.
  - reflexivity.
  - lia.
  - unfold _MAXORDINAL. lia.
Defined.

(** X4. A range that ends on 9999-12-31, the last date of the calendar, is
    no good to either command: after the last date the loop of the resolver
    steps past the calendar, so [handle] raises [OverflowError] before it
    processes any date. *)
Theorem range_to_last_date_overflows (env : Env) (date_str start_str end_str : option str)
    (days : option Z) (language_code : str) (force : bool) (w : World) (start : date) :
  valid (today env) ->
  resolve_bounds (today env) date_str start_str end_str days = Ok (start, _MAXORDINAL) ->
  FetchVaticanReadings.handle env
    (FetchVaticanReadings.MkOptions date_str start_str end_str days language_code) w
  = (Raise OverflowError, w)
  /\ GenerateMeditation.handle env
       (GenerateMeditation.MkOptions date_str start_str end_str days language_code force) w
     = (Raise OverflowError, w).
Proof.
  intros Htoday Hb.
  destruct (resolve_bounds_valid _ _ _ _ _ _ _ Htoday Hb) as [Hs _].
  assert (Hres : resolved (today env) date_str start_str end_str days
                 = Raise OverflowError).
  { rewrite (resolved_bounds _ _ _ _ _ _ _ Htoday Hb).
    unfold valid in Hs. destruct (Z.leb_spec start _MAXORDINAL); [|lia].
    rewrite Z.eqb_refl. reflexivity. }
  split.
  - rewrite fetch_handle_run. cbn [FetchVaticanReadings.opt_date
      FetchVaticanReadings.opt_start_date FetchVaticanReadings.opt_end_date
      FetchVaticanReadings.opt_days].
    rewrite Hres. reflexivity.
  - rewrite generate_handle_run. cbn [GenerateMeditation.opt_date
      GenerateMeditation.opt_start_date GenerateMeditation.opt_end_date
      GenerateMeditation.opt_days].
    rewrite Hres. reflexivity.
Qed.

Lemma range_to_last_date_overflows_witness :
  valid (today offline_env)
  /\ GenerateMeditation.handle offline_env
       (GenerateMeditation.MkOptions (Some (lit "9999-12-31")) None None None (lit "es")
          false) two_gospels_world
     = (Raise OverflowError, two_gospels_world).
Proof.
  assert (Hv : valid (today offline_env)) by (unfold valid, _MAXORDINAL; cbn; lia).
  split; [exact Hv|].
  apply (range_to_last_date_overflows offline_env (Some (lit "9999-12-31")) None None None
           (lit "es") false two_gospels_world 3652059 Hv).
  vm_compute. reflexivity.
Defined.

(** ** The ingestion loop *)

Lemma readings_step_refl (rs : list DailyReading.t) : readings_step rs rs.
Proof. split; [lia|]. intros k. lia. Qed.

Lemma readings_step_trans (rs rs1 rs2 : list DailyReading.t) :
  readings_step rs rs1 -> readings_step rs1 rs2 -> readings_step rs rs2.
Proof.
  intros [H1 K1] [H2 K2]. split; [lia|].
  intros k. specialize (K1 k). specialize (K2 k). lia.
Qed.

Lemma readings_step_unique (w w1 : World) :
  readings_step (readings w) (readings w1) -> keys_unique w -> keys_unique w1.
Proof. intros [_ K] Hu k. specialize (K k). specialize (Hu k). lia. Qed.

Lemma ingestion_step_refl (w : World) : ingestion_step w w.
Proof.
  unfold ingestion_step. split; [reflexivity|].
  split; [exists []; symmetry; apply app_nil_r|].
  split; [tauto|]. split; [apply readings_step_refl|].
  exists []. symmetry. apply app_nil_r.
Qed.

Lemma ingestion_step_trans (w w1 w2 : World) :
  ingestion_step w w1 -> ingestion_step w1 w2 -> ingestion_step w w2.
Proof.
  intros (Hm & [n1 Hd] & Hu & Hr & [l1 Ho]) (Hm' & [n2 Hd'] & Hu' & Hr' & [l2 Ho']).
  unfold ingestion_step. split; [congruence|].
  split; [exists (n1 ++ n2); rewrite Hd', Hd; symmetry; apply app_assoc|].
  split; [tauto|]. split; [exact (readings_step_trans _ _ _ Hr Hr')|].
  exists (l1 ++ l2). rewrite Ho', Ho. symmetry. apply app_assoc.
Qed.

Lemma ingestion_step_line (w : World) (l : Line) : ingestion_step w (add_line w l).
Proof.
  unfold ingestion_step, add_line. cbn. split; [reflexivity|].
  split; [exists []; symmetry; apply app_nil_r|].
  split; [tauto|]. split; [apply readings_step_refl|]. exists [l]. reflexivity.
Qed.

Lemma ingestion_step_request (w : World) (r : Request) :
  ingestion_step w (add_request w r).
Proof.
  unfold ingestion_step, add_request. cbn. split; [reflexivity|].
  split; [exists []; symmetry; apply app_nil_r|].
  split; [tauto|]. split; [apply readings_step_refl|].
  exists []. symmetry. apply app_nil_r.
Qed.

(** One upsert, however it ends. *)
Lemma upsert_reading_step (env : Env) (day : LiturgicalDay.t) (language_code : str)
    (t : DailyReading.ReadingType.t) (b : FetchVaticanReadings.ReadingBlock)
    (w w1 : World) (r : result unit) :
  FetchVaticanReadings._upsert_reading env day language_code t 1 b w = (r, w1) ->
  ingestion_step w w1 /\ requests w1 = requests w.
Proof.
  intros Hrun.
  destruct (le_gt_dec (length (rows_with (LiturgicalDay.date day, language_code, t, 1%Z)
                                 (readings w))) 1) as [Hle|Hgt].
  - destruct (upsert_reading_effect env day language_code t b w Hle)
      as (w' & Hup & Hd & Hm & Hreq & Hk & Hother & _ & Hlen & Happ).
    rewrite Hup in Hrun. injection Hrun as <- <-.
    split; [|exact Hreq]. unfold ingestion_step.
    split; [exact Hm|]. split; [exists []; rewrite Hd; symmetry; apply app_nil_r|].
    split; [intros Hu d; rewrite Hd; apply Hu|].
    split.
    + split.
      * destruct (rows_with (LiturgicalDay.date day, language_code, t, 1)
                    (readings w)) eqn:Hrows.
        -- rewrite (Happ eq_refl), length_app. lia.
        -- rewrite Hlen by discriminate. lia.
      * intros k.
        destruct (list_eq_dec N.eq_dec (snd (fst (fst k))) language_code) as [E1|N1].
        -- destruct k as [[[d l] t'] o]. cbn in E1. subst l.
           destruct (Z.eq_dec d (LiturgicalDay.date day)) as [->|Nd];
             [|rewrite Hother by congruence; lia].
           destruct (Z.eq_dec o 1) as [->|No]; [|rewrite Hother by congruence; lia].
           destruct t, t'; try (rewrite Hother by congruence; lia);
             rewrite Hk; cbn [length]; lia.
        -- rewrite Hother; [lia|]. intros ->. apply N1. reflexivity.
    + pose proof (upsert_reading_run env day language_code t b w) as Hsem.
      unfold upsert_semantics in Hsem. cbv zeta in Hsem.
      destruct (rows_with _ (readings w)) as [|old [|other rest]].
      * destruct Hsem as [line Hsem]. rewrite Hup in Hsem. injection Hsem as ->.
        exists [line]. reflexivity.
      * destruct Hsem as [line [Hsem _]]. rewrite Hup in Hsem. injection Hsem as ->.
        exists [line]. reflexivity.
      * cbn in Hle. lia.
  - pose proof (upsert_reading_run env day language_code t b w) as Hsem.
    unfold upsert_semantics in Hsem. cbv zeta in Hsem.
    destruct (rows_with _ (readings w)) as [|old [|other rest]];
      try (cbn in Hgt; lia).
    destruct Hsem as [msg Hsem]. rewrite Hsem in Hrun. injection Hrun as <- <-.
    split; [apply ingestion_step_refl | reflexivity].
Qed.

Lemma upsert_all_step (env : Env) (day : LiturgicalDay.t) (language_code : str)
    (l : list (DailyReading.ReadingType.t * FetchVaticanReadings.ReadingBlock)) :
  forall w w1 r,
    upsert_all env day language_code l w = (r, w1) ->
    ingestion_step w w1 /\ requests w1 = requests w.
Proof.
  induction l as [|a l IH]; intros w w1 r Hrun.
  - cbn in Hrun. injection Hrun as <- <-. split; [apply ingestion_step_refl|reflexivity].
  - rewrite upsert_all_cons in Hrun.
    destruct (FetchVaticanReadings._upsert_reading env day language_code (fst a) 1 (snd a) w)
      as [[[]|e] w0] eqn:Hup.
    + destruct (upsert_reading_step _ _ _ _ _ _ _ _ Hup) as [S1 R1].
      destruct (IH _ _ _ Hrun) as [S2 R2].
      split; [exact (ingestion_step_trans _ _ _ S1 S2) | congruence].
    + injection Hrun as <- <-. exact (upsert_reading_step _ _ _ _ _ _ _ _ Hup).
Qed.

Lemma get_or_create_step (d : date) (w w0 : World) (r : result (LiturgicalDay.t * bool)) :
  Objects.LiturgicalDay_get_or_create d w = (r, w0) ->
  ingestion_step w w0 /\ requests w0 = requests w /\ readings w0 = readings w.
Proof.
  intros Hrun. pose proof (get_or_create_run d w) as H.
  destruct (filter (Objects.day_matches d) (days w)) as [|x [|y rest]] eqn:Hf.
  - rewrite H in Hrun. injection Hrun as <- <-. cbn.
    split; [|split; reflexivity]. unfold ingestion_step. cbn.
    split; [reflexivity|]. split; [eexists; reflexivity|].
    split.
    + intros Hu d'. cbn. rewrite filter_app, length_app. cbn.
      unfold Objects.day_matches at 2. cbn.
      destruct (Z.eqb_spec d d') as [->|Hne]; cbn.
      * rewrite Hf. cbn. lia.
      * specialize (Hu d'). lia.
    + split; [apply readings_step_refl|]. exists []. symmetry. apply app_nil_r.
  - destruct H as [_ H]. rewrite H in Hrun. injection Hrun as <- <-.
    split; [apply ingestion_step_refl|split; reflexivity].
  - destruct H as [msg H]. rewrite H in Hrun. injection Hrun as <- <-.
    split; [apply ingestion_step_refl|split; reflexivity].
Qed.

Lemma ingest_step (env : Env) (d : date) (language_code url : str)
    (blocks : list FetchVaticanReadings.ReadingBlock) (w w1 : World) (r : result unit) :
  FetchVaticanReadings.ingest env d language_code url blocks w = (r, w1) ->
  ingestion_step w w1 /\ requests w1 = requests w.
Proof.
  rewrite ingest_run.
  destruct (Objects.LiturgicalDay_get_or_create d w) as [[x|e] w0] eqn:Hgc.
  - destruct (get_or_create_step _ _ _ _ Hgc) as (S0 & R0 & _).
    destruct blocks as [|b0 rest].
    + unfold write. intros [= <- <-]. split; [|exact R0].
      apply (ingestion_step_trans _ _ _ S0). apply (ingestion_step_line w0).
    + intros Hrun. destruct (upsert_all_step _ _ _ _ _ _ _ Hrun) as [S1 R1].
      split; [exact (ingestion_step_trans _ _ _ S0 S1) | congruence].
  - intros [= <- <-]. destruct (get_or_create_step _ _ _ _ Hgc) as (S0 & R0 & _).
    auto.
Qed.

(** [_fetch_for_date], by what the site answers. *)
Lemma fetch_for_date_cases (env : Env) (d : date) (language_code : str) (w : World) :
  FetchVaticanReadings._fetch_for_date env d language_code w
  = match requests_get env (length (requests w)) (FetchVaticanReadings.url_of d) with
    | GetRaises e => (Raise e, add_request w (GET (FetchVaticanReadings.url_of d)))
    | GetResponse status_code soup =>
        if status_code =? 200 then
          FetchVaticanReadings.ingest env d language_code (FetchVaticanReadings.url_of d)
            (FetchVaticanReadings._extract_reading_blocks soup)
            (add_request w (GET (FetchVaticanReadings.url_of d)))
        else (Raise (status_error d status_code),
              add_request w (GET (FetchVaticanReadings.url_of d)))
    end.
Proof.
  unfold FetchVaticanReadings._fetch_for_date, status_error, add_request.
  unfold bind at 1. unfold http_get. unfold bind at 1. unfold world at 1.
  unfold bind at 1. unfold send at 1.
  destruct (requests_get env _ _) as [e|status_code soup].
  - reflexivity.
  - cbv beta iota delta [ret]. destruct (status_code =? 200); reflexivity.
Qed.

Lemma fetch_for_date_step (env : Env) (d : date) (language_code : str) (w w1 : World)
    (r : result unit) :
  FetchVaticanReadings._fetch_for_date env d language_code w = (r, w1) ->
  ingestion_step w w1
  /\ requests w1 = requests w ++ [GET (FetchVaticanReadings.url_of d)].
Proof.
  rewrite fetch_for_date_cases.
  destruct (requests_get env _ _) as [e|status_code soup].
  - intros [= <- <-]. split; [apply ingestion_step_request|reflexivity].
  - destruct (status_code =? 200).
    + intros Hrun. destruct (ingest_step _ _ _ _ _ _ _ _ Hrun) as [S1 R1].
      split; [|exact R1].
      exact (ingestion_step_trans _ _ _ (ingestion_step_request w _) S1).
    + intros [= <- <-]. split; [apply ingestion_step_request|reflexivity].
Qed.

(** One turn of the loop never raises. *)
Lemma fetch_turn_step (env : Env) (language_code : str) (d : date) (w : World) :
  exists w1,
    fetch_turn env language_code d w = (Ok tt, w1)
    /\ ingestion_step w w1
    /\ requests w1 = requests w ++ [GET (FetchVaticanReadings.url_of d)]
    /\ exists lines, output w1 = output w ++ fetching_line d :: lines.
Proof.
  unfold fetch_turn. unfold bind at 1. unfold write at 1. unfold try_except.
  match goal with
  | |- context [FetchVaticanReadings._fetch_for_date env d language_code ?x] =>
      change x with (add_line w (fetching_line d))
  end.
  destruct (FetchVaticanReadings._fetch_for_date env d language_code
              (add_line w (fetching_line d))) as [[[]|e] w0] eqn:Hrun;
    destruct (fetch_for_date_step _ _ _ _ _ _ Hrun) as [S0 R0];
    pose proof (ingestion_step_trans _ _ _ (ingestion_step_line w (fetching_line d)) S0)
      as S1;
    destruct S0 as (_ & _ & _ & _ & [lines Hout]).
  - exists w0. split; [reflexivity|]. split; [exact S1|]. split; [exact R0|].
    exists lines. rewrite Hout. cbn. rewrite <- app_assoc. reflexivity.
  - cbn [is_Exception]. unfold write. eexists. split; [reflexivity|].
    split; [|split].
    + apply (ingestion_step_trans _ _ _ S1). apply (ingestion_step_line w0).
    + exact R0.
    + exists (lines ++ [failed_line d e]). cbn. rewrite Hout. cbn.
      rewrite <- !app_assoc. reflexivity.
Qed.

Lemma fetch_loop_cons (env : Env) (language_code : str) (d : date) (dates : list date)
    (w : World) :
  fetch_loop env language_code (d :: dates) w
  = match fetch_turn env language_code d w with
    | (Ok _, w1) => fetch_loop env language_code dates w1
    | (Raise e, w1) => (Raise e, w1)
    end.
Proof. reflexivity. Qed.

Lemma fetch_loop_run (env : Env) (language_code : str) (dates : list date) :
  forall w,
    exists w',
      fetch_loop env language_code dates w = (Ok tt, w')
      /\ ingestion_step w w'
      /\ requests w' = requests w ++ map (fun d => GET (FetchVaticanReadings.url_of d)) dates
      /\ (forall l, In l (output w) -> In l (output w'))
      /\ (forall d, In d dates -> In (fetching_line d) (output w')).
Proof.
  induction dates as [|d dates IH]; intros w.
  - exists w. split; [reflexivity|]. split; [apply ingestion_step_refl|].
    split; [symmetry; apply app_nil_r|]. split; [auto|intros d []].
  - rewrite fetch_loop_cons.
    destruct (fetch_turn_step env language_code d w) as (w1 & Hturn & S1 & R1 & [lines Ho]).
    rewrite Hturn.
    destruct (IH w1) as (w' & Hloop & S2 & R2 & Hkeep & Hall).
    exists w'. split; [exact Hloop|].
    split; [exact (ingestion_step_trans _ _ _ S1 S2)|].
    split; [rewrite R2, R1; cbn [map]; rewrite <- app_assoc; reflexivity|].
    split.
    + intros l Hl. apply Hkeep. rewrite Ho. apply in_or_app. left. exact Hl.
    + intros d' [<- | Hin]; [|apply Hall, Hin].
      apply Hkeep. rewrite Ho. apply in_or_app. right. left. reflexivity.
Qed.

(** X5. Once its dates are resolved, the ingestion command attempts every
    one of them: the loop returns normally whatever the site answers and
    whatever the database raises, it sends exactly one GET per date, in the
    order of the dates, to the URL of that date, and announces each date. *)
Theorem fetch_handle_attempts_every_date (env : Env)
    (options : FetchVaticanReadings.Options) (w : World) (d : date) (dates : list date) :
  resolved (today env) (FetchVaticanReadings.opt_date options)
    (FetchVaticanReadings.opt_start_date options)
    (FetchVaticanReadings.opt_end_date options)
    (FetchVaticanReadings.opt_days options) = Ok (d :: dates) ->
  exists w',
    FetchVaticanReadings.handle env options w = (Ok tt, w')
    /\ requests w'
       = requests w ++ map (fun x => GET (FetchVaticanReadings.url_of x)) (d :: dates)
    /\ (forall x, In x (d :: dates) -> In (fetching_line x) (output w')).
Proof.
  intros Hres. rewrite fetch_handle_run, Hres.
  destruct (fetch_loop_run env (FetchVaticanReadings.opt_language options) (d :: dates) w)
    as (w' & Hloop & _ & Hreq & _ & Hall).
  exists w'. auto.
Qed.

Lemma fetch_handle_attempts_every_date_witness :
  exists w',
    FetchVaticanReadings.handle offline_env
      (FetchVaticanReadings.MkOptions None (Some (lit "2024-01-01")) None (Some 2)
         (lit "es")) empty_world = (Ok tt, w')
    /\ length (requests w') = 2%nat.
Proof.
  destruct (fetch_handle_attempts_every_date offline_env
              (FetchVaticanReadings.MkOptions None (Some (lit "2024-01-01")) None (Some 2)
                 (lit "es")) empty_world 738886 [738887])
    as (w' & Hrun & Hreq & _).
  - vm_compute. reflexivity.
  - exists w'. split; [exact Hrun|]. rewrite Hreq. reflexivity.
Defined.

(** X6. What the ingestion command never does, however it ends: it never
    touches the meditations, never removes a day or a reading (days are
    only appended, no key of the readings loses a row, the table does not
    shrink), and it keeps both uniqueness constraints: days that were
    unique by date and readings that were unique by key stay so. *)
Theorem ingestion_keeps_invariants (env : Env) (options : FetchVaticanReadings.Options)
    (w : World) :
  let w' := snd (FetchVaticanReadings.handle env options w) in
  meditations w' = meditations w
  /\ (exists new_days, days w' = days w ++ new_days)
  /\ (length (readings w) <= length (readings w'))%nat
  /\ (forall k, rows_with k (readings w) <> [] -> rows_with k (readings w') <> [])
  /\ (days_unique w -> days_unique w')
  /\ (keys_unique w -> keys_unique w').
Proof.
  intros w'.
  assert (S : ingestion_step w w').
  { subst w'. rewrite fetch_handle_run.
    destruct (resolved _ _ _ _ _) as [[|d dates]|e]; cbn [snd];
      try apply ingestion_step_refl.
    destruct (fetch_loop_run env (FetchVaticanReadings.opt_language options)
                (d :: dates) w) as (w1 & Hloop & S1 & _).
    rewrite Hloop. exact S1. }
  destruct S as (Hm & Hd & Hdu & Hr & _).
  split; [exact Hm|]. split; [exact Hd|]. split; [exact (proj1 Hr)|].
  split; [|split; [exact Hdu | exact (readings_step_unique _ _ Hr)]].
  intros k Hk Hnil. destruct Hr as [_ Hr]. specialize (Hr k).
  rewrite Hnil in Hr. destruct (rows_with k (readings w)); [congruence|].
  cbn in Hr. lia.
Qed.

(** X7. A date whose fetch fails (the request raises, or the status is not
    200) does not stop the batch and changes no table: the loop writes the
    line "Failed to fetch <date>: <error>" to [stderr] and goes on with the
    other dates, in a world with the same days, readings and meditations. *)
Theorem failed_fetch_is_isolated (env : Env) (language_code : str) (d : date)
    (dates : list date) (w : World) (e : exn) :
  failure_of d (requests_get env (length (requests w)) (FetchVaticanReadings.url_of d))
  = Some e ->
  FetchVaticanReadings._fetch_for_date env d language_code w
  = (Raise e, add_request w (GET (FetchVaticanReadings.url_of d)))
  /\ fetch_loop env language_code (d :: dates) w
     = fetch_loop env language_code dates
         (MkWorld (days w) (readings w) (meditations w)
                  (output w ++ [fetching_line d; failed_line d e])
                  (requests w ++ [GET (FetchVaticanReadings.url_of d)])).
Proof.
  intros Hfail.
  assert (Hcase : forall w0, requests w0 = requests w ->
            FetchVaticanReadings._fetch_for_date env d language_code w0
            = (Raise e, add_request w0 (GET (FetchVaticanReadings.url_of d)))).
  { intros w0 Hreq. rewrite fetch_for_date_cases, Hreq. unfold failure_of in Hfail.
    destruct (requests_get env _ _) as [e0|status_code soup].
    - injection Hfail as ->. reflexivity.
    - destruct (status_code =? 200); [discriminate|]. injection Hfail as ->.
      reflexivity. }
  split; [apply Hcase; reflexivity|].
  rewrite fetch_loop_cons. unfold fetch_turn. unfold bind at 1. unfold write at 1.
  unfold try_except.
  match goal with
  | |- context [FetchVaticanReadings._fetch_for_date env d language_code ?x] =>
      change x with (add_line w (fetching_line d))
  end.
  rewrite (Hcase (add_line w (fetching_line d)) eq_refl).
  cbv beta iota delta [is_Exception write]. unfold add_request, add_line, failed_line.
  cbn [days readings meditations output requests]. rewrite <- app_assoc. reflexivity.
Qed.

Lemma failed_fetch_is_isolated_witness :
  FetchVaticanReadings._fetch_for_date offline_env 738886 (lit "es") two_gospels_world
  = (Raise (RequestException (lit "connection refused")),
     add_request two_gospels_world (GET (FetchVaticanReadings.url_of 738886))).
Proof.
  apply (failed_fetch_is_isolated offline_env (lit "es") 738886 [] two_gospels_world
           (RequestException (lit "connection refused"))).
  reflexivity.
Defined.

Lemma existsb_filter {A} (p : A -> bool) (l : list A) :
  existsb p l = match filter p l with [] => false | _ :: _ => true end.
Proof.
  induction l as [|x l IH]; [reflexivity|].
  cbn. destruct (p x); [reflexivity|exact IH].
Qed.

(** X8. A page that is answered with status 200 but gives no block: on a
    table of days that is unique by date, [_fetch_for_date] returns
    normally, creates the day of the date when it is not there yet, writes
    no reading, and warns on [stderr] that no reading sections were found. *)
Theorem page_without_blocks (env : Env) (language_code : str) (d : date) (w : World)
    (soup : Soup) :
  requests_get env (length (requests w)) (FetchVaticanReadings.url_of d)
  = GetResponse 200 soup ->
  FetchVaticanReadings._extract_reading_blocks soup = [] ->
  days_unique w ->
  FetchVaticanReadings._fetch_for_date env d language_code w
  = (Ok tt,
     MkWorld (if existsb (Objects.day_matches d) (days w) then days w
              else days w ++ [LiturgicalDay.Build d])
             (readings w) (meditations w) (output w ++ [no_sections_line d])
             (requests w ++ [GET (FetchVaticanReadings.url_of d)])).
Proof.
  intros Hget Hblocks Hu. rewrite fetch_for_date_cases, Hget, Hblocks.
  change (200 =? 200) with true. cbv iota. rewrite ingest_run.
  pose proof (get_or_create_run d
                (add_request w (GET (FetchVaticanReadings.url_of d)))) as H.
  rewrite existsb_filter. specialize (Hu d).
  unfold add_request in *. cbn [days readings meditations output requests] in *.
  destruct (filter (Objects.day_matches d) (days w)) as [|x [|y rest]].
  - rewrite H. reflexivity.
  - destruct H as [_ H]. rewrite H. reflexivity.
  - cbn in Hu. lia.
Qed.

Lemma page_without_blocks_witness :
  FetchVaticanReadings._fetch_for_date empty_page_env 738900 (lit "es") two_gospels_world
  = (Ok tt,
     MkWorld (days two_gospels_world ++ [LiturgicalDay.Build 738900])
             (readings two_gospels_world) [] [no_sections_line 738900]
             [GET (FetchVaticanReadings.url_of 738900)]).
Proof.
  apply (page_without_blocks empty_page_env (lit "es") 738900 two_gospels_world []).
  - reflexivity.
  - reflexivity.
  - intros d. unfold two_gospels_world, Objects.day_matches.
    cbn [days filter LiturgicalDay.date].
    destruct (Z.eqb_spec 738886 d), (Z.eqb_spec 738887 d); cbn [length]; lia.
Defined.

(** ** The generator service *)

(** With an API key, [generate_meditation] sends its POST and turns the
    answer into its result. *)
Lemma generate_meditation_cases (env : Env) (gospel_text reference : str) (d : date)
    (language_code : str) (w : World) :
  api_key_of env <> [] ->
  Gemini.generate_meditation env gospel_text reference d language_code w
  = (gemini_result env (gemini_answer env gospel_text reference d language_code w),
     add_request w (gemini_request env gospel_text reference d language_code)).
Proof.
  intros Hkey. unfold Gemini.generate_meditation, gemini_result, gemini_answer,
    gemini_request, gemini_url, add_request.
  fold (api_key_of env).
  destruct (api_key_of env) as [|c key] eqn:Hk; [congruence|]. cbn [nonempty negb].
  unfold bind at 1. unfold try_except, http_post.
  unfold bind at 1. unfold world at 1. unfold bind at 1. unfold send at 1.
  cbn [days readings meditations output requests].
  destruct (requests_post env _ _ _ _) as [msg|status_code text decoded].
  - reflexivity.
  - cbv beta iota delta [ret]. destruct (status_code =? 200); cbn [negb]; [|reflexivity].
    unfold bind, lift_result. destruct decoded as [data|e]; [|reflexivity].
    cbv beta iota delta [ret]. destruct (Gemini.candidate_text data); reflexivity.
Qed.

Lemma lstrip_head (s : str) (c : N) (rest : str) :
  lstrip s = c :: rest -> isspace c = false.
Proof.
  induction s as [|x s IH]; cbn; [discriminate|].
  destruct (isspace x) eqn:Hx; [exact IH|]. intros [= <- _]. exact Hx.
Qed.

Lemma lstrip_suffix (s : str) : exists pre, s = pre ++ lstrip s.
Proof.
  induction s as [|x s [pre IH]]; [exists []; reflexivity|].
  cbn. destruct (isspace x).
  - exists (x :: pre). cbn. f_equal. exact IH.
  - exists []. reflexivity.
Qed.

Lemma rstrip_prefix (s : str) : exists post, s = rstrip s ++ post.
Proof.
  unfold rstrip. destruct (lstrip_suffix (rev s)) as [pre H].
  exists (rev pre). rewrite <- rev_app_distr, <- H. symmetry. apply rev_involutive.
Qed.

Lemma rstrip_last (s init : str) (c : N) :
  rstrip s = init ++ [c] -> isspace c = false.
Proof.
  unfold rstrip. intros H. apply (f_equal (@rev N)) in H.
  rewrite rev_involutive, rev_app_distr in H. cbn in H.
  exact (lstrip_head _ _ _ H).
Qed.

(** A stripped string has no white space at either end. *)
Lemma strip_trimmed (s : str) : trimmed (strip s).
Proof.
  unfold strip. split.
  - intros c rest H. destruct (rstrip_prefix (lstrip s)) as [post Hp].
    rewrite H in Hp. cbn in Hp. exact (lstrip_head _ _ _ Hp).
  - intros init c H. exact (rstrip_last _ _ _ H).
Qed.



Lemma skip_false (force : bool) (d : date) (language_code : str) (w : World) :
  force = true \/ meditation_exists d language_code w = false ->
  negb force && meditation_exists d language_code w = false.
Proof. intros [-> | ->]; [reflexivity | apply andb_false_r]. Qed.

(** [_generate_for_date] once its three checks have passed, with an API key. *)
Lemma generate_for_date_checked (env : Env) (d : date) (language_code : str)
    (force : bool) (w : World) (x : LiturgicalDay.t) (g : DailyReading.t) :
  api_key_of env <> [] ->
  filter (Objects.day_matches d) (days w) = [x] ->
  force = true \/ meditation_exists d language_code w = false ->
  chosen_gospel d language_code w = Some g ->
  let w0 := add_line w (generating_line d language_code) in
  let w1 := add_request w0 (gemini_request env (DailyReading.text g)
                              (DailyReading.reference g) d language_code) in
  GenerateMeditation._generate_for_date env d language_code force w
  = match gemini_result env (gemini_answer env (DailyReading.text g)
                               (DailyReading.reference g) d language_code w0) with
    | Ok body =>
        (Ok tt, add_line (add_meditation w1 (draft_of d language_code body))
                         (created_line d language_code))
    | Raise e =>
        if is_GeminiError e then (Ok tt, add_line w1 (gemini_error_line d e))
        else (Raise e, w1)
    end.
Proof.
  intros Hkey Hday Hforce Hg w0 w1.
  rewrite generate_for_date_run. unfold generate_for_date_outcome. fold w0.
  rewrite Hday, (skip_false _ _ _ _ Hforce), Hg.
  rewrite (generate_meditation_cases env _ _ d language_code w0 Hkey). fold w1.
  reflexivity.
Qed.

(** X10. Failures of the generator inside the batch. A [GeminiError] (the
    request failed, the status is not 200, the body has another shape) is
    reported for its date, creates nothing, and the batch goes on with the
    next date. A body that does not decode raises an exception that is no
    [GeminiError]: it is not caught, the command ends with it, and the
    dates that follow are not processed. *)
Theorem generator_failures_in_batch (env : Env) (d : date) (dates : list date)
    (language_code : str) (force : bool) (w : World) (x : LiturgicalDay.t)
    (g : DailyReading.t) :
  api_key_of env <> [] ->
  filter (Objects.day_matches d) (days w) = [x] ->
  force = true \/ meditation_exists d language_code w = false ->
  chosen_gospel d language_code w = Some g ->
  let w0 := add_line w (generating_line d language_code) in
  let w1 := add_request w0 (gemini_request env (DailyReading.text g)
                              (DailyReading.reference g) d language_code) in
  let answer := gemini_answer env (DailyReading.text g) (DailyReading.reference g)
                  d language_code w0 in
  (forall e, gemini_result env answer = Raise e -> is_GeminiError e = true ->
     generate_batch env language_code force (d :: dates) w
     = generate_batch env language_code force dates (add_line w1 (gemini_error_line d e)))
  /\ (forall text e, answer = PostResponse 200 text (Raise e) -> is_GeminiError e = false ->
        generate_batch env language_code force (d :: dates) w = (Raise e, w1))
  /\ (forall msg, answer = PostRaises msg ->
        exists e, gemini_result env answer = Raise e /\ is_GeminiError e = true)
  /\ (forall status_code text decoded,
        answer = PostResponse status_code text decoded -> status_code <> 200 ->
        exists e, gemini_result env answer = Raise e /\ is_GeminiError e = true)
  /\ (forall text data,
        answer = PostResponse 200 text (Ok data) -> Gemini.candidate_text data = None ->
        exists e, gemini_result env answer = Raise e /\ is_GeminiError e = true).
Proof.
  intros Hkey Hday Hforce Hg w0 w1 answer.
  pose proof (generate_for_date_checked env d language_code force w x g
                Hkey Hday Hforce Hg) as Hrun.
  cbv zeta in Hrun. fold w0 w1 answer in Hrun.
  split; [|split; [|split; [|split]]].
  - intros e He Hge. unfold generate_batch. cbn [for_each]. unfold bind at 1.
    rewrite Hrun, He, Hge. reflexivity.
  - intros text e Ha Hge. unfold generate_batch. cbn [for_each]. unfold bind at 1.
    rewrite Hrun, Ha. unfold gemini_result. change (200 =? 200) with true. cbv iota.
    rewrite Hge. reflexivity.
  - intros msg ->. eexists. split; reflexivity.
  - intros status_code text decoded -> Hne. unfold gemini_result.
    destruct (Z.eqb_spec status_code 200); [contradiction|].
    eexists. split; reflexivity.
  - intros text data -> Hnone. unfold gemini_result. change (200 =? 200) with true.
    cbv iota. rewrite Hnone. eexists. split; reflexivity.
Qed.

Lemma generator_failures_in_batch_witness :
  generate_batch bad_json_env (lit "es") false [738886; 738887] two_gospels_world
  = (Raise (JSONDecodeError (lit "Expecting value")),
     add_request (add_line two_gospels_world (generating_line 738886 (lit "es")))
       (gemini_request bad_json_env (lit "En el principio") (lit "Jn 1, 1-18") 738886
          (lit "es"))).
Proof.
  assert (Hkey : api_key_of bad_json_env <> []) by discriminate.
  exact (proj1 (proj2 (generator_failures_in_batch bad_json_env 738886 [738887] (lit "es")
                         false two_gospels_world (LiturgicalDay.Build 738886)
                         (DailyReading.Build 738886 (lit "es")
                            DailyReading.ReadingType.GOSPEL 1 (lit "Evangelio")
                            (lit "Jn 1, 1-18") (lit "En el principio"))
                         Hkey eq_refl (or_intror eq_refl) eq_refl))
           (lit "<html>") (JSONDecodeError (lit "Expecting value")) eq_refl eq_refl).
Defined.

(** X11. The draft that is stored for an answer of the generator: its body
    is the text of the answer, stripped, so it has no white space at either
    end; the body is not checked further, and a text of white space only
    gives a draft with an empty body. *)
Theorem draft_body_is_stripped_text (env : Env) (d : date) (language_code : str)
    (force : bool) (w : World) (x : LiturgicalDay.t) (g : DailyReading.t)
    (text : str) (data t : json) :
  api_key_of env <> [] ->
  filter (Objects.day_matches d) (days w) = [x] ->
  force = true \/ meditation_exists d language_code w = false ->
  chosen_gospel d language_code w = Some g ->
  gemini_answer env (DailyReading.text g) (DailyReading.reference g) d language_code
    (add_line w (generating_line d language_code))
  = PostResponse 200 text (Ok data) ->
  Gemini.candidate_text data = Some t ->
  exists w',
    GenerateMeditation._generate_for_date env d language_code force w = (Ok tt, w')
    /\ meditations w'
       = meditations w ++ [draft_of d language_code (strip (Gemini.str_of env t))]
    /\ trimmed (strip (Gemini.str_of env t))
    /\ (forall s, t = JString s -> (forall c, In c s -> isspace c = true) ->
          meditations w' = meditations w ++ [draft_of d language_code []]).
Proof.
  intros Hkey Hday Hforce Hg Ha Ht.
  rewrite (generate_for_date_checked env d language_code force w x g Hkey Hday Hforce Hg).
  rewrite Ha. unfold gemini_result. change (200 =? 200) with true. cbv iota.
  rewrite Ht. eexists. split; [reflexivity|].
  cbn [meditations add_line add_meditation add_request].
  split; [reflexivity|]. split; [apply strip_trimmed|].
  intros s -> Hblank. cbn [Gemini.str_of].
  assert (Hl : lstrip s = []).
  { clear -Hblank. induction s as [|c s IH]; [reflexivity|].
    cbn. rewrite (Hblank c (or_introl eq_refl)). apply IH.
    intros c' Hc'. apply Hblank. right. exact Hc'. }
  unfold strip. rewrite Hl. reflexivity.
Qed.

Lemma draft_body_is_stripped_text_witness :
  exists w',
    GenerateMeditation._generate_for_date blank_answer_env 738886 (lit "es") false
      two_gospels_world = (Ok tt, w')
    /\ meditations w' = [draft_of 738886 (lit "es") []].
Proof.
  assert (Hkey : api_key_of blank_answer_env <> []) by discriminate.
  destruct (draft_body_is_stripped_text blank_answer_env 738886 (lit "es") false
              two_gospels_world (LiturgicalDay.Build 738886)
              (DailyReading.Build 738886 (lit "es") DailyReading.ReadingType.GOSPEL 1
                 (lit "Evangelio") (lit "Jn 1, 1-18") (lit "En el principio"))
              [] _ (JString [32%N; 10%N])
              Hkey eq_refl (or_intror eq_refl) eq_refl eq_refl eq_refl)
    as (w' & Hrun & _ & _ & Hblank).
  exists w'. split; [exact Hrun|].
  apply (Hblank [32%N; 10%N] eq_refl).
  intros c [<- | [<- | []]]; reflexivity.
Defined.

(** ** Text of the extracted blocks *)







(** ** Substrings *)

Lemma startswith_nil (hay : str) : startswith hay [] = true.
Proof. destruct hay; reflexivity. Qed.

Lemma startswith_app_l (needle a b : str) :
  startswith a needle = true -> startswith (a ++ b) needle = true.
Proof.
  revert a. induction needle as [|x needle IH]; intros a.
  - intros _. apply startswith_nil.
  - destruct a as [|y a]; [discriminate|]. cbn. intros H.
    apply andb_prop in H. destruct H as [H1 H2]. rewrite H1. cbn. apply IH, H2.
Qed.

Lemma startswith_self (needle b : str) : startswith (needle ++ b) needle = true.
Proof.
  induction needle as [|x needle IH]; [apply startswith_nil|].
  cbn. rewrite N.eqb_refl. exact IH.
Qed.

Lemma contains_unfold (hay needle : str) :
  contains hay needle
  = startswith hay needle
    || match hay with
       | [] => false
       | _ :: hay' => contains hay' needle
       end.
Proof. destruct hay; reflexivity. Qed.

Lemma contains_app_r (a b needle : str) :
  contains b needle = true -> contains (a ++ b) needle = true.
Proof.
  intros H. induction a as [|x a IH]; [exact H|].
  rewrite contains_unfold. cbn [app]. rewrite IH. apply orb_true_r.
Qed.

Lemma contains_app_l (a b needle : str) :
  contains a needle = true -> contains (a ++ b) needle = true.
Proof.
  induction a as [|x a IH]; rewrite contains_unfold; intros H.
  - rewrite orb_false_r in H. destruct needle; [|discriminate].
    rewrite contains_unfold, startswith_nil. reflexivity.
  - rewrite (contains_unfold ((x :: a) ++ b)). cbn [app].
    apply orb_prop in H. destruct H as [H|H].
    + change (x :: a ++ b) with ((x :: a) ++ b).
      rewrite (startswith_app_l _ _ b H). reflexivity.
    + rewrite (IH H). apply orb_true_r.
Qed.

(** A string contains each of the pieces it is put together from. *)
Lemma contains_middle (pre x post : str) : contains (pre ++ x ++ post) x = true.
Proof.
  apply contains_app_r. rewrite contains_unfold, startswith_self. reflexivity.
Qed.


Lemma contains_nonempty (hay needle : str) :
  needle <> [] -> contains hay needle = true -> hay <> [].
Proof.
  intros Hn H ->. destruct needle; [congruence|]. discriminate.
Qed.

Lemma join_In (sep c : str) (l : list str) :
  In c l -> exists pre post, join sep l = pre ++ c ++ post.
Proof.
  induction l as [|p l IH]; [intros []|].
  intros [-> | Hin].
  - rewrite join_cons. exists [], (concat (map (fun q => sep ++ q) l)). reflexivity.
  - destruct l as [|q rest]; [destruct Hin|].
    change (join sep (p :: q :: rest)) with (p ++ sep ++ join sep (q :: rest)).
    destruct (IH Hin) as (pre & post & ->).
    exists (p ++ sep ++ pre), post. rewrite <- !app_assoc. reflexivity.
Qed.

(** X13. Which sections are taken for readings: exactly those with a
    [class] attribute that, read as one string with a space between the
    classes, contains both "section--evidence" and "section--isStatic". So a
    section that has both classes is taken, and one without [class]
    attribute is not. The two markers are looked for as substrings. *)
Theorem matched_sections (s : SectionTag) :
  (FetchVaticanReadings.class_matches s = true
   <-> exists classes,
         class_ s = Some classes
         /\ contains (join (lit " ") classes) (lit "section--evidence") = true
         /\ contains (join (lit " ") classes) (lit "section--isStatic") = true)
  /\ (forall classes,
        class_ s = Some classes ->
        In (lit "section--evidence") classes -> In (lit "section--isStatic") classes ->
        FetchVaticanReadings.class_matches s = true)
  /\ (class_ s = None -> FetchVaticanReadings.class_matches s = false).
Proof.
  unfold FetchVaticanReadings.class_matches, FetchVaticanReadings.class_lambda.
  set (A := lit "section--evidence"). set (B := lit "section--isStatic").
  assert (HA : A <> []) by (subst A; vm_compute; discriminate).
  assert (Hiff : forall classes,
             existsb (fun c => nonempty c && contains c A && contains c B) classes
             || nonempty (join (lit " ") classes) && contains (join (lit " ") classes) A
                && contains (join (lit " ") classes) B = true
             <-> contains (join (lit " ") classes) A = true
                 /\ contains (join (lit " ") classes) B = true).
  { intros classes. split.
    - intros H. apply orb_prop in H. destruct H as [H|H].
      + apply existsb_exists in H. destruct H as (c & Hin & Hc).
        apply andb_prop in Hc. destruct Hc as [Hc HcB].
        apply andb_prop in Hc. destruct Hc as [_ HcA].
        destruct (join_In (lit " ") c classes Hin) as (pre & post & ->).
        split; apply contains_app_r, contains_app_l; assumption.
      + apply andb_prop in H. destruct H as [H HB].
        apply andb_prop in H. destruct H as [_ HA']. auto.
    - intros [H1 H2]. rewrite H1, H2.
      pose proof (contains_nonempty _ _ HA H1) as Hne.
      destruct (join (lit " ") classes); [congruence|].
      cbn [nonempty andb]. apply orb_true_r. }
  split; [|split].
  - destruct (class_ s) as [classes|].
    + rewrite Hiff. split.
      * intros H. exists classes. split; [reflexivity|exact H].
      * intros (classes' & [= <-] & H). exact H.
    + split; [discriminate|]. intros (classes & H & _). discriminate.
  - intros classes -> InA InB. apply Hiff.
    destruct (join_In (lit " ") A classes InA) as (pre & post & E).
    destruct (join_In (lit " ") B classes InB) as (pre' & post' & E').
    split.
    + rewrite E. apply contains_middle.
    + rewrite E'. apply contains_middle.
  - intros ->. reflexivity.
Qed.


(** ** What generation leaves alone *)


Lemma generation_step_trans (w w1 w2 : World) :
  generation_step w w1 -> generation_step w1 w2 -> generation_step w w2.
Proof.
  intros (Hd & Hr & n1 & p1 & Hm & F1 & Hq & L1) (Hd' & Hr' & n2 & p2 & Hm' & F2 & Hq' & L2).
  unfold generation_step. split; [congruence|]. split; [congruence|].
  exists (n1 ++ n2), (p1 ++ p2).
  split; [rewrite Hm', Hm; symmetry; apply app_assoc|].
  split; [apply Forall_app; auto|].
  split; [rewrite Hq', Hq; symmetry; apply app_assoc|].
  rewrite !length_app. lia.
Qed.

Lemma generation_step_line (w : World) (l : Line) : generation_step w (add_line w l).
Proof.
  unfold generation_step, add_line. cbn. split; [reflexivity|]. split; [reflexivity|].
  exists [], []. rewrite !app_nil_r. repeat split; auto.
Qed.

(** A text comes back from the service only after a request was sent. *)
Lemma generate_meditation_ok_sends (env : Env) (gospel_text reference : str) (d : date)
    (language_code : str) (w w1 : World) (body : str) :
  Gemini.generate_meditation env gospel_text reference d language_code w = (Ok body, w1) ->
  w1 = add_request w (gemini_request env gospel_text reference d language_code).
Proof.
  destruct (list_eq_dec N.eq_dec (api_key_of env) []) as [Hk|Hk].
  - rewrite (generate_meditation_no_key _ _ _ _ _ _ Hk). discriminate.
  - rewrite (generate_meditation_cases _ _ _ _ _ _ Hk). intros [= _ <-]. reflexivity.
Qed.

Lemma generate_for_date_step (env : Env) (d : date) (language_code : str) (force : bool)
    (w w1 : World) (r : result unit) :
  GenerateMeditation._generate_for_date env d language_code force w = (r, w1) ->
  generation_step w w1.
Proof.
  rewrite generate_for_date_run. unfold generate_for_date_outcome.
  pose proof (generation_step_line w (generating_line d language_code)) as S0.
  set (w0 := add_line w (generating_line d language_code)) in *.
  destruct (filter (Objects.day_matches d) (days w)) as [|x [|y rest]].
  - intros [= <- <-]. exact (generation_step_trans _ _ _ S0 (generation_step_line w0 _)).
  - destruct (negb force && meditation_exists d language_code w).
    + intros [= <- <-]. exact (generation_step_trans _ _ _ S0 (generation_step_line w0 _)).
    + destruct (chosen_gospel d language_code w) as [g|].
      * destruct (Gemini.generate_meditation env _ _ d language_code w0)
          as [[body|e] w2] eqn:Hgen.
        -- intros [= <- <-]. apply (generation_step_trans _ _ _ S0).
           rewrite (generate_meditation_ok_sends _ _ _ _ _ _ _ _ Hgen).
           unfold generation_step, add_line, add_meditation, add_request. cbn.
           split; [reflexivity|]. split; [reflexivity|].
           eexists [_], [_]. split; [reflexivity|].
           split; [|split; [reflexivity|cbn; lia]].
           constructor; [|constructor]. unfold is_ai_draft, draft_of. cbn. auto.
        -- destruct (generate_meditation_frame _ _ _ _ _ _ _ _ Hgen)
             as (Hd & Hr & Hm & _ & Hq).
           assert (S2 : generation_step w0 w2).
           { unfold generation_step. split; [exact Hd|]. split; [exact Hr|].
             destruct Hq as [Hq | [q Hq]].
             - exists [], []. rewrite !app_nil_r. auto.
             - exists [], [q]. rewrite app_nil_r. split; [exact Hm|].
               split; [constructor|]. split; [exact Hq|]. cbn. lia. }
           destruct (is_GeminiError e); intros [= <- <-].
           ++ apply (generation_step_trans _ _ _ S0).
              exact (generation_step_trans _ _ _ S2 (generation_step_line w2 _)).
           ++ exact (generation_step_trans _ _ _ S0 S2).
      * intros [= <- <-].
        exact (generation_step_trans _ _ _ S0 (generation_step_line w0 _)).
  - intros [= <- <-]. exact S0.
Qed.



(** ** From ingestion to generation *)

Lemma gospel_matches_has_key (d : date) (language_code : str) (r : DailyReading.t) :
  Objects.gospel_matches d language_code r
  = has_key (d, language_code, DailyReading.ReadingType.GOSPEL, DailyReading.order r) r.
Proof.
  unfold Objects.gospel_matches, has_key, Objects.reading_matches.
  rewrite Z.eqb_refl, andb_true_r. reflexivity.
Qed.

(** After upserts into a table without gospel of the day and language, the
    gospel that generation finds is the row of the block that was assigned
    to GOSPEL, and none when no block was. *)
Lemma chosen_after_upserts (env : Env) (d : date) (language_code : str)
    (l : list (DailyReading.ReadingType.t * FetchVaticanReadings.ReadingBlock))
    (w0 w1 : World) :
  NoDup (map fst l) ->
  (forall r, In r (readings w0) -> Objects.gospel_matches d language_code r = false) ->
  upsert_all env (LiturgicalDay.Build d) language_code l w0 = (Ok tt, w1) ->
  chosen_gospel d language_code w1
  = match find (fun a => DailyReading.ReadingType.eqb (fst a)
                           DailyReading.ReadingType.GOSPEL) l with
    | Some a => Some (reading_of d language_code a)
    | None => None
    end.
Proof.
  intros Hnd Hnone Hrun.
  destruct (upsert_all_first_run env (LiturgicalDay.Build d) language_code l Hnd w0 w1 Hrun)
    as (_ & _ & _ & Hrows & Hother).
  cbn [LiturgicalDay.date] in Hrows, Hother.
  assert (Hold : forall k r, In r (rows_with k (readings w1)) ->
                   (forall a, In a l -> k <> (d, language_code, fst a, 1)) ->
                   Objects.gospel_matches d language_code r = false).
  { intros k r Hin Hk. rewrite (Hother k Hk) in Hin.
    apply filter_In in Hin. apply Hnone. exact (proj1 Hin). }
  unfold chosen_gospel.
  destruct (find _ l) as [a|] eqn:Hfind.
  - apply find_some in Hfind. destruct Hfind as [Hin Ht].
    apply ReadingType_eqb_eq in Ht.
    assert (E : filter (Objects.gospel_matches d language_code) (readings w1)
                = rows_with (d, language_code, DailyReading.ReadingType.GOSPEL, 1)
                    (readings w1)).
    { unfold rows_with. apply filter_ext_in. intros r Hr.
      rewrite gospel_matches_has_key.
      destruct (Z.eq_dec (DailyReading.order r) 1) as [->|Hne]; [reflexivity|].
      destruct (has_key (d, language_code, DailyReading.ReadingType.GOSPEL,
                         DailyReading.order r) r) eqn:Hk.
      - exfalso.
        assert (Hg : Objects.gospel_matches d language_code r = false).
        { apply (Hold (d, language_code, DailyReading.ReadingType.GOSPEL,
                       DailyReading.order r) r).
          - apply filter_In. auto.
          - intros a' _. congruence. }
        rewrite gospel_matches_has_key, Hk in Hg. discriminate.
      - symmetry.
        destruct (has_key (d, language_code, DailyReading.ReadingType.GOSPEL, 1) r)
          eqn:Hk1; [|reflexivity].
        apply has_key_iff in Hk1. injection Hk1 as _ _ _ Ho. contradiction. }
    rewrite E. rewrite <- Ht, (Hrows a Hin). reflexivity.
  - assert (E : filter (Objects.gospel_matches d language_code) (readings w1) = []).
    { destruct (filter (Objects.gospel_matches d language_code) (readings w1))
        as [|r rest] eqn:Hf; [reflexivity|]. exfalso.
      assert (Hin : In r (filter (Objects.gospel_matches d language_code) (readings w1)))
        by (rewrite Hf; left; reflexivity).
      apply filter_In in Hin. destruct Hin as [Hin Hm].
      assert (Hg : Objects.gospel_matches d language_code r = false).
      { apply (Hold (d, language_code, DailyReading.ReadingType.GOSPEL,
                     DailyReading.order r) r).
        - apply filter_In. split; [exact Hin|].
          rewrite <- gospel_matches_has_key. exact Hm.
        - intros a' Ha' [= Ht _].
          pose proof (find_none _ _ Hfind a' Ha') as Hno. cbn in Hno.
          rewrite <- Ht in Hno. discriminate. }
      congruence. }
    rewrite E. reflexivity.
Qed.

Lemma find_gospel_assignment (d : date) (blocks : list FetchVaticanReadings.ReadingBlock) :
  find (fun a => DailyReading.ReadingType.eqb (fst a) DailyReading.ReadingType.GOSPEL)
       (assignments d blocks)
  = match gospel_block d blocks with
    | Some b => Some (DailyReading.ReadingType.GOSPEL, b)
    | None => None
    end.
Proof.
  unfold assignments, gospel_block.
  destruct (weekday d =? 6); destruct blocks as [|b0 [|b1 [|b2 rest]]]; reflexivity.
Qed.

(** X16. From ingestion to generation. After a successful ingestion into a
    database that had no gospel of that day and language, the gospel that
    the generation command finds for the date is the block that ingestion
    took for the gospel: the second block, or the third on a Sunday. With
    fewer blocks (also with two blocks on a Sunday, where the second is
    stored as second reading), generation for the date skips with the
    warning that no gospel reading was found. *)
Theorem ingested_gospel_is_generated (env env' : Env) (d : date)
    (language_code url : str) (blocks : list FetchVaticanReadings.ReadingBlock)
    (force : bool) (w w1 : World) :
  (forall r, In r (readings w) -> Objects.gospel_matches d language_code r = false) ->
  meditation_exists d language_code w = false ->
  FetchVaticanReadings.ingest env d language_code url blocks w = (Ok tt, w1) ->
  chosen_gospel d language_code w1
  = match gospel_block d blocks with
    | Some b =>
        Some (reading_of d language_code (DailyReading.ReadingType.GOSPEL, b))
    | None => None
    end
  /\ (gospel_block d blocks = None ->
      GenerateMeditation._generate_for_date env' d language_code force w1
      = (Ok tt, add_line (add_line w1 (generating_line d language_code))
                         (skip_no_gospel_line d language_code)))
  /\ (forall b, gospel_block d blocks = Some b -> api_key_of env' <> [] ->
        requests (snd (GenerateMeditation._generate_for_date env' d language_code force w1))
        = requests w1
          ++ [gemini_request env' (FetchVaticanReadings.text b)
                (FetchVaticanReadings.reference b) d language_code]).
Proof.
  intros Hnone Hmed Hrun.
  pose proof Hrun as Hrun'. rewrite ingest_run in Hrun'.
  destruct (Objects.LiturgicalDay_get_or_create d w) as [[x|e] w0] eqn:Hgc;
    [|discriminate].
  destruct (get_or_create_ok d w w0 x Hgc) as (Hx & Hday & Hrs & Hms & _).
  assert (Hchosen : chosen_gospel d language_code w1
                    = match gospel_block d blocks with
                      | Some b =>
                          Some (reading_of d language_code
                                  (DailyReading.ReadingType.GOSPEL, b))
                      | None => None
                      end
                    /\ days w1 = days w0 /\ meditations w1 = meditations w0).
  { destruct blocks as [|b0 rest].
    - injection Hrun' as <-. cbn [days readings meditations].
      split; [|split; reflexivity].
      unfold chosen_gospel, gospel_block. cbn [readings]. rewrite Hrs.
      assert (E : filter (Objects.gospel_matches d language_code) (readings w) = []).
      { destruct (filter _ (readings w)) as [|r l] eqn:Hf; [reflexivity|]. exfalso.
        assert (Hin : In r (filter (Objects.gospel_matches d language_code) (readings w)))
          by (rewrite Hf; left; reflexivity).
        apply filter_In in Hin. destruct Hin as [Hin Hm].
        rewrite (Hnone r Hin) in Hm. discriminate. }
      rewrite E. destruct (weekday d =? 6); reflexivity.
    - rewrite Hx in Hrun'.
      rewrite (chosen_after_upserts env d language_code _ w0 w1
                 (assignments_NoDup d (b0 :: rest))
                 ltac:(rewrite Hrs; exact Hnone) Hrun').
      rewrite find_gospel_assignment.
      destruct (upsert_all_first_run env (LiturgicalDay.Build d) language_code _
                  (assignments_NoDup d (b0 :: rest)) w0 w1 Hrun') as (Hd & Hm & _).
      split; [|split; assumption].
      destruct (gospel_block d (b0 :: rest)); reflexivity. }
  destruct Hchosen as (Hchosen & Hdays1 & Hmeds1).
  assert (Hday1 : filter (Objects.day_matches d) (days w1) = [LiturgicalDay.Build d])
    by (rewrite Hdays1; exact Hday).
  assert (Hmed1 : meditation_exists d language_code w1 = false).
  { unfold meditation_exists in *. rewrite Hmeds1, Hms. exact Hmed. }
  split; [exact Hchosen|]. split.
  - intros Hno. rewrite generate_for_date_run. unfold generate_for_date_outcome.
    rewrite Hday1, Hmed1, andb_false_r, Hchosen, Hno. reflexivity.
  - intros b Hb Hkey.
    rewrite (generate_for_date_checked env' d language_code force w1 _
               (reading_of d language_code (DailyReading.ReadingType.GOSPEL, b))
               Hkey Hday1 (or_intror Hmed1)); [|rewrite Hchosen, Hb; reflexivity].
    cbn [reading_of DailyReading.text DailyReading.reference fst snd].
    destruct (gemini_result env' _) as [body|e]; [reflexivity|].
    destruct (is_GeminiError e); reflexivity.
Qed.

Lemma ingested_gospel_is_generated_witness :
  exists w1,
    FetchVaticanReadings.ingest offline_env 738886 (lit "es") []
      [FetchVaticanReadings.MkReadingBlock (lit "a") (lit "b") (lit "c")] empty_world
    = (Ok tt, w1)
    /\ chosen_gospel 738886 (lit "es") w1 = None.
Proof.
  destruct (FetchVaticanReadings.ingest offline_env 738886 (lit "es") []
              [FetchVaticanReadings.MkReadingBlock (lit "a") (lit "b") (lit "c")]
              empty_world) as [r w1] eqn:Hrun.
  vm_compute in Hrun. injection Hrun as <- <-.
  eexists. split; [reflexivity|].
  refine (proj1 (ingested_gospel_is_generated offline_env offline_env 738886 (lit "es") []
                   [FetchVaticanReadings.MkReadingBlock (lit "a") (lit "b") (lit "c")]
                   false empty_world _ _ _ _)).
  - intros r [].
  - reflexivity.
  - vm_compute. reflexivity.
Defined.

(** ** The admin hook *)

(** X17. [save_model] changes nothing but the two approval stamps, and
    nothing at all on a record that is not APPROVED; saving the object it
    returns again, by anyone at any time, returns the same object. The two
    stamps are set independently: on an APPROVED record that has only one
    of them, the save keeps that one and sets the other, so that user and
    time may stem from different saves. *)
Theorem save_model_only_stamps (request_user other_user : User) (now later : datetime)
    (obj : GospelMeditation.t) :
  let saved := GospelMeditationAdmin.save_model request_user now obj in
  GospelMeditationAdmin.save_model other_user later saved = saved
  /\ (GospelMeditation.day saved = GospelMeditation.day obj
      /\ GospelMeditation.language_code saved = GospelMeditation.language_code obj
      /\ GospelMeditation.title saved = GospelMeditation.title obj
      /\ GospelMeditation.body saved = GospelMeditation.body obj
      /\ GospelMeditation.source saved = GospelMeditation.source obj
      /\ GospelMeditation.status saved = GospelMeditation.status obj
      /\ GospelMeditation.created_by saved = GospelMeditation.created_by obj)
  /\ (GospelMeditation.status obj <> GospelMeditation.Status.APPROVED -> saved = obj)
  /\ (GospelMeditation.status obj = GospelMeditation.Status.APPROVED ->
      GospelMeditation.approved_by saved <> None
      /\ GospelMeditation.approved_at saved <> None
      /\ (forall u, GospelMeditation.approved_by obj = Some u ->
                    GospelMeditation.approved_at obj = None ->
                    GospelMeditation.approved_by saved = Some u
                    /\ GospelMeditation.approved_at saved = Some now)
      /\ (forall t, GospelMeditation.approved_by obj = None ->
                    GospelMeditation.approved_at obj = Some t ->
                    GospelMeditation.approved_by saved = Some request_user
                    /\ GospelMeditation.approved_at saved = Some t)).
Proof.
  destruct obj as [d l ti b so st cb ab aa]. cbv zeta.
  unfold GospelMeditationAdmin.save_model.
  cbn [GospelMeditation.day GospelMeditation.language_code GospelMeditation.title
       GospelMeditation.body GospelMeditation.source GospelMeditation.status
       GospelMeditation.created_by GospelMeditation.approved_by
       GospelMeditation.approved_at].
  destruct st; cbn [GospelMeditation.Status.eqb];
    cbn [GospelMeditation.day GospelMeditation.language_code GospelMeditation.title
         GospelMeditation.body GospelMeditation.source GospelMeditation.status
         GospelMeditation.created_by GospelMeditation.approved_by
         GospelMeditation.approved_at GospelMeditation.Status.eqb];
    destruct ab, aa;
    repeat split; try congruence; try discriminate;
    try (intros; congruence); try (intros ? [= <-] ?; reflexivity);
    try (intros ? ? [= <-]; reflexivity).
Qed.

(** ** Ingesting a page that has changed *)

(** The readings after an ingestion that succeeded. *)
Lemma ingest_rows (env : Env) (d : date) (language_code url : str)
    (blocks : list FetchVaticanReadings.ReadingBlock) (w w1 : World) :
  FetchVaticanReadings.ingest env d language_code url blocks w = (Ok tt, w1) ->
  (blocks = [] -> readings w1 = readings w)
  /\ (blocks <> [] ->
      (forall a, In a (assignments d blocks) ->
         rows_with (d, language_code, fst a, 1) (readings w1)
         = [reading_of d language_code a])
      /\ (forall k',
            (forall a, In a (assignments d blocks) ->
               k' <> (d, language_code, fst a, 1)) ->
            rows_with k' (readings w1) = rows_with k' (readings w))).
Proof.
  rewrite ingest_run.
  destruct (Objects.LiturgicalDay_get_or_create d w) as [[x|e] w0] eqn:Hgc;
    [|discriminate].
  destruct (get_or_create_ok d w w0 x Hgc) as (Hx & _ & Hrs & _).
  destruct blocks as [|b0 rest].
  - intros [= <-]. split; [intros _; exact Hrs | congruence].
  - rewrite Hx. intros Hrun. split; [discriminate|]. intros _.
    destruct (upsert_all_first_run env (LiturgicalDay.Build d) language_code _
                (assignments_NoDup d (b0 :: rest)) w0 w1 Hrun)
      as (_ & _ & _ & Hrows & Hother).
    cbn [LiturgicalDay.date] in Hrows, Hother. rewrite <- Hrs. auto.
Qed.

(** X18. Ingesting a date again after its page has changed: the reading
    types that the new blocks are assigned to hold the new blocks (the last
    ingestion wins), but no reading is ever removed: a type that only the
    earlier blocks reached keeps its earlier row, and a page that gives no
    block at all leaves every reading of the date as it was. *)
Theorem reingestion_overwrites_never_deletes (env env' : Env) (d : date)
    (language_code url url' : str)
    (blocks blocks' : list FetchVaticanReadings.ReadingBlock) (w w1 w2 : World) :
  FetchVaticanReadings.ingest env d language_code url blocks w = (Ok tt, w1) ->
  FetchVaticanReadings.ingest env' d language_code url' blocks' w1 = (Ok tt, w2) ->
  blocks <> [] ->
  (forall a', In a' (assignments d blocks') ->
     rows_with (d, language_code, fst a', 1) (readings w2)
     = [reading_of d language_code a'])
  /\ (forall a, In a (assignments d blocks) ->
        ~ In (fst a) (map fst (assignments d blocks')) ->
        rows_with (d, language_code, fst a, 1) (readings w2)
        = [reading_of d language_code a])
  /\ (blocks' = [] -> readings w2 = readings w1).
Proof.
  intros Hrun1 Hrun2 Hne.
  destruct (ingest_rows _ _ _ _ _ _ _ Hrun1) as [_ H1]. destruct (H1 Hne) as [Hrows1 _].
  destruct (ingest_rows _ _ _ _ _ _ _ Hrun2) as [Hnil2 H2].
  split; [|split].
  - intros a' Hin. destruct blocks' as [|b0 rest].
    { unfold assignments in Hin. destruct (weekday d =? 6); destruct Hin. }
    destruct (H2 ltac:(discriminate)) as [Hrows2 _]. apply Hrows2, Hin.
  - intros a Hin Hnot. destruct blocks' as [|b0 rest].
    + rewrite (Hnil2 eq_refl). apply Hrows1, Hin.
    + destruct (H2 ltac:(discriminate)) as [_ Hother2]. rewrite Hother2.
      * apply Hrows1, Hin.
      * intros a' Hin' [= Ht]. apply Hnot. rewrite Ht. apply in_map, Hin'.
  - exact Hnil2.
Qed.

Lemma reingestion_overwrites_never_deletes_witness :
  exists w1 w2,
    FetchVaticanReadings.ingest offline_env 738886 (lit "es") []
      [FetchVaticanReadings.MkReadingBlock (lit "a") (lit "b") (lit "c");
       FetchVaticanReadings.MkReadingBlock (lit "d") (lit "e") (lit "f")] empty_world
    = (Ok tt, w1)
    /\ FetchVaticanReadings.ingest offline_env 738886 (lit "es") []
         [FetchVaticanReadings.MkReadingBlock (lit "g") (lit "h") (lit "i")] w1
       = (Ok tt, w2)
    /\ rows_with (738886, lit "es", DailyReading.ReadingType.GOSPEL, 1) (readings w2)
       = [reading_of 738886 (lit "es")
            (DailyReading.ReadingType.GOSPEL,
             FetchVaticanReadings.MkReadingBlock (lit "d") (lit "e") (lit "f"))].
Proof.
  destruct (FetchVaticanReadings.ingest offline_env 738886 (lit "es") []
              [FetchVaticanReadings.MkReadingBlock (lit "a") (lit "b") (lit "c");
               FetchVaticanReadings.MkReadingBlock (lit "d") (lit "e") (lit "f")]
              empty_world) as [r1 w1] eqn:Hrun1.
  destruct (FetchVaticanReadings.ingest offline_env 738886 (lit "es") []
              [FetchVaticanReadings.MkReadingBlock (lit "g") (lit "h") (lit "i")] w1)
    as [r2 w2] eqn:Hrun2.
  assert (Hr1 : r1 = Ok tt) by (vm_compute in Hrun1; congruence).
  assert (Hr2 : r2 = Ok tt).
  { vm_compute in Hrun1. injection Hrun1 as _ <-. vm_compute in Hrun2. congruence. }
  subst r1 r2. exists w1, w2. split; [reflexivity|]. split; [exact Hrun2|].
  refine (proj1 (proj2 (reingestion_overwrites_never_deletes offline_env offline_env
                          738886 (lit "es") [] [] _ _ empty_world w1 w2 Hrun1 Hrun2 _))
            (DailyReading.ReadingType.GOSPEL,
             FetchVaticanReadings.MkReadingBlock (lit "d") (lit "e") (lit "f")) _ _).
  - discriminate.
  - right. left. reflexivity.
  - cbn. intros [H | []]. discriminate.
Defined.

(** ** The generation loop *)

Ltac returns_with_line :=
  eexists _, [_]; split;
  [ reflexivity
  | unfold add_line, add_meditation, add_request; cbn [output];
    rewrite <- app_assoc; reflexivity ].

Lemma generate_for_date_returns (env : Env) (d : date) (language_code : str)
    (force : bool) (w : World) :
  decodable_answers env -> days_unique w ->
  exists w1 lines,
    GenerateMeditation._generate_for_date env d language_code force w = (Ok tt, w1)
    /\ output w1 = output w ++ generating_line d language_code :: lines.
Proof.
  intros Hdec Hu. rewrite generate_for_date_run. unfold generate_for_date_outcome.
  specialize (Hu d).
  destruct (filter (Objects.day_matches d) (days w)) as [|x [|y rest]].
  - returns_with_line.
  - destruct (negb force && meditation_exists d language_code w).
    + returns_with_line.
    + destruct (chosen_gospel d language_code w) as [g|].
      * destruct (list_eq_dec N.eq_dec (api_key_of env) []) as [Hk|Hk].
        -- rewrite (generate_meditation_no_key env _ _ d language_code _ Hk).
           returns_with_line.
        -- rewrite (generate_meditation_cases env _ _ d language_code _ Hk).
           unfold gemini_result, gemini_answer.
           destruct (requests_post env _ _ _ _) as [msg|status_code text decoded] eqn:Ha.
           ++ returns_with_line.
           ++ destruct (Z.eqb_spec status_code 200) as [->|Hne].
              ** destruct decoded as [data|e]; [|exfalso; exact (Hdec _ _ _ _ _ _ Ha)].
                 destruct (Gemini.candidate_text data);
                   returns_with_line.
              ** returns_with_line.
      * returns_with_line.
  - cbn in Hu. lia.
Qed.

(** X19. When the table of days is unique by date and the generator never
    answers with a body that does not decode, the generation batch attempts
    every date: it returns normally and announces each date, whatever the
    checks find and however the generator fails. *)
Theorem generation_attempts_every_date (env : Env) (language_code : str) (force : bool)
    (dates : list date) (w : World) :
  decodable_answers env -> days_unique w ->
  exists w',
    generate_batch env language_code force dates w = (Ok tt, w')
    /\ (forall l, In l (output w) -> In l (output w'))
    /\ (forall d, In d dates -> In (generating_line d language_code) (output w')).
Proof.
  intros Hdec. revert w. induction dates as [|d dates IH]; intros w Hu.
  - exists w. split; [reflexivity|]. split; [auto|intros d []].
  - destruct (generate_for_date_returns env d language_code force w Hdec Hu)
      as (w1 & lines & Hrun & Hout).
    unfold generate_batch. cbn [for_each]. unfold bind at 1. rewrite Hrun.
    fold (generate_batch env language_code force dates).
    destruct (generate_for_date_step _ _ _ _ _ _ _ Hrun) as (Hd & _).
    destruct (IH w1) as (w' & Hbatch & Hkeep & Hall).
    { intros d'. rewrite Hd. apply Hu. }
    exists w'. split; [exact Hbatch|]. split.
    + intros l Hl. apply Hkeep. rewrite Hout. apply in_or_app. left. exact Hl.
    + intros d' [<- | Hin]; [|apply Hall, Hin].
      apply Hkeep. rewrite Hout. apply in_or_app. right. left. reflexivity.
Qed.

Lemma generation_attempts_every_date_witness :
  exists w',
    generate_batch answering_env (lit "es") false [738886; 738887] two_gospels_world
    = (Ok tt, w')
    /\ In (generating_line 738887 (lit "es")) (output w').
Proof.
  destruct (generation_attempts_every_date answering_env (lit "es") false
              [738886; 738887] two_gospels_world) as (w' & Hrun & _ & Hall).
  - intros n url prompt key text e. discriminate.
  - intros d. unfold two_gospels_world, Objects.day_matches.
    cbn [days filter LiturgicalDay.date].
    destruct (Z.eqb_spec 738886 d), (Z.eqb_spec 738887 d); cbn [length]; lia.
  - exists w'. split; [exact Hrun|]. apply Hall. right. left. reflexivity.
Defined.
